(** * Local authentication core of open-gerege

    A shallow embedding of [internal/service/auth_service.go],
    [internal/service/registration_service.go], [internal/domain/auth.go]
    and [internal/repository/registration_repo.go], together with the
    parts of the Go standard library those files call.

    Conventions.
    - A Go [string] is a [string]; a [[]byte] is a [list byte].
    - Go [int], [uint32], [uint8], [time.Time] (nanoseconds) and
      [time.Duration] are [Z].
    - A Go [(T, error)] is a [result T]; a lone [error] is an
      [option Err] with [None] for [nil].
    - The relational store and the key-value store are fields of [World];
      every service operation is a function [World -> _ * World]. *)

From Stdlib Require Import ZArith List String Ascii Lia Bool DecimalString.
From Stdlib.Strings Require Import Byte.
From stdpp Require Import base option gmap strings list.

Local Open Scope Z_scope.

(** ** Bytes *)

Definition b2z (b : byte) : Z := Z.of_N (Byte.to_N b).

(** [byte(v)]: conversion of an unsigned integer to a byte keeps the low
    eight bits. *)
Definition z2b (z : Z) : byte :=
  match Byte.of_N (Z.to_N (z mod 256)) with
  | Some b => b
  | None => x00
  end.

(** [[]byte(s)] and [string(b)]. *)
Definition bytes_of_string (s : string) : list byte := list_byte_of_string s.
Definition string_of_bytes (b : list byte) : string := string_of_list_byte b.

#[global] Instance byte_eq_dec : EqDecision byte := fun x y =>
  match Byte.eqb x y as b return Byte.eqb x y = b -> Decision (x = y) with
  | true => fun e => left (Byte.byte_dec_bl x y e)
  | false => fun e =>
      right (fun h : x = y =>
        eq_ind true (fun b : bool => if b then True else False) I false
          (eq_trans (eq_sym (Byte.byte_dec_lb h)) e))
  end eq_refl.

(** ** encoding/base64 *)

Module Base64.

Definition encodeStd : string :=
  "ABCDEFGHIJKLMNOPQRSTUVWXYZabcdefghijklmnopqrstuvwxyz0123456789+/".
Definition encodeURL : string :=
  "ABCDEFGHIJKLMNOPQRSTUVWXYZabcdefghijklmnopqrstuvwxyz0123456789-_".

Record Encoding := { alphabet : string; padChar : option ascii }.

Definition StdEncoding : Encoding :=
  {| alphabet := encodeStd; padChar := Some "="%char |}.
Definition RawStdEncoding : Encoding :=
  {| alphabet := encodeStd; padChar := None |}.
Definition URLEncoding : Encoding :=
  {| alphabet := encodeURL; padChar := Some "="%char |}.

(** [enc.encode[i]] *)
Definition enc_char (enc : Encoding) (i : Z) : ascii :=
  match String.get (Z.to_nat i) (alphabet enc) with
  | Some c => c
  | None => "000"%char
  end.

Fixpoint index_from (c : ascii) (s : string) (i : Z) : option Z :=
  match s with
  | EmptyString => None
  | String d r => if Ascii.eqb c d then Some i else index_from c r (i + 1)
  end.

(** [enc.decodeMap[c]], with [None] for the 0xff entries. *)
Definition dec_char (enc : Encoding) (c : ascii) : option Z :=
  index_from c (alphabet enc) 0.

(** The 6-bit digits of the input, three bytes at a time.  With
    [val = src[0]<<16 | src[1]<<8 | src[2]] the digits are
    [val>>18&0x3F], [val>>12&0x3F], [val>>6&0x3F] and [val&0x3F];
    a remainder of one or two bytes yields two or three digits. *)
Fixpoint enc_groups (src : list byte) : list Z :=
  match src with
  | [] => []
  | [a] =>
      let v := b2z a * 65536 in
      [v / 262144 mod 64; v / 4096 mod 64]
  | [a; b] =>
      let v := b2z a * 65536 + b2z b * 256 in
      [v / 262144 mod 64; v / 4096 mod 64; v / 64 mod 64]
  | a :: b :: c :: rest =>
      let v := b2z a * 65536 + b2z b * 256 + b2z c in
      v / 262144 mod 64 :: v / 4096 mod 64 :: v / 64 mod 64 :: v mod 64
        :: enc_groups rest
  end.

Definition EncodeToString (enc : Encoding) (src : list byte) : string :=
  string_of_list_ascii
    (map (enc_char enc) (enc_groups src) ++
     match padChar enc with
     | Some p => repeat p ((3 - length src mod 3) mod 3)%nat
     | None => []
     end).

(** Four digits give three bytes ([val = d0<<18 | d1<<12 | d2<<6 | d3],
    bytes [val>>16], [val>>8], [val]); a final group of three or two
    digits gives two or one bytes; a single left-over digit is a
    [CorruptInputError]. *)
Fixpoint dec_groups (q : list Z) : option (list byte) :=
  match q with
  | [] => Some []
  | [_] => None
  | [a; b] =>
      let v := a * 262144 + b * 4096 in
      Some [z2b (v / 65536)]
  | [a; b; c] =>
      let v := a * 262144 + b * 4096 + c * 64 in
      Some [z2b (v / 65536); z2b (v / 256)]
  | a :: b :: c :: d :: rest =>
      let v := a * 262144 + b * 4096 + c * 64 + d in
      match dec_groups rest with
      | Some bs => Some (z2b (v / 65536) :: z2b (v / 256) :: z2b v :: bs)
      | None => None
      end
  end.

Definition is_newline (c : ascii) : bool :=
  Ascii.eqb c "010"%char || Ascii.eqb c "013"%char.

(** The longest prefix made of alphabet characters, as digits, and the
    rest of the input. *)
Fixpoint span_valid (enc : Encoding) (cs : list ascii)
  : list Z * list ascii :=
  match cs with
  | [] => ([], [])
  | c :: r =>
      match dec_char enc c with
      | Some i => let '(q, rest) := span_valid enc r in (i :: q, rest)
      | None => ([], cs)
      end
  end.

Definition ascii_list_eqb (x y : list ascii) : bool :=
  bool_decide (x = y).

(** [enc.DecodeString(s)], non-strict: carriage returns and line feeds
    are skipped; padding is accepted only where the encoding has a
    padding character, only at the end and only in the right amount;
    [None] stands for a non-nil error. *)
Definition DecodeString (enc : Encoding) (s : string)
  : option (list byte) :=
  let cs := List.filter (fun c => negb (is_newline c))
              (list_ascii_of_string s) in
  let '(q, rest) := span_valid enc cs in
  let r := (length q mod 4)%nat in
  match rest, padChar enc with
  | [], None => dec_groups q
  | [], Some _ => if (r =? 0)%nat then dec_groups q else None
  | _ :: _, None => None
  | _ :: _, Some p =>
      if ((r =? 2)%nat && ascii_list_eqb rest [p; p])
         || ((r =? 3)%nat && ascii_list_eqb rest [p])
      then dec_groups q
      else None
  end.

End Base64.


(** ** encoding/base32 *)

Module Base32.

Definition encodeStd : string := "ABCDEFGHIJKLMNOPQRSTUVWXYZ234567".

Definition bits_of_byte (b : byte) : list bool :=
  map (fun k => Z.testbit (b2z b) k) [7; 6; 5; 4; 3; 2; 1; 0].

Definition bits_val (l : list bool) : Z :=
  fold_left (fun acc (b : bool) => 2 * acc + (if b then 1 else 0)) l 0.

(** The 5-bit digits of a bit string, the last one filled with zero
    bits. *)
Fixpoint quintets (bs : list bool) : list Z :=
  match bs with
  | [] => []
  | b4 :: b3 :: b2 :: b1 :: b0 :: rest =>
      bits_val [b4; b3; b2; b1; b0] :: quintets rest
  | part => [bits_val (part ++ repeat false (5 - length part)%nat)]
  end.

Definition enc_char (i : Z) : ascii :=
  match String.get (Z.to_nat i) encodeStd with
  | Some c => c
  | None => "000"%char
  end.

(** [base32.StdEncoding.EncodeToString(src)], padded with ['='] to a
    multiple of eight characters. *)
Definition EncodeToString (src : list byte) : string :=
  let digits := quintets (concat (map bits_of_byte src)) in
  string_of_list_ascii
    (map enc_char digits ++
     repeat "="%char ((8 - length digits mod 8) mod 8)%nat).

End Base32.

(** ** strings *)

Module Strings.

(** [strings.Split(s, sep)] for a separator of one byte: one more part
    than there are separators, so [Split("", sep)] is [[""]]. *)
Fixpoint Split (s : string) (sep : ascii) : list string :=
  match s with
  | EmptyString => [EmptyString]
  | String c r =>
      if Ascii.eqb c sep then EmptyString :: Split r sep
      else match Split r sep with
           | p :: ps => String c p :: ps
           | [] => [String c EmptyString]
           end
  end.

Definition upper_char (c : ascii) : ascii :=
  let n := nat_of_ascii c in
  if ((97 <=? n) && (n <=? 122))%nat then ascii_of_nat (n - 32) else c.

(** [strings.ToUpper(s)] on ASCII text. *)
Fixpoint ToUpper (s : string) : string :=
  match s with
  | EmptyString => EmptyString
  | String c r => String (upper_char c) (ToUpper r)
  end.

End Strings.

(** ** fmt and strconv *)

Module Fmt.

(** [strconv.Itoa(n)], also the [%d] verb of [fmt.Sprintf]. *)
Definition Itoa (n : Z) : string := NilZero.string_of_int (Z.to_int n).

Definition is_digit (c : ascii) : bool :=
  let n := nat_of_ascii c in ((48 <=? n) && (n <=? 57))%nat.

(** [unicode.IsSpace] on ASCII: tab, line feed, vertical tab, form feed,
    carriage return and space. *)
Definition isSpace (c : ascii) : bool :=
  let n := nat_of_ascii c in (((9 <=? n) && (n <=? 13)) || (n =? 32))%nat.

(** [ss.SkipSpace] as [Sscanf] runs it: spaces are skipped, a line feed
    in the input is an error. *)
Fixpoint SkipSpace (s : string) : option string :=
  match s with
  | EmptyString => Some EmptyString
  | String c r =>
      if Ascii.eqb c "010"%char then None
      else if isSpace c then SkipSpace r
      else Some s
  end.

(** The longest prefix of characters accepted by [scanNumber] for the
    verb [%d], whose digit set is ["0123456789_"]. *)
Fixpoint take_number (s : string) : string * string :=
  match s with
  | EmptyString => (EmptyString, EmptyString)
  | String c r =>
      if is_digit c || Ascii.eqb c "_"%char
      then let '(t, rest) := take_number r in (String c t, rest)
      else (EmptyString, s)
  end.

(** Base-10 [strconv.ParseUint] without the range check: an underscore
    or an empty token is a syntax error. *)
Fixpoint parse_digits (tok : string) (acc : Z) : option Z :=
  match tok with
  | EmptyString => Some acc
  | String c r =>
      if is_digit c
      then parse_digits r (10 * acc + (Z.of_nat (nat_of_ascii c) - 48))
      else None
  end.

(** [ss.scanUint('d', bits)]: the value and the unread input. *)
Definition scanUint (bits : Z) (s : string) : option (Z * string) :=
  s1 ← SkipSpace s;
  match take_number s1 with
  | (EmptyString, _) => None
  | (tok, rest) =>
      v ← parse_digits tok 0;
      if (v <? 2 ^ 64) && (v <? 2 ^ bits) then Some (v, rest) else None
  end.

(** [ss.scanInt('d', bits)]: an optional sign, then as [scanUint]. *)
Definition scanInt (bits : Z) (s : string) : option (Z * string) :=
  s1 ← SkipSpace s;
  let '(neg, s2) :=
    match s1 with
    | String "-"%char r => (true, r)
    | String "+"%char r => (false, r)
    | _ => (false, s1)
    end in
  match take_number s2 with
  | (EmptyString, _) => None
  | (tok, rest) =>
      m ← parse_digits tok 0;
      let v := if neg then - m else m in
      if (- 2 ^ 63 <=? v) && (v <? 2 ^ 63)
         && (- 2 ^ (bits - 1) <=? v) && (v <? 2 ^ (bits - 1))
      then Some (v, rest) else None
  end.

(** Literal text of a format: the input must start with it. *)
Fixpoint literal (lit s : string) : option string :=
  match lit, s with
  | EmptyString, _ => Some s
  | String a l, String b r => if Ascii.eqb a b then literal l r else None
  | String _ _, EmptyString => None
  end.

End Fmt.

(** ** Errors and results *)

(** The sentinel errors of [auth_service.go] and
    [registration_service.go], [gorm.ErrRecordNotFound], anonymous
    [errors.New] values and [fmt.Errorf("...: %w", err)] wrappers. *)
Inductive Err : Type :=
| ErrInvalidCredentials
| ErrAccountLocked
| ErrAccountNotActive
| ErrMFARequired
| ErrInvalidMFACode
| ErrMFANotEnabled
| ErrMFAAlreadyEnabled
| ErrInvalidSession
| ErrPasswordTooWeak
| ErrPasswordReused
| ErrUserNotFound
| ErrCredentialsNotFound
| ErrEmailAlreadyExists
| ErrInvalidVerificationToken
| ErrInvalidResetToken
| ErrUserAlreadyVerified
| ErrPasswordMismatch
| ErrRecordNotFound
| ErrNew (msg : string)
| ErrWrap (msg : string) (inner : Err).

Inductive result (A : Type) : Type :=
| Ok (a : A)
| Fail (e : Err).
Arguments Ok {A} a.
Arguments Fail {A} e.

(** ** Libraries outside the repository *)

Inductive JValue : Type :=
| JString (s : string)
| JInt (n : Z)
| JBool (b : bool)
| JTime (t : Z).

(** The third-party functions the service calls.  They are parameters of
    the development: [argon2.IDKey], [totp.Validate] (which reads the
    clock, here its third argument), the [Open] of AES-256-GCM (key,
    nonce, ciphertext), the text of a UUID made of 16 random bytes, and
    [json.Marshal] on a [map[string]interface{}].

    [argon2.IDKey] panics when its time or thread count is 0.  The
    parameter is a total function, so the model says nothing about a
    stored hash whose text carries such a count; [hashPassword] never
    writes one. *)
Class Libs : Type := {
  argon2_IDKey : list byte -> list byte -> Z -> Z -> Z -> Z -> list byte;
  totp_Validate : string -> string -> Z -> bool;
  gcm_Open : list byte -> list byte -> list byte -> option (list byte);
  uuid_String : list byte -> string;
  json_Marshal : list (string * JValue) -> option string
}.

(** [argon2.IDKey] returns exactly [keyLen] bytes. *)
Definition IDKey_length_law (L : Libs) : Prop :=
  forall password salt time memory threads keyLen,
    0 <= keyLen ->
    Z.of_nat (length (argon2_IDKey password salt time memory threads keyLen))
    = keyLen.

(** ** Configuration: [config.LocalAuthConfig] *)

(** Modelled from the spec: [config.LocalAuthConfig] (the config package
    is not among the sources); the fields the two services read. *)

Record LocalAuthConfig : Type := {
  LockoutThreshold : Z;
  LockoutDuration : Z;
  MFATokenTTL : Z;
  SessionTTL : Z;
  PasswordMinLength : Z;
  PasswordHistoryCount : Z;
  TOTPIssuer : string;
  EncryptionKey : string
}.

(** ** Domain model: [internal/domain/auth.go]

    Columns the service never reads (audit columns, associations) are
    left out.  Field names carry a prefix for their struct. *)

Definition UserStatusActive : string := "active".
Definition UserStatusSuspended : string := "suspended".
Definition UserStatusLocked : string := "locked".
Definition UserStatusPendingVerification : string := "pending_verification".
Definition UserStatusDeactivated : string := "deactivated".

(** Modelled from the spec: [domain.User] (user.go is not among the
    sources); the Identity's id, email and account status, and the
    login statistics of [UserStatusInfo]. *)
Record User : Type := {
  u_Id : Z;
  u_Email : string;
  u_Status : string;
  u_LastLoginAt : option Z;
  u_LoginCount : Z
}.

Record UserCredential : Type := {
  uc_UserID : Z;
  uc_PasswordHash : string;
  uc_PasswordChangedAt : option Z;
  uc_FailedLoginAttempts : Z;
  uc_LockedUntil : option Z;
  uc_MustChangePassword : bool
}.

(** [UserCredential.IsLocked] *)
Definition IsLocked (now : Z) (uc : UserCredential) : bool :=
  match uc_LockedUntil uc with
  | None => false
  | Some t => now <? t
  end.

Record UserMFATotp : Type := {
  mfa_UserID : Z;
  mfa_SecretEncrypted : string;
  mfa_IsEnabled : bool;
  mfa_VerifiedAt : option Z
}.

Record UserMFABackupCode : Type := {
  bc_ID : Z;
  bc_UserID : Z;
  bc_CodeHash : string;
  bc_Salt : string;
  bc_UsedAt : option Z
}.

(** [UserMFABackupCode.IsUsed] *)
Definition bc_IsUsed (bc : UserMFABackupCode) : bool :=
  match bc_UsedAt bc with Some _ => true | None => false end.

Record Session : Type := {
  s_ID : string;
  s_UserID : Z;
  s_IPAddress : string;
  s_UserAgent : string;
  s_ExpiresAt : Z;
  s_LastActivityAt : Z;
  s_RevokedAt : option Z;
  s_RevokedReason : string
}.

Record LoginHistory : Type := {
  lh_UserID : option Z;
  lh_Email : string;
  lh_IPAddress : string;
  lh_UserAgent : string;
  lh_LoginMethod : string;
  lh_Success : bool;
  lh_FailureReason : string;
  lh_MFAUsed : bool
}.

Record SecurityAuditTrail : Type := {
  sat_UserID : option Z;
  sat_Action : string;
  sat_TargetType : string;
  sat_TargetID : string;
  sat_OldValue : string;
  sat_NewValue : string;
  sat_IPAddress : string;
  sat_UserAgent : string
}.

Record PasswordHistory : Type := {
  ph_UserID : Z;
  ph_PasswordHash : string
}.

Record PasswordResetToken : Type := {
  prt_ID : Z;
  prt_UserID : Z;
  prt_Token : string;
  prt_ExpiresAt : Z;
  prt_UsedAt : option Z
}.

(** [PasswordResetToken.IsExpired] and [PasswordResetToken.IsUsed] *)
Definition prt_IsExpired (now : Z) (t : PasswordResetToken) : bool :=
  prt_ExpiresAt t <? now.
Definition prt_IsUsed (t : PasswordResetToken) : bool :=
  match prt_UsedAt t with Some _ => true | None => false end.

(** Modelled from the spec: [service.SessionData], declared with the
    session store, which is not among the sources; the fields are those
    [createSession] fills in. *)
Record SessionData : Type := {
  sd_SessionID : string;
  sd_UserID : Z;
  sd_Email : string;
  sd_IPAddress : string;
  sd_UserAgent : string;
  sd_CreatedAt : Z;
  sd_ExpiresAt : Z;
  sd_LastActivityAt : Z
}.

(** Modelled from the spec: [service.MFAPendingData], declared with the
    session store; the fields are those [Login] fills in. *)
Record MFAPendingData : Type := {
  mp_UserID : Z;
  mp_Email : string;
  mp_IPAddress : string;
  mp_UserAgent : string;
  mp_ExpiresAt : Z
}.

(** ** The stores

    One field per table of the relational store, in insertion order; the
    two sequences that number backup codes and reset tokens; the two key
    spaces of the key-value store (sessions, and pending MFA logins with
    the instant their key expires); and the system's random source, an
    infinite sequence of bytes with a read position.

    Store calls always go through: an infrastructure failure (database
    or key-value store unreachable, random source exhausted) is outside
    the model, so the only error a lookup returns is "record not
    found". *)
Record World : Type := {
  users : list User;
  user_credentials : list UserCredential;
  user_mfa_totp : list UserMFATotp;
  user_mfa_backup_codes : list UserMFABackupCode;
  backup_code_seq : Z;
  sessions : list Session;
  login_history : list LoginHistory;
  security_audit_trail : list SecurityAuditTrail;
  password_history : list PasswordHistory;
  password_reset_tokens : list PasswordResetToken;
  reset_token_seq : Z;
  kv_sessions : gmap string SessionData;
  kv_mfa_tokens : gmap string (MFAPendingData * Z);
  entropy : nat -> byte;
  entropy_pos : nat
}.

Definition upd_users (f : (list User) -> (list User)) (w : World) : World :=
  {| users := f (users w);
     user_credentials := user_credentials w;
     user_mfa_totp := user_mfa_totp w;
     user_mfa_backup_codes := user_mfa_backup_codes w;
     backup_code_seq := backup_code_seq w;
     sessions := sessions w;
     login_history := login_history w;
     security_audit_trail := security_audit_trail w;
     password_history := password_history w;
     password_reset_tokens := password_reset_tokens w;
     reset_token_seq := reset_token_seq w;
     kv_sessions := kv_sessions w;
     kv_mfa_tokens := kv_mfa_tokens w;
     entropy := entropy w;
     entropy_pos := entropy_pos w |}.

Definition upd_user_credentials (f : (list UserCredential) -> (list UserCredential)) (w : World) : World :=
  {| users := users w;
     user_credentials := f (user_credentials w);
     user_mfa_totp := user_mfa_totp w;
     user_mfa_backup_codes := user_mfa_backup_codes w;
     backup_code_seq := backup_code_seq w;
     sessions := sessions w;
     login_history := login_history w;
     security_audit_trail := security_audit_trail w;
     password_history := password_history w;
     password_reset_tokens := password_reset_tokens w;
     reset_token_seq := reset_token_seq w;
     kv_sessions := kv_sessions w;
     kv_mfa_tokens := kv_mfa_tokens w;
     entropy := entropy w;
     entropy_pos := entropy_pos w |}.

Definition upd_user_mfa_totp (f : (list UserMFATotp) -> (list UserMFATotp)) (w : World) : World :=
  {| users := users w;
     user_credentials := user_credentials w;
     user_mfa_totp := f (user_mfa_totp w);
     user_mfa_backup_codes := user_mfa_backup_codes w;
     backup_code_seq := backup_code_seq w;
     sessions := sessions w;
     login_history := login_history w;
     security_audit_trail := security_audit_trail w;
     password_history := password_history w;
     password_reset_tokens := password_reset_tokens w;
     reset_token_seq := reset_token_seq w;
     kv_sessions := kv_sessions w;
     kv_mfa_tokens := kv_mfa_tokens w;
     entropy := entropy w;
     entropy_pos := entropy_pos w |}.

Definition upd_user_mfa_backup_codes (f : (list UserMFABackupCode) -> (list UserMFABackupCode)) (w : World) : World :=
  {| users := users w;
     user_credentials := user_credentials w;
     user_mfa_totp := user_mfa_totp w;
     user_mfa_backup_codes := f (user_mfa_backup_codes w);
     backup_code_seq := backup_code_seq w;
     sessions := sessions w;
     login_history := login_history w;
     security_audit_trail := security_audit_trail w;
     password_history := password_history w;
     password_reset_tokens := password_reset_tokens w;
     reset_token_seq := reset_token_seq w;
     kv_sessions := kv_sessions w;
     kv_mfa_tokens := kv_mfa_tokens w;
     entropy := entropy w;
     entropy_pos := entropy_pos w |}.

Definition upd_backup_code_seq (f : Z -> Z) (w : World) : World :=
  {| users := users w;
     user_credentials := user_credentials w;
     user_mfa_totp := user_mfa_totp w;
     user_mfa_backup_codes := user_mfa_backup_codes w;
     backup_code_seq := f (backup_code_seq w);
     sessions := sessions w;
     login_history := login_history w;
     security_audit_trail := security_audit_trail w;
     password_history := password_history w;
     password_reset_tokens := password_reset_tokens w;
     reset_token_seq := reset_token_seq w;
     kv_sessions := kv_sessions w;
     kv_mfa_tokens := kv_mfa_tokens w;
     entropy := entropy w;
     entropy_pos := entropy_pos w |}.

Definition upd_sessions (f : (list Session) -> (list Session)) (w : World) : World :=
  {| users := users w;
     user_credentials := user_credentials w;
     user_mfa_totp := user_mfa_totp w;
     user_mfa_backup_codes := user_mfa_backup_codes w;
     backup_code_seq := backup_code_seq w;
     sessions := f (sessions w);
     login_history := login_history w;
     security_audit_trail := security_audit_trail w;
     password_history := password_history w;
     password_reset_tokens := password_reset_tokens w;
     reset_token_seq := reset_token_seq w;
     kv_sessions := kv_sessions w;
     kv_mfa_tokens := kv_mfa_tokens w;
     entropy := entropy w;
     entropy_pos := entropy_pos w |}.

Definition upd_login_history (f : (list LoginHistory) -> (list LoginHistory)) (w : World) : World :=
  {| users := users w;
     user_credentials := user_credentials w;
     user_mfa_totp := user_mfa_totp w;
     user_mfa_backup_codes := user_mfa_backup_codes w;
     backup_code_seq := backup_code_seq w;
     sessions := sessions w;
     login_history := f (login_history w);
     security_audit_trail := security_audit_trail w;
     password_history := password_history w;
     password_reset_tokens := password_reset_tokens w;
     reset_token_seq := reset_token_seq w;
     kv_sessions := kv_sessions w;
     kv_mfa_tokens := kv_mfa_tokens w;
     entropy := entropy w;
     entropy_pos := entropy_pos w |}.

Definition upd_security_audit_trail (f : (list SecurityAuditTrail) -> (list SecurityAuditTrail)) (w : World) : World :=
  {| users := users w;
     user_credentials := user_credentials w;
     user_mfa_totp := user_mfa_totp w;
     user_mfa_backup_codes := user_mfa_backup_codes w;
     backup_code_seq := backup_code_seq w;
     sessions := sessions w;
     login_history := login_history w;
     security_audit_trail := f (security_audit_trail w);
     password_history := password_history w;
     password_reset_tokens := password_reset_tokens w;
     reset_token_seq := reset_token_seq w;
     kv_sessions := kv_sessions w;
     kv_mfa_tokens := kv_mfa_tokens w;
     entropy := entropy w;
     entropy_pos := entropy_pos w |}.

Definition upd_password_history (f : (list PasswordHistory) -> (list PasswordHistory)) (w : World) : World :=
  {| users := users w;
     user_credentials := user_credentials w;
     user_mfa_totp := user_mfa_totp w;
     user_mfa_backup_codes := user_mfa_backup_codes w;
     backup_code_seq := backup_code_seq w;
     sessions := sessions w;
     login_history := login_history w;
     security_audit_trail := security_audit_trail w;
     password_history := f (password_history w);
     password_reset_tokens := password_reset_tokens w;
     reset_token_seq := reset_token_seq w;
     kv_sessions := kv_sessions w;
     kv_mfa_tokens := kv_mfa_tokens w;
     entropy := entropy w;
     entropy_pos := entropy_pos w |}.

Definition upd_password_reset_tokens (f : (list PasswordResetToken) -> (list PasswordResetToken)) (w : World) : World :=
  {| users := users w;
     user_credentials := user_credentials w;
     user_mfa_totp := user_mfa_totp w;
     user_mfa_backup_codes := user_mfa_backup_codes w;
     backup_code_seq := backup_code_seq w;
     sessions := sessions w;
     login_history := login_history w;
     security_audit_trail := security_audit_trail w;
     password_history := password_history w;
     password_reset_tokens := f (password_reset_tokens w);
     reset_token_seq := reset_token_seq w;
     kv_sessions := kv_sessions w;
     kv_mfa_tokens := kv_mfa_tokens w;
     entropy := entropy w;
     entropy_pos := entropy_pos w |}.

Definition upd_reset_token_seq (f : Z -> Z) (w : World) : World :=
  {| users := users w;
     user_credentials := user_credentials w;
     user_mfa_totp := user_mfa_totp w;
     user_mfa_backup_codes := user_mfa_backup_codes w;
     backup_code_seq := backup_code_seq w;
     sessions := sessions w;
     login_history := login_history w;
     security_audit_trail := security_audit_trail w;
     password_history := password_history w;
     password_reset_tokens := password_reset_tokens w;
     reset_token_seq := f (reset_token_seq w);
     kv_sessions := kv_sessions w;
     kv_mfa_tokens := kv_mfa_tokens w;
     entropy := entropy w;
     entropy_pos := entropy_pos w |}.

Definition upd_kv_sessions (f : (gmap string SessionData) -> (gmap string SessionData)) (w : World) : World :=
  {| users := users w;
     user_credentials := user_credentials w;
     user_mfa_totp := user_mfa_totp w;
     user_mfa_backup_codes := user_mfa_backup_codes w;
     backup_code_seq := backup_code_seq w;
     sessions := sessions w;
     login_history := login_history w;
     security_audit_trail := security_audit_trail w;
     password_history := password_history w;
     password_reset_tokens := password_reset_tokens w;
     reset_token_seq := reset_token_seq w;
     kv_sessions := f (kv_sessions w);
     kv_mfa_tokens := kv_mfa_tokens w;
     entropy := entropy w;
     entropy_pos := entropy_pos w |}.

Definition upd_kv_mfa_tokens (f : (gmap string (MFAPendingData * Z)) -> (gmap string (MFAPendingData * Z))) (w : World) : World :=
  {| users := users w;
     user_credentials := user_credentials w;
     user_mfa_totp := user_mfa_totp w;
     user_mfa_backup_codes := user_mfa_backup_codes w;
     backup_code_seq := backup_code_seq w;
     sessions := sessions w;
     login_history := login_history w;
     security_audit_trail := security_audit_trail w;
     password_history := password_history w;
     password_reset_tokens := password_reset_tokens w;
     reset_token_seq := reset_token_seq w;
     kv_sessions := kv_sessions w;
     kv_mfa_tokens := f (kv_mfa_tokens w);
     entropy := entropy w;
     entropy_pos := entropy_pos w |}.

Definition upd_entropy_pos (f : nat -> nat) (w : World) : World :=
  {| users := users w;
     user_credentials := user_credentials w;
     user_mfa_totp := user_mfa_totp w;
     user_mfa_backup_codes := user_mfa_backup_codes w;
     backup_code_seq := backup_code_seq w;
     sessions := sessions w;
     login_history := login_history w;
     security_audit_trail := security_audit_trail w;
     password_history := password_history w;
     password_reset_tokens := password_reset_tokens w;
     reset_token_seq := reset_token_seq w;
     kv_sessions := kv_sessions w;
     kv_mfa_tokens := kv_mfa_tokens w;
     entropy := entropy w;
     entropy_pos := f (entropy_pos w) |}.

(** [rand.Read(b)] and [io.ReadFull(rand.Reader, b)] for a buffer of [n]
    bytes: the next [n] bytes of the random source. *)
Definition rand_Read (n : nat) (w : World) : list byte * World :=
  (map (entropy w) (seq (entropy_pos w) n),
   upd_entropy_pos (fun p => (p + n)%nat) w).

(** ** [repository.AuthRepository] *)

Module AuthRepo.

(** Modelled from the spec: [AuthRepository.GetUserByEmail] (its
    implementation, auth_repo.go, is not among the sources); the
    Identity with that email, or record-not-found. *)
Definition GetUserByEmail (email : string) (w : World) : option User :=
  List.find (fun u => String.eqb (u_Email u) email) (users w).

(** Modelled from the spec: [AuthRepository.GetCredentialByUserID]; the
    Credential is one-to-one with the Identity. *)
Definition GetCredentialByUserID (userID : Z) (w : World)
  : option UserCredential :=
  List.find (fun c => uc_UserID c =? userID) (user_credentials w).

Definition on_credential (userID : Z)
    (f : UserCredential -> UserCredential) (w : World) : World :=
  upd_user_credentials
    (map (fun c => if uc_UserID c =? userID then f c else c)) w.

(** Modelled from the spec: [AuthRepository.IncrementFailedAttempts];
    increments the Credential's failed-attempt counter. *)
Definition IncrementFailedAttempts (userID : Z) : World -> World :=
  on_credential userID (fun c =>
    {| uc_UserID := uc_UserID c;
       uc_PasswordHash := uc_PasswordHash c;
       uc_PasswordChangedAt := uc_PasswordChangedAt c;
       uc_FailedLoginAttempts := uc_FailedLoginAttempts c + 1;
       uc_LockedUntil := uc_LockedUntil c;
       uc_MustChangePassword := uc_MustChangePassword c |}).

(** Modelled from the spec: [AuthRepository.LockAccount]; sets
    lock-until. *)
Definition LockAccount (userID : Z) (lockUntil : Z) : World -> World :=
  on_credential userID (fun c =>
    {| uc_UserID := uc_UserID c;
       uc_PasswordHash := uc_PasswordHash c;
       uc_PasswordChangedAt := uc_PasswordChangedAt c;
       uc_FailedLoginAttempts := uc_FailedLoginAttempts c;
       uc_LockedUntil := Some lockUntil;
       uc_MustChangePassword := uc_MustChangePassword c |}).

(** Modelled from the spec: [AuthRepository.ResetFailedAttempts];
    resets the failed-attempt counter to zero. *)
Definition ResetFailedAttempts (userID : Z) : World -> World :=
  on_credential userID (fun c =>
    {| uc_UserID := uc_UserID c;
       uc_PasswordHash := uc_PasswordHash c;
       uc_PasswordChangedAt := uc_PasswordChangedAt c;
       uc_FailedLoginAttempts := 0;
       uc_LockedUntil := uc_LockedUntil c;
       uc_MustChangePassword := uc_MustChangePassword c |}).

(** Modelled from the spec: [AuthRepository.UpdateCredential]; the
    Credential is replaced, never deleted. *)
Definition UpdateCredential (cred : UserCredential) : World -> World :=
  on_credential (uc_UserID cred) (fun _ => cred).

(** Modelled from the spec: [AuthRepository.CreateCredential]; inserts
    the row.  The [BeforeCreate] hook of [UserCredential] stamps
    [PasswordChangedAt] first. *)
Definition CreateCredential (now : Z) (cred : UserCredential)
  : World -> World :=
  upd_user_credentials (fun l => l ++
    [ {| uc_UserID := uc_UserID cred;
         uc_PasswordHash := uc_PasswordHash cred;
         uc_PasswordChangedAt := Some now;
         uc_FailedLoginAttempts := uc_FailedLoginAttempts cred;
         uc_LockedUntil := uc_LockedUntil cred;
         uc_MustChangePassword := uc_MustChangePassword cred |} ]).

(** Modelled from the spec: [AuthRepository.UpdateUserLoginStats];
    updates login statistics. *)
Definition UpdateUserLoginStats (now : Z) (userID : Z) : World -> World :=
  upd_users (map (fun u =>
    if u_Id u =? userID
    then {| u_Id := u_Id u; u_Email := u_Email u; u_Status := u_Status u;
            u_LastLoginAt := Some now; u_LoginCount := u_LoginCount u + 1 |}
    else u)).

(** Modelled from the spec: [AuthRepository.GetMFAByUserID]; the
    MFAConfig is one-to-one with the Identity. *)
Definition GetMFAByUserID (userID : Z) (w : World) : option UserMFATotp :=
  List.find (fun m => mfa_UserID m =? userID) (user_mfa_totp w).

(** Modelled from the spec: [AuthRepository.EnableMFA]; flips the
    MFAConfig to enabled and stamps verified-at. *)
Definition EnableMFA (now : Z) (userID : Z) : World -> World :=
  upd_user_mfa_totp (map (fun m =>
    if mfa_UserID m =? userID
    then {| mfa_UserID := mfa_UserID m;
            mfa_SecretEncrypted := mfa_SecretEncrypted m;
            mfa_IsEnabled := true;
            mfa_VerifiedAt := Some now |}
    else m)).

(** Modelled from the spec: [AuthRepository.DisableMFA]; flips the
    MFAConfig to not enabled. *)
Definition DisableMFA (userID : Z) : World -> World :=
  upd_user_mfa_totp (map (fun m =>
    if mfa_UserID m =? userID
    then {| mfa_UserID := mfa_UserID m;
            mfa_SecretEncrypted := mfa_SecretEncrypted m;
            mfa_IsEnabled := false;
            mfa_VerifiedAt := mfa_VerifiedAt m |}
    else m)).

(** Modelled from the spec: [AuthRepository.GetUnusedBackupCodes]; the
    Identity's codes whose used-at is null. *)
Definition GetUnusedBackupCodes (userID : Z) (w : World)
  : list UserMFABackupCode :=
  List.filter (fun c => (bc_UserID c =? userID) && negb (bc_IsUsed c))
    (user_mfa_backup_codes w).


(** Modelled from the spec: [AuthRepository.DeleteBackupCodes]; deletes
    all BackupCodes of the Identity. *)
Definition DeleteBackupCodes (userID : Z) : World -> World :=
  upd_user_mfa_backup_codes
    (List.filter (fun c => negb (bc_UserID c =? userID))).

Fixpoint number_codes (next : Z) (rows : list UserMFABackupCode)
  : list UserMFABackupCode :=
  match rows with
  | [] => []
  | c :: r =>
      {| bc_ID := next; bc_UserID := bc_UserID c;
         bc_CodeHash := bc_CodeHash c; bc_Salt := bc_Salt c;
         bc_UsedAt := bc_UsedAt c |} :: number_codes (next + 1) r
  end.

(** Modelled from the spec: [AuthRepository.CreateBackupCodes]; inserts
    the rows, numbered by the table's sequence. *)
Definition CreateBackupCodes (rows : list UserMFABackupCode) (w : World)
  : World :=
  upd_backup_code_seq (fun n => n + Z.of_nat (length rows))
    (upd_user_mfa_backup_codes
       (fun l => l ++ number_codes (backup_code_seq w + 1) rows) w).

(** Modelled from the spec: [AuthRepository.CreatePasswordHistory];
    PasswordHistoryEntry is append-only. *)
Definition CreatePasswordHistory (h : PasswordHistory) : World -> World :=
  upd_password_history (fun l => l ++ [h]).

(** Modelled from the spec: [AuthRepository.GetPasswordHistory]; the
    last [limit] prior hashes of the Identity, newest first. *)
Definition GetPasswordHistory (userID : Z) (limit : Z) (w : World)
  : list PasswordHistory :=
  firstn (Z.to_nat limit)
    (rev (List.filter (fun h => ph_UserID h =? userID)
            (password_history w))).

(** Modelled from the spec: [AuthRepository.CreateLoginHistory];
    LoginHistoryEntry is append-only. *)
Definition CreateLoginHistory (h : LoginHistory) : World -> World :=
  upd_login_history (fun l => l ++ [h]).

(** Modelled from the spec: [AuthRepository.CreateAuditTrail];
    AuditEvent is append-only. *)
Definition CreateAuditTrail (a : SecurityAuditTrail) : World -> World :=
  upd_security_audit_trail (fun l => l ++ [a]).

(** Modelled from the spec: [AuthRepository.CreateSession]; the durable
    mirror row of a session. *)
Definition CreateSession (s : Session) : World -> World :=
  upd_sessions (fun l => l ++ [s]).

(** Modelled from the spec: [AuthRepository.RevokeAllUserSessions];
    marks all durable mirrors of the Identity revoked, with the
    reason. *)
Definition RevokeAllUserSessions (now : Z) (userID : Z) (reason : string)
  : World -> World :=
  upd_sessions (map (fun s =>
    if (s_UserID s =? userID)
       && match s_RevokedAt s with None => true | Some _ => false end
    then {| s_ID := s_ID s; s_UserID := s_UserID s;
            s_IPAddress := s_IPAddress s; s_UserAgent := s_UserAgent s;
            s_ExpiresAt := s_ExpiresAt s;
            s_LastActivityAt := s_LastActivityAt s;
            s_RevokedAt := Some now; s_RevokedReason := reason |}
    else s)).

End AuthRepo.

(** ** [service.SessionStore] *)

Module SessionStore.

(** Modelled from the spec: [SessionStore.StoreMFAToken] (the store's
    implementation is not among the sources); set-with-TTL of the
    MFAPendingAuth record under its one-time token. *)
Definition StoreMFAToken (now : Z) (token : string)
    (data : MFAPendingData) (ttl : Z) : World -> World :=
  upd_kv_mfa_tokens (fun m => <[token := (data, now + ttl)]> m).

(** Modelled from the spec: [SessionStore.GetMFAToken]; the record, or
    nil when it is missing or its TTL has passed. *)
Definition GetMFAToken (now : Z) (token : string) (w : World)
  : option MFAPendingData :=
  match kv_mfa_tokens w !! token with
  | Some (data, deadline) => if now <? deadline then Some data else None
  | None => None
  end.

(** Modelled from the spec: [SessionStore.DeleteMFAToken]; deletes the
    key. *)
Definition DeleteMFAToken (token : string) : World -> World :=
  upd_kv_mfa_tokens (fun m => delete token m).

(** Modelled from the spec: [SessionStore.Create]; the primary session
    record under its id. *)
Definition Create (session : SessionData) : World -> World :=
  upd_kv_sessions (fun m => <[sd_SessionID session := session]> m).

(** Modelled from the spec: [SessionStore.Get]; the session, or nil
    when it is missing or expired. *)
Definition Get (now : Z) (sessionID : string) (w : World)
  : option SessionData :=
  match kv_sessions w !! sessionID with
  | Some s => if now <? sd_ExpiresAt s then Some s else None
  | None => None
  end.

(** Modelled from the spec: [SessionStore.DeleteAllUserSessions];
    enumerates and deletes every session of the Identity. *)
Definition DeleteAllUserSessions (userID : Z) : World -> World :=
  upd_kv_sessions
    (fun m => filter (fun kv => sd_UserID (snd kv) ≠ userID) m).

End SessionStore.

(** ** [repository.RegistrationRepository] (password reset tokens) *)

Module RegRepo.

(** [Create(token)]: the row gets the next id of the sequence. *)
Definition CreatePasswordResetToken (token : PasswordResetToken)
    (w : World) : World :=
  upd_reset_token_seq (fun n => n + 1)
    (upd_password_reset_tokens (fun l => l ++
       [ {| prt_ID := reset_token_seq w + 1;
            prt_UserID := prt_UserID token;
            prt_Token := prt_Token token;
            prt_ExpiresAt := prt_ExpiresAt token;
            prt_UsedAt := prt_UsedAt token |} ]) w).

(** [Where("token = ?", tokenStr).First(&token)] *)
Definition GetPasswordResetToken (tokenStr : string) (w : World)
  : option PasswordResetToken :=
  List.find (fun t => String.eqb (prt_Token t) tokenStr)
    (password_reset_tokens w).

(** [Where("id = ?", tokenID).Update("used_at", now)] *)
Definition MarkPasswordResetTokenUsed (now : Z) (tokenID : Z)
  : World -> World :=
  upd_password_reset_tokens (map (fun t =>
    if prt_ID t =? tokenID
    then {| prt_ID := prt_ID t; prt_UserID := prt_UserID t;
            prt_Token := prt_Token t; prt_ExpiresAt := prt_ExpiresAt t;
            prt_UsedAt := Some now |}
    else t)).

(** [Where("user_id = ?", userID).Delete(&PasswordResetToken{})] *)
Definition DeleteUserPasswordResetTokens (userID : Z) : World -> World :=
  upd_password_reset_tokens
    (List.filter (fun t => negb (prt_UserID t =? userID))).

End RegRepo.

(** ** [service.AuthService]

    Every operation takes the instant [now] that [time.Now()] returns
    while it runs.  Where the source tests the error of a store call, the
    model continues on the nil branch (see [World]).  Calls to the
    logger are not modelled. *)

Record LoginRequest : Type := {
  lr_Email : string;
  lr_Password : string;
  lr_IPAddress : string;
  lr_UserAgent : string
}.

Record LoginResponse : Type := {
  RequiresMFA : bool;
  MFAToken : string;
  resp_Session : option SessionData;
  resp_User : option User
}.

Record VerifyMFARequest : Type := {
  vr_MFAToken : string;
  vr_Code : string;
  vr_IPAddress : string;
  vr_UserAgent : string
}.

(** [subtle.ConstantTimeCompare] *)
Definition ConstantTimeCompare (x y : list byte) : Z :=
  if decide (x = y) then 1 else 0.

Definition AuditActionPasswordChange : string := "password_change".
Definition AuditActionMFAEnable : string := "mfa_enable".
Definition AuditActionMFADisable : string := "mfa_disable".
Definition AuditActionMFABackupRegen : string := "mfa_backup_regenerate".
Definition AuditActionLogoutAll : string := "logout_all".
Definition AuditActionAccountLock : string := "account_lock".
Definition AuditActionLoginSuccess : string := "login_success".

(** Argon2id parameters *)
Definition argon2Time : Z := 1.
Definition argon2Memory : Z := 64 * 1024.
Definition argon2Threads : Z := 4.
Definition argon2KeyLen : Z := 32.
Definition argon2SaltLen : nat := 16.
Definition argon2_Version : Z := 19.

Section AuthService.

Context {L : Libs}.
Variable cfg : LocalAuthConfig.

Definition logFailedLogin (userID : option Z)
    (email ip userAgent reason : string) : World -> World :=
  AuthRepo.CreateLoginHistory
    {| lh_UserID := userID; lh_Email := email; lh_IPAddress := ip;
       lh_UserAgent := userAgent; lh_LoginMethod := "local";
       lh_Success := false; lh_FailureReason := reason;
       lh_MFAUsed := false |}.

Definition marshal_or_empty (v : option (list (string * JValue)))
  : string :=
  match v with
  | Some m => match json_Marshal m with Some b => b | None => "" end
  | None => ""
  end.

Definition logAudit (userID : option Z)
    (action targetType targetID : string)
    (oldValue newValue : option (list (string * JValue)))
    (ip userAgent : string) : World -> World :=
  AuthRepo.CreateAuditTrail
    {| sat_UserID := userID; sat_Action := action;
       sat_TargetType := targetType; sat_TargetID := targetID;
       sat_OldValue := marshal_or_empty oldValue;
       sat_NewValue := marshal_or_empty newValue;
       sat_IPAddress := ip; sat_UserAgent := userAgent |}.

Definition logSuccessfulLogin (userID : Z)
    (email ip userAgent : string) (mfaUsed : bool) (w : World) : World :=
  let w := AuthRepo.CreateLoginHistory
    {| lh_UserID := Some userID; lh_Email := email; lh_IPAddress := ip;
       lh_UserAgent := userAgent; lh_LoginMethod := "local";
       lh_Success := true; lh_FailureReason := "";
       lh_MFAUsed := mfaUsed |} w in
  logAudit (Some userID) AuditActionLoginSuccess "user" (Fmt.Itoa userID)
    None (Some [("mfa_used"%string, JBool mfaUsed)]) ip userAgent w.

(** The encoded form [$argon2id$v=19$m=65536,t=1,p=4$salt$hash]. *)
Definition encode_hash (salt hash : list byte) : string :=
  "$argon2id$v=" +:+ Fmt.Itoa argon2_Version
  +:+ "$m=" +:+ Fmt.Itoa argon2Memory
  +:+ ",t=" +:+ Fmt.Itoa argon2Time
  +:+ ",p=" +:+ Fmt.Itoa argon2Threads
  +:+ "$" +:+ Base64.EncodeToString Base64.RawStdEncoding salt
  +:+ "$" +:+ Base64.EncodeToString Base64.RawStdEncoding hash.

Definition hashPassword (password : string) (w : World)
  : string * World :=
  let '(salt, w) := rand_Read argon2SaltLen w in
  let hash := argon2_IDKey (bytes_of_string password) salt
                argon2Time argon2Memory argon2Threads argon2KeyLen in
  (encode_hash salt hash, w).

(** [fmt.Sscanf(s, "v=%d", &version)] with [version int]. *)
Definition Sscanf_version (s : string) : option Z :=
  r ← Fmt.literal "v=" s;
  '(version, _) ← Fmt.scanInt 64 r;
  Some version.

(** [fmt.Sscanf(s, "m=%d,t=%d,p=%d", &memory, &time, &threads)] with
    [memory, time uint32] and [threads uint8]. *)
Definition Sscanf_params (s : string) : option (Z * Z * Z) :=
  r ← Fmt.literal "m=" s;
  '(memory, r) ← Fmt.scanUint 32 r;
  r ← Fmt.literal ",t=" r;
  '(time, r) ← Fmt.scanUint 32 r;
  r ← Fmt.literal ",p=" r;
  '(threads, _) ← Fmt.scanUint 8 r;
  Some (memory, time, threads).

Definition verifyPassword (password encodedHash : string) : bool :=
  match Strings.Split encodedHash "$" with
  | [_; _; p2; p3; p4; p5] =>
      match Sscanf_version p2 with
      | None => false
      | Some _ =>
      match Sscanf_params p3 with
      | None => false
      | Some (memory, time, threads) =>
      match Base64.DecodeString Base64.RawStdEncoding p4 with
      | None => false
      | Some salt =>
      match Base64.DecodeString Base64.RawStdEncoding p5 with
      | None => false
      | Some hash =>
          let comparisonHash :=
            argon2_IDKey (bytes_of_string password) salt time memory
              threads (Z.of_nat (length hash) mod 2 ^ 32) in
          ConstantTimeCompare hash comparisonHash =? 1
      end end end end
  | _ => false
  end.

Definition decryptTOTPSecret (encrypted : string) : result string :=
  let key := bytes_of_string (EncryptionKey cfg) in
  if negb (length key =? 32)%nat
  then Fail (ErrNew "encryption key must be 32 bytes")
  else
    match Base64.DecodeString Base64.StdEncoding encrypted with
    | None => Fail (ErrNew "illegal base64 data")
    | Some ciphertext =>
        let nonceSize := 12%nat in
        if (length ciphertext <? nonceSize)%nat
        then Fail (ErrNew "ciphertext too short")
        else
          let nonce := firstn nonceSize ciphertext in
          let ciphertext := skipn nonceSize ciphertext in
          match gcm_Open key nonce ciphertext with
          | None => Fail (ErrNew "cipher: message authentication failed")
          | Some plaintext => Ok (string_of_bytes plaintext)
          end
    end.

Definition generateRandomCode (w : World) : string * World :=
  let '(b, w) := rand_Read 5 w in
  (Strings.ToUpper (substring 0 8 (Base32.EncodeToString b)), w).

Definition hashBackupCodeWithSalt (code : string) (salt : list byte)
  : string :=
  let hash := argon2_IDKey (bytes_of_string code) salt
                1 (64 * 1024) 4 32 in
  Base64.EncodeToString Base64.RawStdEncoding hash.

Definition generateBackupCodeSalt (w : World)
  : list byte * string * World :=
  let '(salt, w) := rand_Read 16 w in
  (salt, Base64.EncodeToString Base64.RawStdEncoding salt, w).

(** The body of the loop of [generateBackupCodes], run [n] times: the
    plaintext codes and the rows to store. *)
Fixpoint backup_code_loop (n : nat) (userID : Z) (w : World)
  : list string * list UserMFABackupCode * World :=
  match n with
  | O => ([], [], w)
  | S n' =>
      let '(code, w) := generateRandomCode w in
      let '(salt, saltBase64, w) := generateBackupCodeSalt w in
      let row := {| bc_ID := 0; bc_UserID := userID;
                    bc_CodeHash := hashBackupCodeWithSalt code salt;
                    bc_Salt := saltBase64; bc_UsedAt := None |} in
      let '(codes, dbCodes, w) := backup_code_loop n' userID w in
      (code :: codes, row :: dbCodes, w)
  end.

Definition generateBackupCodes (userID : Z) (w : World)
  : result (list string) * World :=
  let '(codes, dbCodes, w) := backup_code_loop 10 userID w in
  let w := AuthRepo.CreateBackupCodes dbCodes w in
  (Ok codes, w).

Definition createSession (now : Z) (user : User) (ip userAgent : string)
    (w : World) : result SessionData * World :=
  let '(raw, w) := rand_Read 16 w in
  let sessionID := uuid_String raw in
  let session :=
    {| sd_SessionID := sessionID; sd_UserID := u_Id user;
       sd_Email := u_Email user; sd_IPAddress := ip;
       sd_UserAgent := userAgent; sd_CreatedAt := now;
       sd_ExpiresAt := now + SessionTTL cfg;
       sd_LastActivityAt := now |} in
  let w := SessionStore.Create session w in
  let dbSession :=
    {| s_ID := sessionID; s_UserID := u_Id user; s_IPAddress := ip;
       s_UserAgent := userAgent; s_ExpiresAt := sd_ExpiresAt session;
       s_LastActivityAt := now; s_RevokedAt := None;
       s_RevokedReason := "" |} in
  let w := AuthRepo.CreateSession dbSession w in
  (Ok session, w).

Definition Login (now : Z) (req : LoginRequest) (w : World)
  : result LoginResponse * World :=
  match AuthRepo.GetUserByEmail (lr_Email req) w with
  | None =>
      let w := logFailedLogin None (lr_Email req) (lr_IPAddress req)
                 (lr_UserAgent req) "user not found" w in
      (Fail ErrInvalidCredentials, w)
  | Some user =>
  if negb (String.eqb (u_Status user) UserStatusActive) then
    let w := logFailedLogin (Some (u_Id user)) (lr_Email req)
               (lr_IPAddress req) (lr_UserAgent req)
               "account not active" w in
    (Fail ErrAccountNotActive, w)
  else
  match AuthRepo.GetCredentialByUserID (u_Id user) w with
  | None =>
      let w := logFailedLogin (Some (u_Id user)) (lr_Email req)
                 (lr_IPAddress req) (lr_UserAgent req)
                 "no credentials" w in
      (Fail ErrCredentialsNotFound, w)
  | Some cred =>
  if IsLocked now cred then
    let w := logFailedLogin (Some (u_Id user)) (lr_Email req)
               (lr_IPAddress req) (lr_UserAgent req)
               "account locked" w in
    (Fail ErrAccountLocked, w)
  else
  if negb (verifyPassword (lr_Password req) (uc_PasswordHash cred)) then
    let w := AuthRepo.IncrementFailedAttempts (u_Id user) w in
    let w :=
      match AuthRepo.GetCredentialByUserID (u_Id user) w with
      | Some newCred =>
          if LockoutThreshold cfg <=? uc_FailedLoginAttempts newCred then
            let lockUntil := now + LockoutDuration cfg in
            let w := AuthRepo.LockAccount (u_Id user) lockUntil w in
            logAudit (Some (u_Id user)) AuditActionAccountLock "user"
              (Fmt.Itoa (u_Id user)) None
              (Some [("locked_until"%string, JTime lockUntil)])
              (lr_IPAddress req) (lr_UserAgent req) w
          else w
      | None => w
      end in
    let w := logFailedLogin (Some (u_Id user)) (lr_Email req)
               (lr_IPAddress req) (lr_UserAgent req)
               "invalid password" w in
    (Fail ErrInvalidCredentials, w)
  else
  let w := AuthRepo.ResetFailedAttempts (u_Id user) w in
  match AuthRepo.GetMFAByUserID (u_Id user) w with
  | Some {| mfa_IsEnabled := true |} =>
      let '(raw, w) := rand_Read 16 w in
      let mfaToken := uuid_String raw in
      let pendingData :=
        {| mp_UserID := u_Id user; mp_Email := u_Email user;
           mp_IPAddress := lr_IPAddress req;
           mp_UserAgent := lr_UserAgent req;
           mp_ExpiresAt := now + MFATokenTTL cfg |} in
      let w := SessionStore.StoreMFAToken now mfaToken pendingData
                 (MFATokenTTL cfg) w in
      (Ok {| RequiresMFA := true; MFAToken := mfaToken;
             resp_Session := None; resp_User := None |}, w)
  | _ =>
      match createSession now user (lr_IPAddress req) (lr_UserAgent req) w
      with
      | (Fail e, w) => (Fail e, w)
      | (Ok session, w) =>
          let w := AuthRepo.UpdateUserLoginStats now (u_Id user) w in
          let w := logSuccessfulLogin (u_Id user) (lr_Email req)
                     (lr_IPAddress req) (lr_UserAgent req) false w in
          (Ok {| RequiresMFA := false; MFAToken := "";
                 resp_Session := Some session;
                 resp_User := Some user |}, w)
      end
  end
  end
  end.

(** The tail shared by [VerifyMFA] and [VerifyBackupCode]: look the
    user up again, create the session, update the statistics and
    record the successful login. *)
Definition complete_mfa_login (now : Z) (pending : MFAPendingData)
    (ip userAgent : string) (w : World) : result LoginResponse * World :=
  match AuthRepo.GetUserByEmail (mp_Email pending) w with
  | None => (Fail ErrUserNotFound, w)
  | Some user =>
      match createSession now user ip userAgent w with
      | (Fail e, w) => (Fail e, w)
      | (Ok session, w) =>
          let w := AuthRepo.UpdateUserLoginStats now (u_Id user) w in
          let w := logSuccessfulLogin (u_Id user) (mp_Email pending)
                     ip userAgent true w in
          (Ok {| RequiresMFA := false; MFAToken := "";
                 resp_Session := Some session;
                 resp_User := Some user |}, w)
      end
  end.

Definition VerifyMFA (now : Z) (req : VerifyMFARequest) (w : World)
  : result LoginResponse * World :=
  match SessionStore.GetMFAToken now (vr_MFAToken req) w with
  | None => (Fail ErrInvalidSession, w)
  | Some pending =>
  match AuthRepo.GetMFAByUserID (mp_UserID pending) w with
  | Some ({| mfa_IsEnabled := true |} as mfa) =>
      match decryptTOTPSecret (mfa_SecretEncrypted mfa) with
      | Fail e => (Fail (ErrWrap "failed to decrypt MFA secret" e), w)
      | Ok secret =>
          if negb (totp_Validate (vr_Code req) secret now) then
            let w := logFailedLogin (Some (mp_UserID pending))
                       (mp_Email pending) (vr_IPAddress req)
                       (vr_UserAgent req) "invalid MFA code" w in
            (Fail ErrInvalidMFACode, w)
          else
            let w := SessionStore.DeleteMFAToken (vr_MFAToken req) w in
            complete_mfa_login now pending (vr_IPAddress req)
              (vr_UserAgent req) w
      end
  | _ => (Fail ErrMFANotEnabled, w)
  end
  end.

(** The loop of [VerifyBackupCode]: the first unused code whose hash,
    under its own salt, is the hash of the presented code. *)
Fixpoint match_backup_code (code : string)
    (codes : list UserMFABackupCode) : option UserMFABackupCode :=
  match codes with
  | [] => None
  | c :: rest =>
      match Base64.DecodeString Base64.RawStdEncoding (bc_Salt c) with
      | None => match_backup_code code rest
      | Some salt =>
          let codeHash := hashBackupCodeWithSalt code salt in
          if ConstantTimeCompare (bytes_of_string (bc_CodeHash c))
               (bytes_of_string codeHash) =? 1
          then Some c
          else match_backup_code code rest
      end
  end.


Definition ConfirmTOTP (now : Z) (userID : Z) (code ip userAgent : string)
    (w : World) : option Err * World :=
  match AuthRepo.GetMFAByUserID userID w with
  | None => (Some (ErrWrap "MFA not set up" ErrRecordNotFound), w)
  | Some mfa =>
  if mfa_IsEnabled mfa then (Some ErrMFAAlreadyEnabled, w)
  else
  match decryptTOTPSecret (mfa_SecretEncrypted mfa) with
  | Fail e => (Some (ErrWrap "failed to decrypt secret" e), w)
  | Ok secret =>
  if negb (totp_Validate code secret now) then (Some ErrInvalidMFACode, w)
  else
    let w := AuthRepo.EnableMFA now userID w in
    let '(r, w) := generateBackupCodes userID w in
    let backupCodes := match r with Ok cs => cs | Fail _ => [] end in
    let w := logAudit (Some userID) AuditActionMFAEnable "user"
               (Fmt.Itoa userID) None
               (Some [("backup_codes_generated"%string,
                       JInt (Z.of_nat (length backupCodes)))])
               ip userAgent w in
    (None, w)
  end
  end.

Definition DisableTOTP (now : Z) (userID : Z) (code ip userAgent : string)
    (w : World) : option Err * World :=
  match AuthRepo.GetMFAByUserID userID w with
  | None => (Some ErrMFANotEnabled, w)
  | Some mfa =>
  if negb (mfa_IsEnabled mfa) then (Some ErrMFANotEnabled, w)
  else
  match decryptTOTPSecret (mfa_SecretEncrypted mfa) with
  | Fail e => (Some (ErrWrap "failed to decrypt secret" e), w)
  | Ok secret =>
  if negb (totp_Validate code secret now) then (Some ErrInvalidMFACode, w)
  else
    let w := AuthRepo.DisableMFA userID w in
    let w := AuthRepo.DeleteBackupCodes userID w in
    let w := logAudit (Some userID) AuditActionMFADisable "user"
               (Fmt.Itoa userID) None None ip userAgent w in
    (None, w)
  end
  end.

Definition GenerateBackupCodes (userID : Z) (ip userAgent : string)
    (w : World) : result (list string) * World :=
  match AuthRepo.GetMFAByUserID userID w with
  | Some {| mfa_IsEnabled := true |} =>
      let w := AuthRepo.DeleteBackupCodes userID w in
      match generateBackupCodes userID w with
      | (Fail e, w) => (Fail e, w)
      | (Ok codes, w) =>
          let w := logAudit (Some userID) AuditActionMFABackupRegen "user"
                     (Fmt.Itoa userID) None
                     (Some [("codes_generated"%string,
                             JInt (Z.of_nat (length codes)))])
                     ip userAgent w in
          (Ok codes, w)
      end
  | _ => (Fail ErrMFANotEnabled, w)
  end.

Definition checkPasswordHistory (userID : Z) (newPassword : string)
    (w : World) : option Err :=
  let history :=
    AuthRepo.GetPasswordHistory userID (PasswordHistoryCount cfg) w in
  if existsb (fun h => verifyPassword newPassword (ph_PasswordHash h))
       history
  then Some ErrPasswordReused
  else None.

Definition ChangePassword (now : Z) (userID : Z)
    (currentPass newPass ip userAgent : string) (w : World)
  : option Err * World :=
  match AuthRepo.GetCredentialByUserID userID w with
  | None => (Some ErrCredentialsNotFound, w)
  | Some cred =>
  if negb (verifyPassword currentPass (uc_PasswordHash cred))
  then (Some ErrInvalidCredentials, w)
  else if Z.of_nat (String.length newPass) <? PasswordMinLength cfg
  then (Some ErrPasswordTooWeak, w)
  else
  match checkPasswordHistory userID newPass w with
  | Some e => (Some e, w)
  | None =>
      let '(newHash, w) := hashPassword newPass w in
      let w := AuthRepo.CreatePasswordHistory
                 {| ph_UserID := userID;
                    ph_PasswordHash := uc_PasswordHash cred |} w in
      let cred :=
        {| uc_UserID := uc_UserID cred;
           uc_PasswordHash := newHash;
           uc_PasswordChangedAt := Some now;
           uc_FailedLoginAttempts := uc_FailedLoginAttempts cred;
           uc_LockedUntil := uc_LockedUntil cred;
           uc_MustChangePassword := false |} in
      let w := AuthRepo.UpdateCredential cred w in
      let w := logAudit (Some userID) AuditActionPasswordChange "user"
                 (Fmt.Itoa userID) None None ip userAgent w in
      (None, w)
  end
  end.

Definition SetPassword (now : Z) (userID : Z) (password : string)
    (w : World) : option Err * World :=
  if Z.of_nat (String.length password) <? PasswordMinLength cfg
  then (Some ErrPasswordTooWeak, w)
  else
    let '(hash, w) := hashPassword password w in
    match AuthRepo.GetCredentialByUserID userID w with
    | Some existing =>
        let existing :=
          {| uc_UserID := uc_UserID existing;
             uc_PasswordHash := hash;
             uc_PasswordChangedAt := Some now;
             uc_FailedLoginAttempts := uc_FailedLoginAttempts existing;
             uc_LockedUntil := uc_LockedUntil existing;
             uc_MustChangePassword := true |} in
        (None, AuthRepo.UpdateCredential existing w)
    | None =>
        (None,
         AuthRepo.CreateCredential now
           {| uc_UserID := userID;
              uc_PasswordHash := hash;
              uc_PasswordChangedAt := Some now;
              uc_FailedLoginAttempts := 0;
              uc_LockedUntil := None;
              uc_MustChangePassword := true |} w)
    end.

Definition LogoutAll (now : Z) (userID : Z) (ip userAgent : string)
    (w : World) : option Err * World :=
  let w := SessionStore.DeleteAllUserSessions userID w in
  let w := AuthRepo.RevokeAllUserSessions now userID "logout all" w in
  let w := logAudit (Some userID) AuditActionLogoutAll "user"
             (Fmt.Itoa userID) None None ip userAgent w in
  (None, w).

End AuthService.

(** ** [service.RegistrationService] (password reset) *)

Section RegistrationService.

Context {L : Libs}.
Variable cfg : LocalAuthConfig.

Definition generateSecureToken (w : World) : string * World :=
  let '(b, w) := rand_Read 32 w in
  (Base64.EncodeToString Base64.URLEncoding b, w).

Definition hour : Z := 3600 * 1000000000.

Definition ForgotPassword (now : Z) (email : string) (w : World)
  : option Err * World :=
  match AuthRepo.GetUserByEmail email w with
  | None => (None, w)
  | Some user =>
      let w := RegRepo.DeleteUserPasswordResetTokens (u_Id user) w in
      let '(token, w) := generateSecureToken w in
      let resetToken :=
        {| prt_ID := 0; prt_UserID := u_Id user; prt_Token := token;
           prt_ExpiresAt := now + 1 * hour; prt_UsedAt := None |} in
      let w := RegRepo.CreatePasswordResetToken resetToken w in
      (None, w)
  end.

Definition ResetPassword (now : Z)
    (tokenStr newPassword confirmPassword : string) (w : World)
  : option Err * World :=
  if negb (String.eqb newPassword confirmPassword)
  then (Some ErrPasswordMismatch, w)
  else if Z.of_nat (String.length newPassword) <? PasswordMinLength cfg
  then (Some ErrPasswordTooWeak, w)
  else
  match RegRepo.GetPasswordResetToken tokenStr w with
  | None => (Some ErrInvalidResetToken, w)
  | Some token =>
  if prt_IsExpired now token || prt_IsUsed token
  then (Some ErrInvalidResetToken, w)
  else
    let w := RegRepo.MarkPasswordResetTokenUsed now (prt_ID token) w in
    match SetPassword cfg now (prt_UserID token) newPassword w with
    | (Some e, w) => (Some (ErrWrap "failed to set password" e), w)
    | (None, w) =>
        let w := RegRepo.DeleteUserPasswordResetTokens
                   (prt_UserID token) w in
        let '(_, w) := LogoutAll now (prt_UserID token) ""
                         "password reset" w in
        (None, w)
    end
  end.

End RegistrationService.

(** * The remaining operations of the two services

    The methods of [auth_service.go], [registration_service.go],
    [domain/auth.go] and [registration_repo.go] that the definitions above
    leave out, with the store methods they call. *)

(** ** Further methods of [internal/domain/auth.go] *)

(** [UserStatus.IsValid] *)
Definition UserStatus_IsValid (s : string) : bool :=
  String.eqb s UserStatusActive
  || String.eqb s UserStatusSuspended
  || String.eqb s UserStatusLocked
  || String.eqb s UserStatusPendingVerification
  || String.eqb s UserStatusDeactivated.

(** [Session.IsExpired], [Session.IsRevoked] and [Session.IsValid] *)
Definition s_IsExpired (now : Z) (s : Session) : bool := s_ExpiresAt s <? now.
Definition s_IsRevoked (s : Session) : bool :=
  match s_RevokedAt s with Some _ => true | None => false end.
Definition s_IsValid (now : Z) (s : Session) : bool :=
  negb (s_IsExpired now s) && negb (s_IsRevoked s).

Record EmailVerificationToken : Type := {
  evt_ID : Z;
  evt_UserID : Z;
  evt_Token : string;
  evt_ExpiresAt : Z;
  evt_UsedAt : option Z
}.

(** [EmailVerificationToken.IsExpired] and
    [EmailVerificationToken.IsUsed] *)
Definition evt_IsExpired (now : Z) (t : EmailVerificationToken) : bool :=
  evt_ExpiresAt t <? now.
Definition evt_IsUsed (t : EmailVerificationToken) : bool :=
  match evt_UsedAt t with Some _ => true | None => false end.

Definition AuditActionSessionRevoke : string := "session_revoke".
Definition AuditActionAccountUnlock : string := "account_unlock".
Definition AuditActionStatusChange : string := "status_change".

(** ** Further methods of [repository.AuthRepository] *)

Module AuthRepoExt.

(** Modelled from the spec: [AuthRepository.RevokeSession]; marks the
    durable mirror of the session revoked, with the reason. *)
Definition RevokeSession (now : Z) (sessionID : string) (reason : string)
  : World -> World :=
  upd_sessions (map (fun s =>
    if String.eqb (s_ID s) sessionID
    then {| s_ID := s_ID s; s_UserID := s_UserID s;
            s_IPAddress := s_IPAddress s; s_UserAgent := s_UserAgent s;
            s_ExpiresAt := s_ExpiresAt s;
            s_LastActivityAt := s_LastActivityAt s;
            s_RevokedAt := Some now; s_RevokedReason := reason |}
    else s)).

(** Modelled from the spec: [AuthRepository.UnlockAccount]; clears
    lock-until. *)
Definition UnlockAccount (userID : Z) : World -> World :=
  AuthRepo.on_credential userID (fun c =>
    {| uc_UserID := uc_UserID c;
       uc_PasswordHash := uc_PasswordHash c;
       uc_PasswordChangedAt := uc_PasswordChangedAt c;
       uc_FailedLoginAttempts := uc_FailedLoginAttempts c;
       uc_LockedUntil := None;
       uc_MustChangePassword := uc_MustChangePassword c |}).

(** Modelled from the spec: [AuthRepository.UpdateUserStatus]; sets the
    account status of the Identity (the reason and the author of the
    change go to columns the service never reads). *)
Definition UpdateUserStatus (userID : Z) (status reason : string)
    (changedBy : Z) : World -> World :=
  upd_users (map (fun u =>
    if u_Id u =? userID
    then {| u_Id := u_Id u; u_Email := u_Email u; u_Status := status;
            u_LastLoginAt := u_LastLoginAt u;
            u_LoginCount := u_LoginCount u |}
    else u)).

(** Modelled from the spec: [AuthRepository.UpdateMFA]; the MFAConfig of
    the Identity is replaced. *)
Definition UpdateMFA (mfa : UserMFATotp) : World -> World :=
  upd_user_mfa_totp (map (fun m =>
    if mfa_UserID m =? mfa_UserID mfa then mfa else m)).

(** Modelled from the spec: [AuthRepository.CreateMFA]; inserts the
    MFAConfig. *)
Definition CreateMFA (mfa : UserMFATotp) : World -> World :=
  upd_user_mfa_totp (fun l => l ++ [mfa]).

End AuthRepoExt.

(** ** Further methods of [service.SessionStore] *)

Module SessionStoreExt.

(** Modelled from the spec: [SessionStore.Delete]; deletes the key. *)
Definition Delete (sessionID : string) : World -> World :=
  upd_kv_sessions (fun m => delete sessionID m).

(** Modelled from the spec: [SessionStore.Refresh]; extends the expiry
    of the session under that id. *)
Definition Refresh (sessionID : string) (newExpiry : Z) : World -> World :=
  upd_kv_sessions (alter (fun s =>
    {| sd_SessionID := sd_SessionID s; sd_UserID := sd_UserID s;
       sd_Email := sd_Email s; sd_IPAddress := sd_IPAddress s;
       sd_UserAgent := sd_UserAgent s; sd_CreatedAt := sd_CreatedAt s;
       sd_ExpiresAt := newExpiry;
       sd_LastActivityAt := sd_LastActivityAt s |}) sessionID).

(** Modelled from the spec: [SessionStore.GetUserSessions]; enumeration
    of the session keys by owning Identity. *)
Definition GetUserSessions (userID : Z) (w : World) : list string :=
  map fst
    (List.filter (fun kv => sd_UserID (snd kv) =? userID)
       (map_to_list (kv_sessions w))).

End SessionStoreExt.

(** ** Third-party functions of the TOTP enrolment *)

(** [totp.Generate] with the options of [SetupTOTP] (issuer, account
    name, the bytes its 32-byte secret is made of; the result is the
    key's [Secret()] and [URL()], or the error it returns before it reads
    the random source), and the [Seal] of AES-256-GCM (key, nonce,
    plaintext; the result is ciphertext and tag). *)
Class EnrolLibs : Type := {
  totp_Generate : string -> string -> list byte -> result (string * string);
  gcm_Seal : list byte -> list byte -> list byte -> list byte
}.

(** What [Seal] writes, [Open] reads back under the same key and
    nonce. *)
Definition Seal_Open_law (L : Libs) (E : EnrolLibs) : Prop :=
  forall key nonce plaintext,
    gcm_Open key nonce (gcm_Seal key nonce plaintext) = Some plaintext.

(** ** [service.AuthService], continued *)

Record TOTPSetupResponse : Type := {
  Secret : string;
  QRCodeURL : string
}.

Section AuthServiceRest.

Context {L : Libs} {E : EnrolLibs}.
Variable cfg : LocalAuthConfig.

Definition encryptTOTPSecret (secret : string) (w : World)
  : result string * World :=
  let key := bytes_of_string (EncryptionKey cfg) in
  if negb (length key =? 32)%nat
  then (Fail (ErrNew "encryption key must be 32 bytes"), w)
  else
    let '(nonce, w) := rand_Read 12 w in
    let ciphertext := nonce ++ gcm_Seal key nonce (bytes_of_string secret) in
    (Ok (Base64.EncodeToString Base64.StdEncoding ciphertext), w).

Definition SetupTOTP (userID : Z) (email : string) (w : World)
  : result TOTPSetupResponse * World :=
  let existing := AuthRepo.GetMFAByUserID userID w in
  if match existing with Some m => mfa_IsEnabled m | None => false end
  then (Fail ErrMFAAlreadyEnabled, w)
  else
  match totp_Generate (TOTPIssuer cfg) email (fst (rand_Read 32 w)) with
  | Fail e => (Fail (ErrWrap "failed to generate TOTP key" e), w)
  | Ok (secret, url) =>
  let w := snd (rand_Read 32 w) in
  match encryptTOTPSecret secret w with
  | (Fail e, w) => (Fail (ErrWrap "failed to encrypt secret" e), w)
  | (Ok encryptedSecret, w) =>
      let w :=
        match existing with
        | Some m =>
            AuthRepoExt.UpdateMFA
              {| mfa_UserID := mfa_UserID m;
                 mfa_SecretEncrypted := encryptedSecret;
                 mfa_IsEnabled := false;
                 mfa_VerifiedAt := None |} w
        | None =>
            AuthRepoExt.CreateMFA
              {| mfa_UserID := userID;
                 mfa_SecretEncrypted := encryptedSecret;
                 mfa_IsEnabled := false;
                 mfa_VerifiedAt := None |} w
        end in
      (Ok {| Secret := secret; QRCodeURL := url |}, w)
  end
  end.

Definition GetSession (now : Z) (sessionID : string) (w : World)
  : option SessionData :=
  SessionStore.Get now sessionID w.

Definition RefreshSession (now : Z) (sessionID : string) (w : World)
  : result SessionData * World :=
  match SessionStore.Get now sessionID w with
  | None => (Fail ErrInvalidSession, w)
  | Some session =>
      let newExpiry := now + SessionTTL cfg in
      let w := SessionStoreExt.Refresh sessionID newExpiry w in
      (Ok {| sd_SessionID := sd_SessionID session;
             sd_UserID := sd_UserID session;
             sd_Email := sd_Email session;
             sd_IPAddress := sd_IPAddress session;
             sd_UserAgent := sd_UserAgent session;
             sd_CreatedAt := sd_CreatedAt session;
             sd_ExpiresAt := newExpiry;
             sd_LastActivityAt := now |}, w)
  end.

Definition Logout (now : Z) (sessionID ip userAgent : string) (w : World)
  : option Err * World :=
  match SessionStore.Get now sessionID w with
  | None => (None, w)
  | Some session =>
      let w := SessionStoreExt.Delete sessionID w in
      let w := AuthRepoExt.RevokeSession now sessionID "user logout" w in
      let w := logAudit (Some (sd_UserID session)) AuditActionSessionRevoke
                 "session" sessionID None
                 (Some [("reason"%string, JString "user logout")])
                 ip userAgent w in
      (None, w)
  end.

(** The loop of [GetActiveSessions]. *)
Fixpoint active_sessions (now : Z) (sessionIDs : list string) (w : World)
    (sessions : list SessionData) : list SessionData :=
  match sessionIDs with
  | [] => sessions
  | id :: rest =>
      match SessionStore.Get now id w with
      | Some session => active_sessions now rest w (sessions ++ [session])
      | None => active_sessions now rest w sessions
      end
  end.

Definition GetActiveSessions (now : Z) (userID : Z) (w : World)
  : result (list SessionData) :=
  let sessionIDs := SessionStoreExt.GetUserSessions userID w in
  Ok (active_sessions now sessionIDs w []).

(** The two maps handed to [logAudit] list their keys in the order
    [json.Marshal] writes them. *)
Definition UpdateUserStatus (now : Z) (userID : Z) (status reason : string)
    (changedBy : Z) (ip userAgent : string) (w : World)
  : option Err * World :=
  if negb (UserStatus_IsValid status)
  then (Some (ErrNew ("invalid status: " +:+ status)), w)
  else
    let user := AuthRepo.GetUserByEmail "" w in
    let oldStatus :=
      match user with Some u => u_Status u | None => ""%string end in
    let w := AuthRepoExt.UpdateUserStatus userID status reason changedBy w in
    let w :=
      if String.eqb status UserStatusLocked
         || String.eqb status UserStatusSuspended
      then
        let w := SessionStore.DeleteAllUserSessions userID w in
        AuthRepo.RevokeAllUserSessions now userID
          ("status change: " +:+ status) w
      else w in
    let w := logAudit (Some changedBy) AuditActionStatusChange "user"
               (Fmt.Itoa userID)
               (Some [("status"%string, JString oldStatus)])
               (Some [("reason"%string, JString reason);
                      ("status"%string, JString status)])
               ip userAgent w in
    (None, w).

Definition UnlockAccount (userID : Z) (unlockedBy : Z)
    (ip userAgent : string) (w : World) : option Err * World :=
  let w := AuthRepoExt.UnlockAccount userID w in
  let w := logAudit (Some unlockedBy) AuditActionAccountUnlock "user"
             (Fmt.Itoa userID) None None ip userAgent w in
  (None, w).

Definition GetMFAStatus (userID : Z) (w : World)
  : bool * bool * option Err :=
  match AuthRepo.GetMFAByUserID userID w with
  | None => (false, false, None)
  | Some mfa =>
      if negb (mfa_IsEnabled mfa) then (false, false, None)
      else
        let codes := AuthRepo.GetUnusedBackupCodes userID w in
        (true, (0 <? length codes)%nat, None)
  end.

End AuthServiceRest.

(** ** The web client's form schema for a backup code

    [backupCodeSchema] of [frontend/src/features/auth/schemas.ts]:
    [z.string().length(8).regex(/^[A-Z0-9]+$/)], on ASCII text. *)

Definition is_upper_alnum (c : ascii) : bool :=
  let n := nat_of_ascii c in
  (((65 <=? n) && (n <=? 90)) || ((48 <=? n) && (n <=? 57)))%nat.

Definition backupCodeSchema (code : string) : bool :=
  (String.length code =? 8)%nat
  && match list_ascii_of_string code with
     | [] => false
     | cs => forallb is_upper_alnum cs
     end.

(** ** The registration tables

    What only the registration flow reads and writes, beside the stores
    of [World]: the sequence that numbers the users, the table of email
    verification tokens with its sequence, and the [email_verified_at]
    column of the users table, kept here by user id (a user is
    email-verified exactly when it has an entry). *)
Record RegWorld : Type := {
  auth : World;
  user_seq : Z;
  email_verification_tokens : list EmailVerificationToken;
  verification_token_seq : Z;
  email_verified_at : gmap Z Z
}.

Definition upd_auth (f : World -> World) (rw : RegWorld) : RegWorld :=
  {| auth := f (auth rw);
     user_seq := user_seq rw;
     email_verification_tokens := email_verification_tokens rw;
     verification_token_seq := verification_token_seq rw;
     email_verified_at := email_verified_at rw |}.

Definition upd_email_verification_tokens
    (f : list EmailVerificationToken -> list EmailVerificationToken)
    (rw : RegWorld) : RegWorld :=
  {| auth := auth rw;
     user_seq := user_seq rw;
     email_verification_tokens := f (email_verification_tokens rw);
     verification_token_seq := verification_token_seq rw;
     email_verified_at := email_verified_at rw |}.

(** ** [repository.RegistrationRepository] (email verification, users) *)

Module RegRepoExt.

(** [Create(token)]: the row gets the next id of the sequence. *)
Definition CreateEmailVerificationToken (token : EmailVerificationToken)
    (rw : RegWorld) : RegWorld :=
  {| auth := auth rw;
     user_seq := user_seq rw;
     email_verification_tokens :=
       email_verification_tokens rw ++
       [ {| evt_ID := verification_token_seq rw + 1;
            evt_UserID := evt_UserID token;
            evt_Token := evt_Token token;
            evt_ExpiresAt := evt_ExpiresAt token;
            evt_UsedAt := evt_UsedAt token |} ];
     verification_token_seq := verification_token_seq rw + 1;
     email_verified_at := email_verified_at rw |}.

(** [Where("token = ?", tokenStr).First(&token)] *)
Definition GetEmailVerificationToken (tokenStr : string) (rw : RegWorld)
  : option EmailVerificationToken :=
  List.find (fun t => String.eqb (evt_Token t) tokenStr)
    (email_verification_tokens rw).

(** [Where("id = ?", tokenID).Update("used_at", now)] *)
Definition MarkEmailVerificationTokenUsed (now : Z) (tokenID : Z)
  : RegWorld -> RegWorld :=
  upd_email_verification_tokens (map (fun t =>
    if evt_ID t =? tokenID
    then {| evt_ID := evt_ID t; evt_UserID := evt_UserID t;
            evt_Token := evt_Token t; evt_ExpiresAt := evt_ExpiresAt t;
            evt_UsedAt := Some now |}
    else t)).

(** [Where("user_id = ?", userID).Delete(&EmailVerificationToken{})] *)
Definition DeleteUserEmailVerificationTokens (userID : Z)
  : RegWorld -> RegWorld :=
  upd_email_verification_tokens
    (List.filter (fun t => negb (evt_UserID t =? userID))).

(** [Create(user)]: the row gets the next id of the sequence, which is
    written back into [user]. *)
Definition CreateUser (user : User) (rw : RegWorld) : User * RegWorld :=
  let created :=
    {| u_Id := user_seq rw + 1; u_Email := u_Email user;
       u_Status := u_Status user; u_LastLoginAt := u_LastLoginAt user;
       u_LoginCount := u_LoginCount user |} in
  (created,
   {| auth := upd_users (fun l => l ++ [created]) (auth rw);
      user_seq := user_seq rw + 1;
      email_verification_tokens := email_verification_tokens rw;
      verification_token_seq := verification_token_seq rw;
      email_verified_at := email_verified_at rw |}).

(** [Where("id = ?", userID).Updates(email_verified: true,
    email_verified_at: now)] *)
Definition UpdateUserEmailVerified (now : Z) (userID : Z) (rw : RegWorld)
  : RegWorld :=
  if existsb (fun u => u_Id u =? userID) (users (auth rw))
  then {| auth := auth rw;
          user_seq := user_seq rw;
          email_verification_tokens := email_verification_tokens rw;
          verification_token_seq := verification_token_seq rw;
          email_verified_at := <[userID := now]> (email_verified_at rw) |}
  else rw.

(** [Where("email = ? AND deleted_date IS NULL", email).Count(&count)]
    and [count > 0] *)
Definition EmailExists (email : string) (rw : RegWorld) : bool :=
  (0 <? Z.of_nat (length (List.filter
                            (fun u => String.eqb (u_Email u) email)
                            (users (auth rw))))).

End RegRepoExt.

(** ** [service.RegistrationService] (registration, email verification) *)

Record RegistrationRequest : Type := {
  rr_Email : string;
  rr_Password : string;
  rr_ConfirmPassword : string;
  rr_FirstName : string;
  rr_LastName : string;
  rr_IPAddress : string;
  rr_UserAgent : string
}.

Record RegistrationResponse : Type := {
  rs_UserID : Z;
  rs_Email : string;
  rs_VerificationSent : bool;
  rs_Message : string
}.

Section RegistrationServiceRest.

Context {L : Libs}.
Variable cfg : LocalAuthConfig.

Definition Register (now : Z) (req : RegistrationRequest) (rw : RegWorld)
  : result RegistrationResponse * RegWorld :=
  if negb (String.eqb (rr_Password req) (rr_ConfirmPassword req))
  then (Fail ErrPasswordMismatch, rw)
  else if Z.of_nat (String.length (rr_Password req)) <? PasswordMinLength cfg
  then (Fail ErrPasswordTooWeak, rw)
  else if RegRepoExt.EmailExists (rr_Email req) rw
  then (Fail ErrEmailAlreadyExists, rw)
  else
    let '(user, rw) :=
      RegRepoExt.CreateUser
        {| u_Id := 0; u_Email := rr_Email req;
           u_Status := UserStatusPendingVerification;
           u_LastLoginAt := None; u_LoginCount := 0 |} rw in
    match SetPassword cfg now (u_Id user) (rr_Password req) (auth rw) with
    | (Some e, w) =>
        (Fail (ErrWrap "failed to set password" e), upd_auth (fun _ => w) rw)
    | (None, w) =>
        let '(token, w) := generateSecureToken w in
        let rw := upd_auth (fun _ => w) rw in
        let verificationToken :=
          {| evt_ID := 0; evt_UserID := u_Id user; evt_Token := token;
             evt_ExpiresAt := now + 24 * hour; evt_UsedAt := None |} in
        let rw :=
          RegRepoExt.CreateEmailVerificationToken verificationToken rw in
        (Ok {| rs_UserID := u_Id user;
               rs_Email := u_Email user;
               rs_VerificationSent := true;
               rs_Message :=
                 "Registration successful. Please check your email to verify your account." |},
         rw)
    end.

Definition VerifyEmail (now : Z) (tokenStr : string) (rw : RegWorld)
  : option Err * RegWorld :=
  match RegRepoExt.GetEmailVerificationToken tokenStr rw with
  | None => (Some ErrInvalidVerificationToken, rw)
  | Some token =>
  if evt_IsExpired now token || evt_IsUsed token
  then (Some ErrInvalidVerificationToken, rw)
  else
    let rw := RegRepoExt.MarkEmailVerificationTokenUsed now
                (evt_ID token) rw in
    let rw := RegRepoExt.UpdateUserEmailVerified now (evt_UserID token) rw in
    let rw := upd_auth
                (AuthRepoExt.UpdateUserStatus (evt_UserID token)
                   UserStatusActive "email verified" 0) rw in
    (None, rw)
  end.

Definition ResendVerificationEmail (now : Z) (email : string)
    (rw : RegWorld) : option Err * RegWorld :=
  match AuthRepo.GetUserByEmail email (auth rw) with
  | None => (None, rw)
  | Some user =>
  if String.eqb (u_Status user) UserStatusActive
  then (Some ErrUserAlreadyVerified, rw)
  else
    let rw := RegRepoExt.DeleteUserEmailVerificationTokens (u_Id user) rw in
    let '(token, w) := generateSecureToken (auth rw) in
    let rw := upd_auth (fun _ => w) rw in
    let verificationToken :=
      {| evt_ID := 0; evt_UserID := u_Id user; evt_Token := token;
         evt_ExpiresAt := now + 24 * hour; evt_UsedAt := None |} in
    let rw := RegRepoExt.CreateEmailVerificationToken verificationToken rw in
    (None, rw)
  end.

End RegistrationServiceRest.

(** ** [handlers.RegistrationHandler]

    The handlers of [registration_handler.go] on a request body that has
    passed [resp.BodyBindAndValidate].  A response is the helper of
    package [resp] (or the status set on the context) that produces it,
    with its payload. *)

Inductive HandlerResponse : Type :=
| RespOK (success : bool) (message : string)
| RespCreated (r : RegistrationResponse)
| RespConflict (message : string)
| RespBadRequest (message : string)
| RespInternalServerError (message : string).

(** [err.Error()] *)
Fixpoint Error (e : Err) : string :=
  match e with
  | ErrInvalidCredentials => "invalid email or password"
  | ErrAccountLocked => "account is locked"
  | ErrAccountNotActive => "account is not active"
  | ErrMFARequired => "MFA verification required"
  | ErrInvalidMFACode => "invalid MFA code"
  | ErrMFANotEnabled => "MFA is not enabled"
  | ErrMFAAlreadyEnabled => "MFA is already enabled"
  | ErrInvalidSession => "invalid or expired session"
  | ErrPasswordTooWeak => "password does not meet requirements"
  | ErrPasswordReused => "password was recently used"
  | ErrUserNotFound => "user not found"
  | ErrCredentialsNotFound => "credentials not found"
  | ErrEmailAlreadyExists => "email already registered"
  | ErrInvalidVerificationToken => "invalid or expired verification token"
  | ErrInvalidResetToken => "invalid or expired password reset token"
  | ErrUserAlreadyVerified => "user is already verified"
  | ErrPasswordMismatch => "passwords do not match"
  | ErrRecordNotFound => "record not found"
  | ErrNew msg => msg
  | ErrWrap msg inner => msg +:+ ": " +:+ Error inner
  end.

Definition same_sentinel (e target : Err) : bool :=
  match e, target with
  | ErrInvalidCredentials, ErrInvalidCredentials
  | ErrAccountLocked, ErrAccountLocked
  | ErrAccountNotActive, ErrAccountNotActive
  | ErrMFARequired, ErrMFARequired
  | ErrInvalidMFACode, ErrInvalidMFACode
  | ErrMFANotEnabled, ErrMFANotEnabled
  | ErrMFAAlreadyEnabled, ErrMFAAlreadyEnabled
  | ErrInvalidSession, ErrInvalidSession
  | ErrPasswordTooWeak, ErrPasswordTooWeak
  | ErrPasswordReused, ErrPasswordReused
  | ErrUserNotFound, ErrUserNotFound
  | ErrCredentialsNotFound, ErrCredentialsNotFound
  | ErrEmailAlreadyExists, ErrEmailAlreadyExists
  | ErrInvalidVerificationToken, ErrInvalidVerificationToken
  | ErrInvalidResetToken, ErrInvalidResetToken
  | ErrUserAlreadyVerified, ErrUserAlreadyVerified
  | ErrPasswordMismatch, ErrPasswordMismatch
  | ErrRecordNotFound, ErrRecordNotFound => true
  | _, _ => false
  end.

(** [errors.Is(err, target)] for a sentinel [target]: [err] is the
    sentinel, or wraps an error that is. *)
Fixpoint errors_Is (err target : Err) : bool :=
  same_sentinel err target
  || match err with
     | ErrWrap _ inner => errors_Is inner target
     | _ => false
     end.

Module RegistrationHandler.

Section Handlers.

Context {L : Libs}.
Variable cfg : LocalAuthConfig.

Definition Register (now : Z) (req : RegistrationRequest) (rw : RegWorld)
  : HandlerResponse * RegWorld :=
  match Register cfg now req rw with
  | (Fail err, rw) =>
      (if errors_Is err ErrEmailAlreadyExists
       then RespConflict "email already registered"
       else if errors_Is err ErrPasswordMismatch
       then RespBadRequest "passwords do not match"
       else if errors_Is err ErrPasswordTooWeak
       then RespBadRequest "password does not meet requirements"
       else RespInternalServerError (Error err), rw)
  | (Ok result, rw) => (RespCreated result, rw)
  end.

Definition VerifyEmail (now : Z) (token : string) (rw : RegWorld)
  : HandlerResponse * RegWorld :=
  match VerifyEmail now token rw with
  | (Some err, rw) =>
      (if errors_Is err ErrInvalidVerificationToken
       then RespBadRequest "invalid or expired verification token"
       else RespInternalServerError (Error err), rw)
  | (None, rw) =>
      (RespOK true "Email verified successfully. You can now log in.", rw)
  end.

Definition ResendVerification (now : Z) (email : string) (rw : RegWorld)
  : HandlerResponse * RegWorld :=
  match ResendVerificationEmail now email rw with
  | (Some err, rw) =>
      (if errors_Is err ErrUserAlreadyVerified
       then RespBadRequest "user is already verified"
       else RespInternalServerError (Error err), rw)
  | (None, rw) =>
      (RespOK true
         "If an account exists with this email, a verification link has been sent.",
       rw)
  end.

Definition ForgotPassword (now : Z) (email : string) (w : World)
  : HandlerResponse * World :=
  match ForgotPassword now email w with
  | (Some err, w) => (RespInternalServerError (Error err), w)
  | (None, w) =>
      (RespOK true
         "If an account exists with this email, a password reset link has been sent.",
       w)
  end.

Definition ResetPassword (now : Z) (token password confirmPassword : string)
    (w : World) : HandlerResponse * World :=
  match ResetPassword cfg now token password confirmPassword w with
  | (Some err, w) =>
      (if errors_Is err ErrInvalidResetToken
       then RespBadRequest "invalid or expired reset token"
       else if errors_Is err ErrPasswordMismatch
       then RespBadRequest "passwords do not match"
       else if errors_Is err ErrPasswordTooWeak
       then RespBadRequest "password does not meet requirements"
       else RespInternalServerError (Error err), w)
  | (None, w) =>
      (RespOK true
         "Password reset successfully. You can now log in with your new password.",
       w)
  end.

End Handlers.

End RegistrationHandler.

(** ** Enumerations and sample data used by the proofs *)

(** A 6-bit digit of base64. *)
Definition digit (i : Z) : Prop := 0 <= i < 64.




(** A stand-in for the third-party functions, to run the model on
    concrete inputs: the "digest" is the first [keyLen] bytes of password,
    salt and zero filling; a TOTP code is valid when it is the first six
    characters of the secret; GCM leaves the text as it is. *)
Definition sample_IDKey (password salt : list byte)
    (time memory threads keyLen : Z) : list byte :=
  firstn (Z.to_nat keyLen) (password ++ salt ++ repeat x00 (Z.to_nat keyLen)).

#[local] Instance sample_libs : Libs := {|
  argon2_IDKey := sample_IDKey;
  totp_Validate := fun code secret _ => String.eqb code (substring 0 6 secret);
  gcm_Open := fun _ _ ciphertext => Some ciphertext;
  uuid_String := fun raw => Base64.EncodeToString Base64.URLEncoding raw;
  json_Marshal := fun _ => Some "{}"%string
|}.

Definition sample_cfg : LocalAuthConfig := {|
  LockoutThreshold := 3;
  LockoutDuration := 900000000000;
  MFATokenTTL := 300000000000;
  SessionTTL := 86400000000000;
  PasswordMinLength := 8;
  PasswordHistoryCount := 5;
  TOTPIssuer := "Gerege";
  EncryptionKey := "0123456789abcdef0123456789abcdef"
|}.

Definition sample_entropy (n : nat) : byte := z2b (Z.of_nat n * 37 + 11).

Definition empty_world : World := {|
  users := []; user_credentials := []; user_mfa_totp := [];
  user_mfa_backup_codes := []; backup_code_seq := 0; sessions := [];
  login_history := []; security_audit_trail := []; password_history := [];
  password_reset_tokens := []; reset_token_seq := 0;
  kv_sessions := ∅; kv_mfa_tokens := ∅;
  entropy := sample_entropy; entropy_pos := 0
|}.

Definition alice : User :=
  {| u_Id := 1; u_Email := "alice@x.com"; u_Status := UserStatusActive;
     u_LastLoginAt := None; u_LoginCount := 0 |}.
Definition bob : User :=
  {| u_Id := 2; u_Email := "bob@x.com"; u_Status := UserStatusActive;
     u_LastLoginAt := None; u_LoginCount := 0 |}.
Definition carol : User :=
  {| u_Id := 3; u_Email := "carol@x.com"; u_Status := UserStatusActive;
     u_LastLoginAt := None; u_LoginCount := 0 |}.

(** Carol's TOTP secret; under [sample_libs] its valid code is
    ["123456"]. *)
Definition sample_secret : string := "123456ABCDEFGHIJKLMNOPQRSTUVWXYZ".
Definition sample_secret_encrypted : string :=
  Base64.EncodeToString Base64.StdEncoding
    (repeat x00 12 ++ bytes_of_string sample_secret).

(** Alice has a password and no MFA; Bob has no Credential row; Carol
    has a password and a TOTP enrolment still pending. *)
Definition world_users : World :=
  upd_user_mfa_totp (fun _ =>
    [ {| mfa_UserID := 3; mfa_SecretEncrypted := sample_secret_encrypted;
         mfa_IsEnabled := false; mfa_VerifiedAt := None |} ])
    (upd_users (fun _ => [alice; bob; carol]) empty_world).

Definition sample_world : World :=
  snd (SetPassword sample_cfg 1000 3 "Password3"
         (snd (SetPassword sample_cfg 1000 1 "Password1" world_users))).

Definition login_req (email password : string) : LoginRequest :=
  {| lr_Email := email; lr_Password := password;
     lr_IPAddress := "10.0.0.1"; lr_UserAgent := "curl" |}.

(** A run of logins, each at its own instant. *)
Fixpoint run_logins {L : Libs} (cfg : LocalAuthConfig)
    (attempts : list (Z * LoginRequest)) (w : World) : World :=
  match attempts with
  | [] => w
  | (now, req) :: rest => run_logins cfg rest (snd (Login cfg now req w))
  end.

(** The state of an account as [Login] sees it: the Identity found by
    email is active and its Credential holds this hash, failed-attempt
    counter and lock-until. *)
Definition account_state (w : World) (email : string) (user : User)
    (hash : string) (attempts : Z) (lockedUntil : option Z) : Prop :=
  AuthRepo.GetUserByEmail email w = Some user /\
  u_Status user = UserStatusActive /\
  exists cred,
    AuthRepo.GetCredentialByUserID (u_Id user) w = Some cred /\
    uc_PasswordHash cred = hash /\
    uc_FailedLoginAttempts cred = attempts /\
    uc_LockedUntil cred = lockedUntil.

(** The three updates of a Credential made by the Lockout Guard. *)
Definition bump (c : UserCredential) : UserCredential :=
  {| uc_UserID := uc_UserID c;
     uc_PasswordHash := uc_PasswordHash c;
     uc_PasswordChangedAt := uc_PasswordChangedAt c;
     uc_FailedLoginAttempts := uc_FailedLoginAttempts c + 1;
     uc_LockedUntil := uc_LockedUntil c;
     uc_MustChangePassword := uc_MustChangePassword c |}.

Definition lock_until (t : Z) (c : UserCredential) : UserCredential :=
  {| uc_UserID := uc_UserID c;
     uc_PasswordHash := uc_PasswordHash c;
     uc_PasswordChangedAt := uc_PasswordChangedAt c;
     uc_FailedLoginAttempts := uc_FailedLoginAttempts c;
     uc_LockedUntil := Some t;
     uc_MustChangePassword := uc_MustChangePassword c |}.

Definition cleared (c : UserCredential) : UserCredential :=
  {| uc_UserID := uc_UserID c;
     uc_PasswordHash := uc_PasswordHash c;
     uc_PasswordChangedAt := uc_PasswordChangedAt c;
     uc_FailedLoginAttempts := 0;
     uc_LockedUntil := uc_LockedUntil c;
     uc_MustChangePassword := uc_MustChangePassword c |}.


(** A login attempt on the account [email] with a password that does
    not verify against [hash]. *)
Definition wrong_attempt {L : Libs} (email hash : string)
    (a : Z * LoginRequest) : Prop :=
  lr_Email (snd a) = email /\
  verifyPassword (lr_Password (snd a)) hash = false.

Definition alice_hash : string :=
  fst (hashPassword "Password1" world_users).

Definition alice_cred : UserCredential :=
  {| uc_UserID := 1; uc_PasswordHash := alice_hash;
     uc_PasswordChangedAt := Some 1000; uc_FailedLoginAttempts := 0;
     uc_LockedUntil := None; uc_MustChangePassword := true |}.

Definition two_failures : list (Z * LoginRequest) :=
  [ (2000, login_req "alice@x.com" "letmein1");
    (2001, login_req "alice@x.com" "letmein2") ].

(** What a successful [ResetPassword] does to the stores, in the order
    of the source: mark the token used, set the password, delete the
    identity's reset tokens, revoke its sessions. *)
Definition reset_effects {L : Libs} (cfg : LocalAuthConfig) (now : Z)
    (token : PasswordResetToken) (newPassword : string) (w : World)
  : World :=
  let w := RegRepo.MarkPasswordResetTokenUsed now (prt_ID token) w in
  let w := snd (SetPassword cfg now (prt_UserID token) newPassword w) in
  let w := RegRepo.DeleteUserPasswordResetTokens (prt_UserID token) w in
  snd (LogoutAll now (prt_UserID token) "" "password reset" w).

(** [used_at := now] on a reset token. *)
Definition mark_used (now : Z) (t : PasswordResetToken)
  : PasswordResetToken :=
  {| prt_ID := prt_ID t; prt_UserID := prt_UserID t;
     prt_Token := prt_Token t; prt_ExpiresAt := prt_ExpiresAt t;
     prt_UsedAt := Some now |}.

(** Alice logs in, then asks for a password reset. *)
Definition world_logged_in : World :=
  snd (Login sample_cfg 4000 (login_req "alice@x.com" "Password1")
         sample_world).
Definition world_reset_requested : World :=
  snd (ForgotPassword 5000 "alice@x.com" world_logged_in).
Definition alice_reset_token : string :=
  fst (generateSecureToken world_logged_in).

(** The random source after [n] more bytes were read. *)
Definition advance (n : nat) (w : World) : World :=
  upd_entropy_pos (fun p => (p + n)%nat) w.

(** Each backup code takes 21 bytes of the random source: 5 for the
    code, then 16 for its salt.  These are the positions, the plaintext
    code, the salt and the stored row of the [i]-th code issued from
    position [pos]. *)
Definition code_positions (pos i : nat) : list nat :=
  seq (pos + 21 * i) 5.
Definition salt_positions (pos i : nat) : list nat :=
  seq (pos + 21 * i + 5) 16.
Definition issued_code (e : nat -> byte) (pos i : nat) : string :=
  Strings.ToUpper
    (substring 0 8 (Base32.EncodeToString (map e (code_positions pos i)))).
Definition issued_salt (e : nat -> byte) (pos i : nat) : list byte :=
  map e (salt_positions pos i).
Definition issued_row {L : Libs} (e : nat -> byte) (pos : nat) (id : Z)
    (userID : Z) (i : nat) : UserMFABackupCode :=
  {| bc_ID := id; bc_UserID := userID;
     bc_CodeHash :=
       hashBackupCodeWithSalt (issued_code e pos i) (issued_salt e pos i);
     bc_Salt :=
       Base64.EncodeToString Base64.RawStdEncoding (issued_salt e pos i);
     bc_UsedAt := None |}.


(** [is_enabled := true, verified_at := now] on an MFA row. *)
Definition enabled_at (now : Z) (m : UserMFATotp) : UserMFATotp :=
  {| mfa_UserID := mfa_UserID m;
     mfa_SecretEncrypted := mfa_SecretEncrypted m;
     mfa_IsEnabled := true;
     mfa_VerifiedAt := Some now |}.


(** Carol confirms her TOTP enrolment, then logs in with her password
    and is handed a pending MFA token. *)
Definition world_mfa : World :=
  snd (ConfirmTOTP sample_cfg 3000 3 "123456" "10.0.0.1" "curl"
         sample_world).
Definition world_pending : World :=
  snd (Login sample_cfg 4000 (login_req "carol@x.com" "Password3")
         world_mfa).
Definition carol_mfa_token : string :=
  match fst (Login sample_cfg 4000 (login_req "carol@x.com" "Password3")
               world_mfa) with
  | Ok resp => MFAToken resp
  | Fail _ => EmptyString
  end.
Definition carol_pending : MFAPendingData :=
  {| mp_UserID := 3; mp_Email := "carol@x.com"; mp_IPAddress := "10.0.0.1";
     mp_UserAgent := "curl"; mp_ExpiresAt := 4000 + 300000000000 |}.
Definition mfa_req (code : string) : VerifyMFARequest :=
  {| vr_MFAToken := carol_mfa_token; vr_Code := code;
     vr_IPAddress := "10.0.0.1"; vr_UserAgent := "curl" |}.














(** ** Further sample data and auxiliary definitions *)

(** [status := s] on the user rows with that id. *)
Definition with_status (userID : Z) (status : string) (u : User) : User :=
  if u_Id u =? userID
  then {| u_Id := u_Id u; u_Email := u_Email u; u_Status := status;
          u_LastLoginAt := u_LastLoginAt u; u_LoginCount := u_LoginCount u |}
  else u.


(** Alice after three wrong passwords in a row: locked for fifteen
    minutes from the third one. *)
Definition world_locked : World :=
  snd (Login sample_cfg 2002 (login_req "alice@x.com" "letmein3")
         (run_logins sample_cfg two_failures sample_world)).
Definition alice_locked_cred : UserCredential :=
  {| uc_UserID := 1; uc_PasswordHash := alice_hash;
     uc_PasswordChangedAt := Some 1000; uc_FailedLoginAttempts := 3;
     uc_LockedUntil := Some (2002 + 900000000000);
     uc_MustChangePassword := true |}.

(** [revoked_at := now, revoked_reason := reason] on a session mirror. *)
Definition revoked (now : Z) (reason : string) (s : Session) : Session :=
  {| s_ID := s_ID s; s_UserID := s_UserID s;
     s_IPAddress := s_IPAddress s; s_UserAgent := s_UserAgent s;
     s_ExpiresAt := s_ExpiresAt s;
     s_LastActivityAt := s_LastActivityAt s;
     s_RevokedAt := Some now; s_RevokedReason := reason |}.

(** The session Alice holds in [world_logged_in]. *)
Definition alice_session_id : string :=
  match fst (Login sample_cfg 4000 (login_req "alice@x.com" "Password1")
               sample_world) with
  | Ok {| resp_Session := Some s |} => sd_SessionID s
  | _ => EmptyString
  end.

(** [last_login_at := now, login_count := login_count + 1] on the user
    rows with that id. *)
Definition logged_in_at (now userID : Z) (u : User) : User :=
  if u_Id u =? userID
  then {| u_Id := u_Id u; u_Email := u_Email u; u_Status := u_Status u;
          u_LastLoginAt := Some now; u_LoginCount := u_LoginCount u + 1 |}
  else u.

(** Carol's Credential and, once confirmed, her MFA row. *)
Definition carol_hash : string :=
  fst (hashPassword "Password3"
         (snd (SetPassword sample_cfg 1000 1 "Password1" world_users))).
Definition carol_cred : UserCredential :=
  {| uc_UserID := 3; uc_PasswordHash := carol_hash;
     uc_PasswordChangedAt := Some 1000; uc_FailedLoginAttempts := 0;
     uc_LockedUntil := None; uc_MustChangePassword := true |}.
Definition carol_mfa_enabled : UserMFATotp :=
  {| mfa_UserID := 3; mfa_SecretEncrypted := sample_secret_encrypted;
     mfa_IsEnabled := true; mfa_VerifiedAt := Some 3000 |}.

(** The Credential after [ChangePassword]: new hash and change time,
    must-change cleared; and after [SetPassword]: new hash and change
    time, must-change set.  Counter and lock-until are kept. *)
Definition changed_to (now : Z) (hash : string) (c : UserCredential)
  : UserCredential :=
  {| uc_UserID := uc_UserID c;
     uc_PasswordHash := hash;
     uc_PasswordChangedAt := Some now;
     uc_FailedLoginAttempts := uc_FailedLoginAttempts c;
     uc_LockedUntil := uc_LockedUntil c;
     uc_MustChangePassword := false |}.
Definition set_to (now : Z) (hash : string) (c : UserCredential)
  : UserCredential :=
  {| uc_UserID := uc_UserID c;
     uc_PasswordHash := hash;
     uc_PasswordChangedAt := Some now;
     uc_FailedLoginAttempts := uc_FailedLoginAttempts c;
     uc_LockedUntil := uc_LockedUntil c;
     uc_MustChangePassword := true |}.

(** Alice has changed her password. *)
Definition world_changed : World :=
  snd (ChangePassword sample_cfg 6000 1 "Password1" "NewPassword9"
         "10.0.0.1" "curl" sample_world).

(** Alice, locked out, asks for a password reset. *)
Definition world_locked_reset : World :=
  snd (ForgotPassword 2500 "alice@x.com" world_locked).
Definition locked_reset_token : string :=
  fst (generateSecureToken world_locked).

(** Characters that need no escaping in a URL path or query value, and
    the padding character of base64. *)
Definition url_safe_char (c : ascii) : bool :=
  let n := nat_of_ascii c in
  (((65 <=? n) && (n <=? 90)) || ((97 <=? n) && (n <=? 122))
   || ((48 <=? n) && (n <=? 57)) || (n =? 45) || (n =? 95) || (n =? 61))%nat.

(** A stand-in for the third-party functions of the enrolment, matching
    [sample_libs]: the secret is the base32 text of the random bytes,
    and sealing leaves the text as it is. *)
#[local] Instance sample_enrol_libs : EnrolLibs := {|
  totp_Generate := fun issuer account raw =>
    if String.eqb issuer "" || String.eqb account ""
    then Fail (ErrNew "missing issuer or account name")
    else Ok (Base32.EncodeToString raw,
             "otpauth://totp/" +:+ issuer +:+ ":" +:+ account);
  gcm_Seal := fun _ _ plaintext => plaintext
|}.

(** [is_enabled := false] on an MFA row. *)
Definition disabled (m : UserMFATotp) : UserMFATotp :=
  {| mfa_UserID := mfa_UserID m;
     mfa_SecretEncrypted := mfa_SecretEncrypted m;
     mfa_IsEnabled := false;
     mfa_VerifiedAt := mfa_VerifiedAt m |}.

(** The ten rows that [generateBackupCodes] stores for a user, numbered
    from the table's sequence. *)
Definition issued_rows {L : Libs} (userID : Z) (w : World)
  : list UserMFABackupCode :=
  map (fun i => issued_row (entropy w) (entropy_pos w)
                  (backup_code_seq w + 1 + Z.of_nat i) userID i)
    (seq 0 10).
Definition issued_codes (w : World) : list string :=
  map (issued_code (entropy w) (entropy_pos w)) (seq 0 10).

(** Bob starts a TOTP enrolment in [sample_world]. *)
Definition bob_setup : result TOTPSetupResponse * World :=
  SetupTOTP sample_cfg 2 "bob@x.com" sample_world.
Definition bob_secret : string :=
  Base32.EncodeToString (fst (rand_Read 32 sample_world)).


(** [used_at := now] on an email verification token. *)
Definition evt_mark_used (now : Z) (t : EmailVerificationToken)
  : EmailVerificationToken :=
  {| evt_ID := evt_ID t; evt_UserID := evt_UserID t;
     evt_Token := evt_Token t; evt_ExpiresAt := evt_ExpiresAt t;
     evt_UsedAt := Some now |}.

(** The stores of [sample_world] with the registration tables empty;
    Dave registers there. *)
Definition sample_reg_world : RegWorld :=
  {| auth := sample_world; user_seq := 3;
     email_verification_tokens := []; verification_token_seq := 0;
     email_verified_at := ∅ |}.
Definition dave_request : RegistrationRequest :=
  {| rr_Email := "dave@x.com"; rr_Password := "Password4";
     rr_ConfirmPassword := "Password4"; rr_FirstName := "Dave";
     rr_LastName := "D"; rr_IPAddress := "10.0.0.4";
     rr_UserAgent := "curl" |}.
Definition world_registered : RegWorld :=
  snd (Register sample_cfg 8000 dave_request sample_reg_world).
Definition dave_token : string :=
  fst (generateSecureToken (advance argon2SaltLen sample_world)).
Definition dave : User :=
  {| u_Id := 4; u_Email := "dave@x.com";
     u_Status := UserStatusPendingVerification;
     u_LastLoginAt := None; u_LoginCount := 0 |}.

(** Dave is suspended before he has verified his email. *)
Definition world_dave_suspended : RegWorld :=
  upd_auth
    (fun w => snd (UpdateUserStatus 8100 4 UserStatusSuspended "abuse" 9
                     "10.0.0.9" "admin" w))
    world_registered.
Definition dave_verification : EmailVerificationToken :=
  {| evt_ID := 1; evt_UserID := 4; evt_Token := dave_token;
     evt_ExpiresAt := 8000 + 24 * hour; evt_UsedAt := None |}.

(** * Properties *)

(** ** Bytes and base64 *)

Lemma z2b_b2z (b : byte) : z2b (b2z b) = b.
Proof. destruct b; vm_compute; reflexivity. Qed.

Lemma b2z_range (b : byte) : 0 <= b2z b < 256.
Proof.
  unfold b2z. pose proof (Byte.to_N_bounded b) as H. lia.
Qed.

Lemma z2b_eq (z : Z) (b : byte) : z mod 256 = b2z b -> z2b z = b.
Proof.
  intros H. rewrite <- (z2b_b2z b), <- H.
  unfold z2b. now rewrite Zmod_mod.
Qed.

Module Base64Facts.

Import Base64.

Lemma digit_cases (P : Z -> Prop) :
  (forall n : nat, (n < 64)%nat -> P (Z.of_nat n)) ->
  forall i, digit i -> P i.
Proof.
  intros H i [H0 H1]. rewrite <- (Z2Nat.id i) by lia. apply H. lia.
Qed.

Lemma dec_enc_char (i : Z) :
  digit i -> dec_char RawStdEncoding (enc_char RawStdEncoding i) = Some i.
Proof.
  revert i. apply digit_cases. intros n Hn.
  do 64 (destruct n as [|n]; [vm_compute; reflexivity|]). lia.
Qed.

Lemma enc_char_not_newline (i : Z) :
  digit i -> is_newline (enc_char RawStdEncoding i) = false.
Proof.
  revert i. apply digit_cases. intros n Hn.
  do 64 (destruct n as [|n]; [vm_compute; reflexivity|]). lia.
Qed.

Lemma enc_char_not_dollar (i : Z) :
  digit i -> enc_char RawStdEncoding i <> "$"%char.
Proof.
  revert i. apply digit_cases. intros n Hn.
  do 64 (destruct n as [|n]; [vm_compute; discriminate|]). lia.
Qed.

Lemma enc_groups_digits (src : list byte) : Forall digit (enc_groups src).
Proof.
  revert src. fix IH 1. intros [|a [|b [|c rest]]]; cbn [enc_groups].
  - constructor.
  - repeat constructor; apply Z.mod_pos_bound; lia.
  - repeat constructor; apply Z.mod_pos_bound; lia.
  - repeat (constructor; [apply Z.mod_pos_bound; lia|]). apply IH.
Qed.

Lemma dec_enc_groups (src : list byte) :
  dec_groups (enc_groups src) = Some src.
Proof.
  revert src. fix IH 1. intros [|a [|b [|c rest]]].
  - reflexivity.
  - cbn [enc_groups dec_groups]. pose proof (b2z_range a).
    do 2 f_equal. apply z2b_eq.
    generalize dependent (b2z a). intros. Z.to_euclidean_division_equations. lia.
  - cbn [enc_groups dec_groups].
    pose proof (b2z_range a). pose proof (b2z_range b).
    f_equal. f_equal; [|f_equal]; apply z2b_eq;
      generalize dependent (b2z a); generalize dependent (b2z b); intros;
      Z.to_euclidean_division_equations; lia.
  - cbn [enc_groups dec_groups]. rewrite IH.
    pose proof (b2z_range a). pose proof (b2z_range b).
    pose proof (b2z_range c).
    f_equal. f_equal; [|f_equal; [|f_equal]]; apply z2b_eq;
      generalize dependent (b2z a); generalize dependent (b2z b);
      generalize dependent (b2z c); intros;
      Z.to_euclidean_division_equations; lia.
Qed.

Lemma span_valid_digits (q : list Z) :
  Forall digit q ->
  span_valid RawStdEncoding (map (enc_char RawStdEncoding) q) = (q, []).
Proof.
  induction 1 as [|i q Hi _ IH]; [reflexivity|].
  cbn [map span_valid]. now rewrite dec_enc_char, IH.
Qed.

Lemma filter_newline_digits (q : list Z) :
  Forall digit q ->
  List.filter (fun c => negb (is_newline c))
    (map (enc_char RawStdEncoding) q)
  = map (enc_char RawStdEncoding) q.
Proof.
  induction 1 as [|i q Hi _ IH]; [reflexivity|].
  cbn [map List.filter]. now rewrite enc_char_not_newline, IH.
Qed.

(** Decoding inverts encoding for the unpadded standard encoding. *)
Lemma DecodeString_EncodeToString (src : list byte) :
  DecodeString RawStdEncoding (EncodeToString RawStdEncoding src) = Some src.
Proof.
  unfold DecodeString, EncodeToString. cbn [padChar RawStdEncoding].
  rewrite app_nil_r, list_ascii_of_string_of_list_ascii.
  pose proof (enc_groups_digits src) as Hd.
  rewrite filter_newline_digits, span_valid_digits by exact Hd.
  apply dec_enc_groups.
Qed.

(** The encoded text has no ['$']. *)
Lemma EncodeToString_no_dollar (src : list byte) :
  ~ In "$"%char
      (list_ascii_of_string (EncodeToString RawStdEncoding src)).
Proof.
  unfold EncodeToString. cbn [padChar RawStdEncoding].
  rewrite app_nil_r, list_ascii_of_string_of_list_ascii.
  intros Hin. apply in_map_iff in Hin as (i & Hi & Hq).
  pose proof (enc_groups_digits src) as Hd.
  rewrite List.Forall_forall in Hd.
  apply (enc_char_not_dollar i); [apply Hd; exact Hq | exact Hi].
Qed.

End Base64Facts.

(** ** [strings.Split] *)

Lemma Split_no_sep (s : string) (sep : ascii) :
  ~ In sep (list_ascii_of_string s) -> Strings.Split s sep = [s].
Proof.
  induction s as [|c s IH]; intros H; [reflexivity|].
  cbn [Strings.Split]. cbn [list_ascii_of_string] in H.
  destruct (Ascii.eqb_spec c sep) as [->|Hne].
  - exfalso. apply H. now left.
  - rewrite IH; [reflexivity|]. intros Hin. apply H. now right.
Qed.

Lemma Split_app (a b : string) (sep : ascii) :
  ~ In sep (list_ascii_of_string a) ->
  Strings.Split (a +:+ String sep b) sep = a :: Strings.Split b sep.
Proof.
  induction a as [|c a IH]; intros H.
  - change ("" +:+ String sep b) with (String sep b).
    cbn [Strings.Split]. now rewrite Ascii.eqb_refl.
  - change (String c a +:+ String sep b) with (String c (a +:+ String sep b)).
    cbn [Strings.Split]. cbn [list_ascii_of_string] in H.
    destruct (Ascii.eqb_spec c sep) as [->|Hne].
    + exfalso. apply H. now left.
    + rewrite IH; [reflexivity|]. intros Hin. apply H. now right.
Qed.

(** ** Password hashes *)

Section PasswordHash.

Context {L : Libs}.

Lemma Split_encode_hash (salt hash : list byte) :
  Strings.Split (encode_hash salt hash) "$" =
  [ ""%string; "argon2id"%string; "v=19"%string;
    "m=65536,t=1,p=4"%string;
    Base64.EncodeToString Base64.RawStdEncoding salt;
    Base64.EncodeToString Base64.RawStdEncoding hash ].
Proof.
  change (encode_hash salt hash) with
    ("" +:+ String "$" ("argon2id" +:+ String "$" ("v=19" +:+ String "$"
      ("m=65536,t=1,p=4" +:+ String "$"
        (Base64.EncodeToString Base64.RawStdEncoding salt +:+ String "$"
          (Base64.EncodeToString Base64.RawStdEncoding hash)))))).
  rewrite !Split_app, Split_no_sep;
    try apply Base64Facts.EncodeToString_no_dollar;
    try (cbn; intuition discriminate).
Qed.

(** What [verifyPassword] computes on an encoded hash: it recomputes the
    digest with the cost parameters, the salt and the digest length read
    back from the text, and compares. *)
Lemma verifyPassword_encode_hash (password : string) (salt hash : list byte) :
  verifyPassword password (encode_hash salt hash) =
  bool_decide
    (hash = argon2_IDKey (bytes_of_string password) salt argon2Time
              argon2Memory argon2Threads
              (Z.of_nat (length hash) mod 2 ^ 32)).
Proof.
  unfold verifyPassword. rewrite Split_encode_hash.
  change (Sscanf_version "v=19") with (Some 19).
  change (Sscanf_params "m=65536,t=1,p=4") with (Some (65536, 1, 4)).
  cbv iota beta.
  rewrite !Base64Facts.DecodeString_EncodeToString.
  unfold ConstantTimeCompare, argon2Time, argon2Memory, argon2Threads.
  change (64 * 1024) with 65536.
  destruct (decide _) as [e|n].
  - rewrite bool_decide_eq_true_2 by exact e. reflexivity.
  - rewrite bool_decide_eq_false_2 by exact n. reflexivity.
Qed.

Hypothesis IDKey_length : IDKey_length_law L.

Lemma verifyPassword_digest (p p' : string) (salt : list byte) :
  verifyPassword p'
    (encode_hash salt
       (argon2_IDKey (bytes_of_string p) salt argon2Time argon2Memory
          argon2Threads argon2KeyLen)) = true
  <-> argon2_IDKey (bytes_of_string p') salt argon2Time argon2Memory
        argon2Threads argon2KeyLen
      = argon2_IDKey (bytes_of_string p) salt argon2Time argon2Memory
          argon2Threads argon2KeyLen.
Proof.
  rewrite verifyPassword_encode_hash, bool_decide_eq_true.
  rewrite IDKey_length by (unfold argon2KeyLen; lia).
  change (argon2KeyLen mod 2 ^ 32) with argon2KeyLen.
  split; intros H; symmetry; exact H.
Qed.

End PasswordHash.

(** ** No digest of fixed length separates all passwords *)





Lemma sample_IDKey_length : IDKey_length_law sample_libs.
Proof.
  intros password salt time memory threads keyLen Hk.
  cbn [argon2_IDKey sample_libs]. unfold sample_IDKey.
  rewrite length_firstn, !length_app, repeat_length. lia.
Qed.

(** From here on the codecs are used through the lemmas above only. *)
#[local] Opaque Base64.EncodeToString Base64.DecodeString
  Base32.EncodeToString Strings.ToUpper Fmt.Itoa.

(** ** Login: credentials, lockout *)

Lemma find_map_same {A : Type} (p : A -> bool) (f : A -> A) (l : list A) :
  (forall x, p x = true -> p (f x) = true) ->
  List.find p (map (fun x => if p x then f x else x) l)
  = option_map f (List.find p l).
Proof.
  intros Hp. induction l as [|x l IH]; [reflexivity|].
  cbn [map List.find]. destruct (p x) eqn:E.
  - now rewrite (Hp x E).
  - now rewrite E, IH.
Qed.

Lemma GetCredential_on_credential (userID : Z)
    (f : UserCredential -> UserCredential) (w : World) :
  (forall c, uc_UserID c = userID -> uc_UserID (f c) = userID) ->
  AuthRepo.GetCredentialByUserID userID (AuthRepo.on_credential userID f w)
  = option_map f (AuthRepo.GetCredentialByUserID userID w).
Proof.
  intros Hf. unfold AuthRepo.GetCredentialByUserID, AuthRepo.on_credential.
  cbn [user_credentials upd_user_credentials].
  apply (find_map_same (fun c => uc_UserID c =? userID)).
  intros c Hc. apply Z.eqb_eq. apply Hf. now apply Z.eqb_eq.
Qed.

Lemma GetCredential_Increment (userID : Z) (w : World) :
  AuthRepo.GetCredentialByUserID userID
    (AuthRepo.IncrementFailedAttempts userID w)
  = option_map bump (AuthRepo.GetCredentialByUserID userID w).
Proof. apply GetCredential_on_credential. intros c Hc. exact Hc. Qed.

Lemma GetCredential_LockAccount (userID t : Z) (w : World) :
  AuthRepo.GetCredentialByUserID userID (AuthRepo.LockAccount userID t w)
  = option_map (lock_until t) (AuthRepo.GetCredentialByUserID userID w).
Proof. apply GetCredential_on_credential. intros c Hc. exact Hc. Qed.

Lemma GetCredential_Reset (userID : Z) (w : World) :
  AuthRepo.GetCredentialByUserID userID
    (AuthRepo.ResetFailedAttempts userID w)
  = option_map cleared (AuthRepo.GetCredentialByUserID userID w).
Proof. apply GetCredential_on_credential. intros c Hc. exact Hc. Qed.

Section LoginFacts.

Context {L : Libs}.
Variable cfg : LocalAuthConfig.

Lemma GetCredential_logFailedLogin uid o e i a r w :
  AuthRepo.GetCredentialByUserID uid (logFailedLogin o e i a r w)
  = AuthRepo.GetCredentialByUserID uid w.
Proof. reflexivity. Qed.

Lemma GetCredential_logAudit uid o a t i ov nv ip ua w :
  AuthRepo.GetCredentialByUserID uid (logAudit o a t i ov nv ip ua w)
  = AuthRepo.GetCredentialByUserID uid w.
Proof. reflexivity. Qed.

Lemma GetUser_logFailedLogin email o e i a r w :
  AuthRepo.GetUserByEmail email (logFailedLogin o e i a r w)
  = AuthRepo.GetUserByEmail email w.
Proof. reflexivity. Qed.

Lemma GetUser_logAudit email o a t i ov nv ip ua w :
  AuthRepo.GetUserByEmail email (logAudit o a t i ov nv ip ua w)
  = AuthRepo.GetUserByEmail email w.
Proof. reflexivity. Qed.

Lemma GetUser_on_credential email uid f w :
  AuthRepo.GetUserByEmail email (AuthRepo.on_credential uid f w)
  = AuthRepo.GetUserByEmail email w.
Proof. reflexivity. Qed.

(** One failed password attempt on an unlocked account: the counter
    goes up by one, and lock-until is set to [now] plus the lockout
    duration when the new count has reached the threshold. *)
Lemma Login_wrong_password (now : Z) (req : LoginRequest) (w : World)
    (user : User) (hash : string) (n : Z) (lock : option Z) :
  account_state w (lr_Email req) user hash n lock ->
  match lock with Some t => now <? t | None => false end = false ->
  verifyPassword (lr_Password req) hash = false ->
  fst (Login cfg now req w) = Fail ErrInvalidCredentials /\
  account_state (snd (Login cfg now req w)) (lr_Email req) user hash (n + 1)
    (if LockoutThreshold cfg <=? n + 1
     then Some (now + LockoutDuration cfg) else lock).
Proof.
  intros (Hu & Hs & cred & Hc & <- & <- & <-) Hlock Hv.
  unfold Login. rewrite Hu, Hs.
  change (String.eqb UserStatusActive UserStatusActive) with true.
  cbn [negb]. rewrite Hc. unfold IsLocked. rewrite Hlock, Hv.
  cbn [negb]. rewrite GetCredential_Increment, Hc.
  cbn [option_map bump uc_FailedLoginAttempts].
  unfold account_state.
  destruct (LockoutThreshold cfg <=? uc_FailedLoginAttempts cred + 1) eqn:Ethr; cbn [fst snd].
  - rewrite GetCredential_logFailedLogin, GetCredential_logAudit,
      GetCredential_LockAccount, GetCredential_Increment, Hc.
    rewrite GetUser_logFailedLogin, GetUser_logAudit.
    unfold AuthRepo.LockAccount, AuthRepo.IncrementFailedAttempts.
    rewrite !GetUser_on_credential.
    repeat split; try assumption.
    eexists. split; [reflexivity|]. cbn. auto.
  - rewrite GetCredential_logFailedLogin, GetCredential_Increment, Hc.
    rewrite GetUser_logFailedLogin.
    unfold AuthRepo.IncrementFailedAttempts.
    rewrite !GetUser_on_credential.
    repeat split; try assumption.
    eexists. split; [reflexivity|]. cbn. auto.
Qed.


(** A correct password on an unlocked account clears the counter,
    whether or not MFA is then required. *)
Lemma Login_correct_password (now : Z) (req : LoginRequest) (w : World)
    (user : User) (hash : string) (n : Z) (lock : option Z) :
  account_state w (lr_Email req) user hash n lock ->
  match lock with Some t => now <? t | None => false end = false ->
  verifyPassword (lr_Password req) hash = true ->
  (exists resp, fst (Login cfg now req w) = Ok resp) /\
  exists cred,
    AuthRepo.GetCredentialByUserID (u_Id user) (snd (Login cfg now req w))
    = Some cred /\
    uc_PasswordHash cred = hash /\
    uc_FailedLoginAttempts cred = 0 /\
    uc_LockedUntil cred = lock.
Proof.
  intros (Hu & Hs & cred & Hc & <- & <- & <-) Hlock Hv.
  unfold Login. rewrite Hu, Hs.
  change (String.eqb UserStatusActive UserStatusActive) with true.
  cbn [negb]. rewrite Hc. unfold IsLocked. rewrite Hlock, Hv.
  cbn [negb].
  assert (Hr : AuthRepo.GetCredentialByUserID (u_Id user)
                 (AuthRepo.ResetFailedAttempts (u_Id user) w)
               = Some (cleared cred)).
  { now rewrite GetCredential_Reset, Hc. }
  destruct (AuthRepo.GetMFAByUserID (u_Id user)
              (AuthRepo.ResetFailedAttempts (u_Id user) w))
    as [[mu me [] mv]|]; cbn [fst snd].
  all: split; [eexists; reflexivity|].
  all: exists (cleared cred).
  all: split; [exact Hr|cbn; auto].
Qed.

Lemma failures_below_threshold (attempts : list (Z * LoginRequest))
    (w : World) (email : string) (user : User) (hash : string) (n : Z) :
  account_state w email user hash n None ->
  Forall (wrong_attempt email hash) attempts ->
  n + Z.of_nat (length attempts) < LockoutThreshold cfg ->
  account_state (run_logins cfg attempts w) email user hash
    (n + Z.of_nat (length attempts)) None.
Proof.
  intros Hst Hall. revert w n Hst.
  induction Hall as [|[now req] attempts [He Hv] _ IH]; intros w n Hst Hlt.
  - cbn [run_logins length]. now rewrite Z.add_0_r.
  - cbn [run_logins]. cbn [snd] in He, Hv. subst email.
    destruct (Login_wrong_password now req w user hash n None Hst eq_refl Hv)
      as [_ Hst'].
    cbn [length] in Hlt |- *.
    replace (LockoutThreshold cfg <=? n + 1) with false in Hst'
      by (symmetry; apply Z.leb_gt; lia).
    replace (n + Z.of_nat (S (length attempts)))
      with (n + 1 + Z.of_nat (length attempts)) by lia.
    apply IH; [exact Hst'|lia].
Qed.

End LoginFacts.

(** C1.  From a Credential with no failed attempts and no lock, any run
    of fewer than [LockoutThreshold] consecutive wrong-password logins
    leaves lock-until unset and the counter at their number; the failure
    that brings the counter to the threshold sets lock-until to the
    instant of that attempt plus [LockoutDuration]; and a login with the
    right password before the threshold puts the counter back to 0. *)
Theorem lockout_exactly_at_threshold {L : Libs} (cfg : LocalAuthConfig)
    (w : World) (email : string) (user : User) (hash : string)
    (attempts : list (Z * LoginRequest)) :
  account_state w email user hash 0 None ->
  Forall (wrong_attempt email hash) attempts ->
  (Z.of_nat (length attempts) < LockoutThreshold cfg ->
   account_state (run_logins cfg attempts w) email user hash
     (Z.of_nat (length attempts)) None) /\
  (forall now req,
     Z.of_nat (length attempts) = LockoutThreshold cfg - 1 ->
     wrong_attempt email hash (now, req) ->
     fst (Login cfg now req (run_logins cfg attempts w))
     = Fail ErrInvalidCredentials /\
     account_state (snd (Login cfg now req (run_logins cfg attempts w)))
       email user hash (LockoutThreshold cfg)
       (Some (now + LockoutDuration cfg))) /\
  (forall now req,
     Z.of_nat (length attempts) < LockoutThreshold cfg ->
     lr_Email req = email ->
     verifyPassword (lr_Password req) hash = true ->
     exists cred,
       AuthRepo.GetCredentialByUserID (u_Id user)
         (snd (Login cfg now req (run_logins cfg attempts w))) = Some cred /\
       uc_FailedLoginAttempts cred = 0).
Proof.
  intros Hst Hall.
  assert (Hbelow : Z.of_nat (length attempts) < LockoutThreshold cfg ->
            account_state (run_logins cfg attempts w) email user hash
              (Z.of_nat (length attempts)) None).
  { intros Hlt.
    apply (failures_below_threshold cfg attempts w email user hash 0 Hst Hall).
    lia. }
  split; [exact Hbelow|]. split.
  - intros now req Hlen [He Hv]. cbn [snd] in He, Hv. subst email.
    destruct (Login_wrong_password cfg now req _ user hash _ None
                (Hbelow ltac:(lia)) eq_refl Hv) as [Hr Hst'].
    split; [exact Hr|].
    replace (LockoutThreshold cfg <=? Z.of_nat (length attempts) + 1)
      with true in Hst' by (symmetry; apply Z.leb_le; lia).
    replace (Z.of_nat (length attempts) + 1) with (LockoutThreshold cfg)
      in Hst' by lia.
    exact Hst'.
  - intros now req Hlt He Hv. subst email.
    destruct (Login_correct_password cfg now req _ user hash _ None
                (Hbelow Hlt) eq_refl Hv) as [_ (cred & Hc & _ & H0 & _)].
    exists cred. split; assumption.
Qed.

Lemma sample_alice_state :
  account_state sample_world "alice@x.com" alice alice_hash 0 None.
Proof.
  split; [vm_compute; reflexivity|]. split; [reflexivity|].
  exists alice_cred. split; [vm_compute; reflexivity|].
  split; [reflexivity|]. split; reflexivity.
Defined.

Lemma lockout_exactly_at_threshold_witness :
  account_state (run_logins sample_cfg two_failures sample_world)
    "alice@x.com" alice alice_hash 2 None /\
  account_state
    (snd (Login sample_cfg 2002 (login_req "alice@x.com" "letmein3")
            (run_logins sample_cfg two_failures sample_world)))
    "alice@x.com" alice alice_hash 3 (Some (2002 + 900000000000)) /\
  exists cred,
    AuthRepo.GetCredentialByUserID 1
      (snd (Login sample_cfg 2002 (login_req "alice@x.com" "Password1")
              (run_logins sample_cfg two_failures sample_world)))
    = Some cred /\
    uc_FailedLoginAttempts cred = 0.
Proof.
  assert (Hall : Forall (wrong_attempt "alice@x.com" alice_hash)
                   two_failures).
  { repeat constructor; vm_compute; reflexivity. }
  destruct (lockout_exactly_at_threshold sample_cfg sample_world
              "alice@x.com" alice alice_hash two_failures
              sample_alice_state Hall) as (Hbelow & Hat & Hreset).
  split; [apply Hbelow; reflexivity|]. split.
  - apply Hat; [reflexivity|]. split; vm_compute; reflexivity.
  - apply Hreset; [reflexivity|reflexivity|vm_compute; reflexivity].
Defined.

(** C10.  An active user without a Credential row gets
    [ErrCredentialsNotFound] from [Login], an error distinct from the
    [ErrInvalidCredentials] that both an unknown email and a wrong
    password produce. *)
Theorem Login_credentials_not_found {L : Libs} (cfg : LocalAuthConfig)
    (now : Z) (req : LoginRequest) (w : World) (user : User) :
  AuthRepo.GetUserByEmail (lr_Email req) w = Some user ->
  u_Status user = UserStatusActive ->
  AuthRepo.GetCredentialByUserID (u_Id user) w = None ->
  fst (Login cfg now req w) = Fail ErrCredentialsNotFound /\
  ErrCredentialsNotFound <> ErrInvalidCredentials /\
  (forall req',
     AuthRepo.GetUserByEmail (lr_Email req') w = None ->
     fst (Login cfg now req' w) = Fail ErrInvalidCredentials) /\
  (forall req' user' hash n lock,
     account_state w (lr_Email req') user' hash n lock ->
     match lock with Some t => now <? t | None => false end = false ->
     verifyPassword (lr_Password req') hash = false ->
     fst (Login cfg now req' w) = Fail ErrInvalidCredentials).
Proof.
  intros Hu Hs Hc. split; [|split; [discriminate|split]].
  - unfold Login. rewrite Hu, Hs.
    change (String.eqb UserStatusActive UserStatusActive) with true.
    cbn [negb]. now rewrite Hc.
  - intros req' Hnone. unfold Login. now rewrite Hnone.
  - intros req' user' hash n lock Hst Hlock Hv.
    apply (Login_wrong_password cfg now req' w user' hash n lock Hst Hlock Hv).
Qed.

Lemma Login_credentials_not_found_witness :
  fst (Login sample_cfg 2000 (login_req "bob@x.com" "Password2")
         sample_world)
  = Fail ErrCredentialsNotFound.
Proof.
  apply (Login_credentials_not_found sample_cfg 2000
           (login_req "bob@x.com" "Password2") sample_world bob).
  - vm_compute; reflexivity.
  - reflexivity.
  - vm_compute; reflexivity.
Defined.

(** ** Password reset *)

(** C8.  [ForgotPassword] returns the same nil for an email that matches
    no account and for the email of an existing account.  The run with
    the unknown email leaves every store as it was; the run with the
    existing account deletes that identity's reset tokens and adds one
    fresh, unused token that expires an hour later. *)
Theorem ForgotPassword_anti_enumeration {L : Libs} (now : Z)
    (unknown known : string) (w : World) (user : User) :
  AuthRepo.GetUserByEmail unknown w = None ->
  AuthRepo.GetUserByEmail known w = Some user ->
  fst (ForgotPassword now unknown w) = None /\
  fst (ForgotPassword now known w) = None /\
  snd (ForgotPassword now unknown w) = w /\
  password_reset_tokens (snd (ForgotPassword now known w)) =
    List.filter (fun t => negb (prt_UserID t =? u_Id user))
      (password_reset_tokens w)
    ++ [ {| prt_ID := reset_token_seq w + 1;
            prt_UserID := u_Id user;
            prt_Token := fst (generateSecureToken w);
            prt_ExpiresAt := now + 1 * hour;
            prt_UsedAt := None |} ].
Proof.
  intros Hn Hk. unfold ForgotPassword. rewrite Hn, Hk.
  split; [reflexivity|]. split; [reflexivity|]. split; [reflexivity|].
  reflexivity.
Qed.

Lemma ForgotPassword_anti_enumeration_witness :
  fst (ForgotPassword 5000 "nobody@x.com" sample_world)
  = fst (ForgotPassword 5000 "alice@x.com" sample_world) /\
  snd (ForgotPassword 5000 "nobody@x.com" sample_world) = sample_world /\
  length (password_reset_tokens
            (snd (ForgotPassword 5000 "alice@x.com" sample_world))) = 1%nat.
Proof.
  destruct (ForgotPassword_anti_enumeration 5000 "nobody@x.com"
              "alice@x.com" sample_world alice)
    as (H1 & H2 & H3 & H4).
  - vm_compute; reflexivity.
  - vm_compute; reflexivity.
  - split; [rewrite H1, H2; reflexivity|]. split; [exact H3|].
    rewrite H4. vm_compute. reflexivity.
Defined.

(** ** Setting a password *)

Section SetPasswordFacts.

Context {L : Libs}.
Variable cfg : LocalAuthConfig.

(** [SetPassword] touches the Credential table and the random source
    only. *)
Lemma SetPassword_frame (now userID : Z) (password : string) (w : World) :
  let w' := snd (SetPassword cfg now userID password w) in
  password_history w' = password_history w /\
  password_reset_tokens w' = password_reset_tokens w /\
  kv_sessions w' = kv_sessions w /\
  sessions w' = sessions w /\
  user_mfa_backup_codes w' = user_mfa_backup_codes w /\
  kv_mfa_tokens w' = kv_mfa_tokens w.
Proof.
  unfold SetPassword.
  destruct (Z.of_nat (String.length password) <? PasswordMinLength cfg).
  - cbn [snd]. repeat split.
  - unfold hashPassword, rand_Read.
    destruct (AuthRepo.GetCredentialByUserID userID _); cbn [snd];
      repeat split.
Qed.

Lemma GetCredential_append_new (userID : Z) (c : UserCredential) (w : World) :
  AuthRepo.GetCredentialByUserID userID w = None ->
  uc_UserID c = userID ->
  AuthRepo.GetCredentialByUserID userID
    (upd_user_credentials (fun l => l ++ [c]) w) = Some c.
Proof.
  unfold AuthRepo.GetCredentialByUserID.
  cbn [user_credentials upd_user_credentials].
  intros Hn Hc. induction (user_credentials w) as [|x l IH].
  - cbn. now rewrite Hc, Z.eqb_refl.
  - cbn [List.find app] in Hn |- *.
    destruct (uc_UserID x =? userID); [discriminate|]. now apply IH.
Qed.

Lemma GetCredential_UserID (userID : Z) (c : UserCredential) (w : World) :
  AuthRepo.GetCredentialByUserID userID w = Some c -> uc_UserID c = userID.
Proof.
  unfold AuthRepo.GetCredentialByUserID. intros H.
  apply find_some in H as [_ H]. now apply Z.eqb_eq.
Qed.

(** After a password of sufficient length is set, the identity's
    Credential holds the fresh hash and the must-change flag. *)
Lemma SetPassword_sets_hash (now userID : Z) (password : string) (w : World) :
  PasswordMinLength cfg <= Z.of_nat (String.length password) ->
  fst (SetPassword cfg now userID password w) = None /\
  exists cred,
    AuthRepo.GetCredentialByUserID userID
      (snd (SetPassword cfg now userID password w)) = Some cred /\
    uc_PasswordHash cred = fst (hashPassword password w) /\
    uc_MustChangePassword cred = true.
Proof.
  intros Hlen. unfold SetPassword.
  replace (Z.of_nat (String.length password) <? PasswordMinLength cfg)
    with false by (symmetry; apply Z.ltb_ge; exact Hlen).
  unfold hashPassword, rand_Read.
  change (AuthRepo.GetCredentialByUserID userID
            (upd_entropy_pos (fun p => (p + argon2SaltLen)%nat) w))
    with (AuthRepo.GetCredentialByUserID userID w).
  destruct (AuthRepo.GetCredentialByUserID userID w) as [c|] eqn:Hc;
    cbn [fst snd].
  - split; [reflexivity|].
    pose proof (GetCredential_UserID _ _ _ Hc) as Hid.
    eexists. split.
    + unfold AuthRepo.UpdateCredential. cbn [uc_UserID]. rewrite Hid.
      rewrite GetCredential_on_credential by (intros; reflexivity).
      change (AuthRepo.GetCredentialByUserID userID
                (upd_entropy_pos (fun p => (p + argon2SaltLen)%nat) w))
        with (AuthRepo.GetCredentialByUserID userID w).
      rewrite Hc. reflexivity.
    + split; reflexivity.
  - split; [reflexivity|]. eexists. split.
    + unfold AuthRepo.CreateCredential.
      apply GetCredential_append_new; [exact Hc|reflexivity].
    + split; reflexivity.
Qed.

End SetPasswordFacts.




(** C3 fails on the code.  Alice has a Credential; [SetPassword]
    replaces her hash by another one and leaves the password history
    empty, so the previous hash is gone, whereas [ChangePassword] on the
    same state appends the previous hash to the history. *)
Theorem SetPassword_loses_previous_hash :
  let w' := snd (SetPassword sample_cfg 6000 1 "NewPassword9" sample_world) in
  AuthRepo.GetCredentialByUserID 1 sample_world = Some alice_cred /\
  fst (SetPassword sample_cfg 6000 1 "NewPassword9" sample_world) = None /\
  (exists cred,
     AuthRepo.GetCredentialByUserID 1 w' = Some cred /\
     uc_PasswordHash cred <> uc_PasswordHash alice_cred) /\
  password_history w' = [] /\
  password_history
    (snd (ChangePassword sample_cfg 6000 1 "Password1" "NewPassword9"
            "10.0.0.1" "curl" sample_world))
  = [ {| ph_UserID := 1; ph_PasswordHash := uc_PasswordHash alice_cred |} ].
Proof.
  cbv zeta. split; [vm_compute; reflexivity|].
  split; [vm_compute; reflexivity|]. split.
  - eexists. split; [vm_compute; reflexivity|]. vm_compute. discriminate.
  - split; vm_compute; reflexivity.
Qed.

(** The same for every input: [SetPassword] never writes to the
    password history. *)
Lemma SetPassword_history_unchanged {L : Libs} (cfg : LocalAuthConfig)
    (now userID : Z) (password : string) (w : World) :
  password_history (snd (SetPassword cfg now userID password w))
  = password_history w.
Proof. apply SetPassword_frame. Qed.

(** ** Consuming a reset token *)

Lemma find_map_preserved {A : Type} (p : A -> bool) (g : A -> A)
    (l : list A) :
  (forall x, p (g x) = p x) ->
  List.find p (map g l) = option_map g (List.find p l).
Proof.
  intros Hp. induction l as [|x l IH]; [reflexivity|].
  cbn [map List.find]. rewrite Hp. destruct (p x); [reflexivity|exact IH].
Qed.

Lemma find_none_iff {A : Type} (p : A -> bool) (l : list A) :
  (forall x, In x l -> p x = false) -> List.find p l = None.
Proof.
  intros H. induction l as [|x l IH]; [reflexivity|].
  cbn [List.find]. rewrite (H x) by now left.
  apply IH. intros y Hy. apply H. now right.
Qed.

Lemma NoDup_map_inj {A B : Type} (f : A -> B) (l : list A) (x y : A) :
  List.NoDup (map f l) -> In x l -> In y l -> f x = f y -> x = y.
Proof.
  induction l as [|a l IH]; intros Hnd Hx Hy Hf; [contradiction|].
  cbn [map] in Hnd. inversion Hnd as [|? ? Hnotin Hnd']; subst.
  destruct Hx as [->|Hx], Hy as [->|Hy].
  - reflexivity.
  - exfalso. apply Hnotin. rewrite Hf. now apply in_map.
  - exfalso. apply Hnotin. rewrite <- Hf. now apply in_map.
  - now apply IH.
Qed.

Section ResetPasswordFacts.

Context {L : Libs}.
Variable cfg : LocalAuthConfig.

Lemma ResetPassword_success (now : Z) (tok p c : string) (w : World) :
  fst (ResetPassword cfg now tok p c w) = None ->
  p = c /\
  PasswordMinLength cfg <= Z.of_nat (String.length p) /\
  exists t,
    RegRepo.GetPasswordResetToken tok w = Some t /\
    prt_IsExpired now t = false /\
    prt_IsUsed t = false /\
    snd (ResetPassword cfg now tok p c w) = reset_effects cfg now t p w.
Proof.
  unfold ResetPassword.
  destruct (String.eqb_spec p c) as [->|Hne]; cbn [negb fst];
    [|discriminate].
  destruct (Z.of_nat (String.length c) <? PasswordMinLength cfg) eqn:Hlen;
    [discriminate|].
  apply Z.ltb_ge in Hlen.
  destruct (RegRepo.GetPasswordResetToken tok w) as [t|]; [|discriminate].
  destruct (prt_IsExpired now t || prt_IsUsed t) eqn:Hvalid; [discriminate|].
  apply orb_false_elim in Hvalid as [Hexp Hused].
  unfold reset_effects.
  destruct (SetPassword cfg now (prt_UserID t) c
              (RegRepo.MarkPasswordResetTokenUsed now (prt_ID t) w))
    as [[e|] w2] eqn:Hset; cbn [fst snd]; [discriminate|].
  intros _. split; [reflexivity|]. split; [exact Hlen|].
  exists t. split; [reflexivity|]. split; [exact Hexp|].
  split; [exact Hused|]. cbv zeta. rewrite Hset. reflexivity.
Qed.

Lemma GetPasswordResetToken_marked (now : Z) (tok : string)
    (t : PasswordResetToken) (w : World) :
  RegRepo.GetPasswordResetToken tok w = Some t ->
  RegRepo.GetPasswordResetToken tok
    (RegRepo.MarkPasswordResetTokenUsed now (prt_ID t) w)
  = Some (mark_used now t).
Proof.
  unfold RegRepo.GetPasswordResetToken, RegRepo.MarkPasswordResetTokenUsed.
  cbn [password_reset_tokens upd_password_reset_tokens]. intros H.
  rewrite (find_map_preserved (fun r => String.eqb (prt_Token r) tok)).
  - rewrite H. cbn [option_map]. now rewrite Z.eqb_refl.
  - intros x. now destruct (prt_ID x =? prt_ID t).
Qed.

End ResetPasswordFacts.

Section ResetPasswordEffects.

Context {L : Libs}.
Variable cfg : LocalAuthConfig.

Lemma LogoutAll_stores (now userID : Z) (ip userAgent : string) (w : World) :
  let w' := snd (LogoutAll now userID ip userAgent w) in
  fst (LogoutAll now userID ip userAgent w) = None /\
  kv_sessions w' = filter (fun kv => sd_UserID (snd kv) ≠ userID)
                     (kv_sessions w) /\
  (forall s, In s (sessions w') -> s_UserID s = userID ->
             s_RevokedAt s <> None) /\
  password_reset_tokens w' = password_reset_tokens w /\
  user_credentials w' = user_credentials w.
Proof.
  cbv zeta. split; [reflexivity|]. split; [reflexivity|].
  split; [|split; reflexivity].
  unfold LogoutAll, logAudit, AuthRepo.CreateAuditTrail,
    AuthRepo.RevokeAllUserSessions, SessionStore.DeleteAllUserSessions.
  cbn [snd sessions upd_security_audit_trail upd_sessions upd_kv_sessions].
  intros s Hin Hu. apply in_map_iff in Hin as (s0 & <- & _).
  destruct (s_UserID s0 =? userID) eqn:E.
  - destruct (s_RevokedAt s0) eqn:R; cbn [andb s_RevokedAt].
    + rewrite R. discriminate.
    + discriminate.
  - cbn [andb] in Hu. apply Z.eqb_neq in E. contradiction.
Qed.

Lemma reset_effects_stores (now : Z) (t : PasswordResetToken) (p : string)
    (w : World) :
  PasswordMinLength cfg <= Z.of_nat (String.length p) ->
  let w' := reset_effects cfg now t p w in
  password_reset_tokens w' =
    List.filter (fun r => negb (prt_UserID r =? prt_UserID t))
      (map (fun r => if prt_ID r =? prt_ID t then mark_used now r else r)
         (password_reset_tokens w)) /\
  kv_sessions w' = filter (fun kv => sd_UserID (snd kv) ≠ prt_UserID t)
                     (kv_sessions w) /\
  (forall s, In s (sessions w') -> s_UserID s = prt_UserID t ->
             s_RevokedAt s <> None) /\
  exists cred,
    AuthRepo.GetCredentialByUserID (prt_UserID t) w' = Some cred /\
    uc_PasswordHash cred = fst (hashPassword p w) /\
    uc_MustChangePassword cred = true.
Proof.
  intros Hlen. cbv zeta. unfold reset_effects.
  set (w1 := RegRepo.MarkPasswordResetTokenUsed now (prt_ID t) w).
  set (w2 := snd (SetPassword cfg now (prt_UserID t) p w1)).
  set (w3 := RegRepo.DeleteUserPasswordResetTokens (prt_UserID t) w2).
  destruct (LogoutAll_stores now (prt_UserID t) "" "password reset" w3)
    as (_ & Hkv & Hrev & Htok & Hcred).
  destruct (SetPassword_frame cfg now (prt_UserID t) p w1)
    as (_ & Htok2 & Hkv2 & _).
  fold w2 in Htok2, Hkv2.
  split; [|split; [|split]].
  - rewrite Htok. unfold w3, RegRepo.DeleteUserPasswordResetTokens.
    cbn [password_reset_tokens upd_password_reset_tokens].
    rewrite Htok2. reflexivity.
  - rewrite Hkv. unfold w3, RegRepo.DeleteUserPasswordResetTokens.
    cbn [kv_sessions upd_password_reset_tokens].
    rewrite Hkv2. reflexivity.
  - exact Hrev.
  - destruct (SetPassword_sets_hash cfg now (prt_UserID t) p w1 Hlen)
      as (_ & cred & Hc & Hh & Hm).
    exists cred. split; [|split; [exact Hh|exact Hm]].
    unfold AuthRepo.GetCredentialByUserID in Hc |- *.
    rewrite Hcred. exact Hc.
Qed.

End ResetPasswordEffects.

(** C6.  When [ResetPassword] succeeds with a token: the two passwords
    were equal and long enough; the token was stored, not expired and
    not used; the stores are those obtained by marking the token used,
    setting the password, deleting the identity's reset tokens and
    revoking its sessions, in this order; the identity's Credential
    holds the hash of the new password; no reset token of the identity
    and none of its sessions is left, and its durable session rows are
    revoked; and any further call with the same token fails, with
    [ErrInvalidResetToken] when its passwords are well formed.  Token
    strings are unique in the table, as its unique index requires. *)
Theorem ResetPassword_single_use {L : Libs} (cfg : LocalAuthConfig)
    (now : Z) (tok p c : string) (w : World) :
  List.NoDup (map prt_Token (password_reset_tokens w)) ->
  fst (ResetPassword cfg now tok p c w) = None ->
  let w' := snd (ResetPassword cfg now tok p c w) in
  p = c /\
  PasswordMinLength cfg <= Z.of_nat (String.length p) /\
  exists t,
    RegRepo.GetPasswordResetToken tok w = Some t /\
    prt_IsExpired now t = false /\
    prt_IsUsed t = false /\
    w' = reset_effects cfg now t p w /\
    RegRepo.GetPasswordResetToken tok
      (RegRepo.MarkPasswordResetTokenUsed now (prt_ID t) w)
    = Some (mark_used now t) /\
    (exists cred,
       AuthRepo.GetCredentialByUserID (prt_UserID t) w' = Some cred /\
       uc_PasswordHash cred = fst (hashPassword p w) /\
       uc_MustChangePassword cred = true) /\
    (forall t', In t' (password_reset_tokens w') ->
                prt_UserID t' <> prt_UserID t) /\
    (forall sid s, kv_sessions w' !! sid = Some s ->
                   sd_UserID s <> prt_UserID t) /\
    (forall s, In s (sessions w') -> s_UserID s = prt_UserID t ->
               s_RevokedAt s <> None) /\
    (forall now' p' c', fst (ResetPassword cfg now' tok p' c' w') <> None) /\
    (forall now' p',
       PasswordMinLength cfg <= Z.of_nat (String.length p') ->
       fst (ResetPassword cfg now' tok p' p' w')
       = Some ErrInvalidResetToken).
Proof.
  intros Hnd Hok. cbv zeta.
  destruct (ResetPassword_success cfg now tok p c w Hok)
    as (Hpc & Hlen & t & Ht & Hexp & Hused & Hw).
  split; [exact Hpc|]. split; [exact Hlen|].
  exists t. rewrite Hw.
  destruct (reset_effects_stores cfg now t p w Hlen)
    as (Htok & Hkv & Hrev & Hcred).
  assert (Hgone : forall t', In t' (password_reset_tokens
                                      (reset_effects cfg now t p w)) ->
                             prt_UserID t' <> prt_UserID t).
  { intros t' Hin. rewrite Htok in Hin.
    apply filter_In in Hin as [_ Hne].
    apply negb_true_iff, Z.eqb_neq in Hne. exact Hne. }
  assert (Hnone : RegRepo.GetPasswordResetToken tok
                    (reset_effects cfg now t p w) = None).
  { unfold RegRepo.GetPasswordResetToken. apply find_none_iff.
    intros r Hin. destruct (String.eqb_spec (prt_Token r) tok) as [Heq|];
      [exfalso|reflexivity].
    pose proof (Hgone r Hin) as Hne. rewrite Htok in Hin.
    apply filter_In in Hin as [Hin _].
    apply in_map_iff in Hin as (r0 & Hr0 & Hin0).
    unfold RegRepo.GetPasswordResetToken in Ht.
    apply find_some in Ht as [Hint Htt].
    apply String.eqb_eq in Htt.
    assert (r0 = t) as ->.
    { apply (NoDup_map_inj prt_Token (password_reset_tokens w)); auto.
      rewrite Htt, <- Heq, <- Hr0.
      now destruct (prt_ID r0 =? prt_ID t). }
    apply Hne. rewrite <- Hr0. now destruct (prt_ID t =? prt_ID t). }
  split; [exact Ht|]. split; [exact Hexp|]. split; [exact Hused|].
  split; [reflexivity|].
  split; [apply GetPasswordResetToken_marked; exact Ht|].
  split; [exact Hcred|]. split; [exact Hgone|]. split.
  { intros sid s Hs. rewrite Hkv in Hs.
    apply map_lookup_filter_Some in Hs as [_ Hne]. exact Hne. }
  split; [exact Hrev|]. split.
  - intros now' p' c'. unfold ResetPassword.
    destruct (negb (String.eqb p' c')); [discriminate|].
    destruct (Z.of_nat (String.length p') <? PasswordMinLength cfg);
      [discriminate|].
    rewrite Hnone. discriminate.
  - intros now' p' Hlen'. unfold ResetPassword.
    rewrite String.eqb_refl. cbn [negb].
    replace (Z.of_nat (String.length p') <? PasswordMinLength cfg)
      with false by (symmetry; apply Z.ltb_ge; exact Hlen').
    now rewrite Hnone.
Qed.

Lemma ResetPassword_single_use_witness :
  fst (ResetPassword sample_cfg 6000 alice_reset_token "NewPassword9"
         "NewPassword9" world_reset_requested) = None /\
  fst (ResetPassword sample_cfg 6001 alice_reset_token "NewPassword9"
         "NewPassword9"
         (snd (ResetPassword sample_cfg 6000 alice_reset_token
                 "NewPassword9" "NewPassword9" world_reset_requested)))
  = Some ErrInvalidResetToken.
Proof.
  assert (Hnd : List.NoDup (map prt_Token
                  (password_reset_tokens world_reset_requested))).
  { vm_compute. constructor; [intros []|constructor]. }
  assert (Hok : fst (ResetPassword sample_cfg 6000 alice_reset_token
                       "NewPassword9" "NewPassword9" world_reset_requested)
                = None).
  { vm_compute. reflexivity. }
  split; [exact Hok|].
  destruct (ResetPassword_single_use sample_cfg 6000 alice_reset_token
              "NewPassword9" "NewPassword9" world_reset_requested Hnd Hok)
    as (_ & _ & t & _ & _ & _ & _ & _ & _ & _ & _ & _ & _ & Hagain).
  apply Hagain. vm_compute. discriminate.
Defined.

(** ** TOTP confirmation and backup codes *)

Lemma advance_advance (a b : nat) (w : World) :
  advance a (advance b w) = advance (b + a) w.
Proof.
  unfold advance, upd_entropy_pos. cbn. f_equal. lia.
Qed.

Lemma advance_0 (w : World) : advance 0 w = w.
Proof.
  destruct w. unfold advance, upd_entropy_pos. cbn. f_equal. lia.
Qed.

Lemma advance_ext (a b : nat) (w : World) :
  a = b -> advance a w = advance b w.
Proof. now intros ->. Qed.

Section BackupCodes.

Context {L : Libs}.

Lemma backup_code_loop_spec (n : nat) (userID : Z) (w : World) :
  backup_code_loop n userID w =
  (map (issued_code (entropy w) (entropy_pos w)) (seq 0 n),
   map (issued_row (entropy w) (entropy_pos w) 0 userID) (seq 0 n),
   advance (21 * n) w).
Proof.
  revert w. induction n as [|n IH]; intros w.
  - cbn [backup_code_loop seq map]. now rewrite Nat.mul_0_r, advance_0.
  - cbn [backup_code_loop]. unfold generateRandomCode,
      generateBackupCodeSalt, rand_Read. rewrite IH.
    cbn [entropy entropy_pos upd_entropy_pos].
    cbn [seq map]. rewrite <- List.seq_shift, !List.map_map.
    fold (advance 5 w). fold (advance 16 (advance 5 w)).
    rewrite !advance_advance.
    assert (Hpos : forall i,
              (entropy_pos w + 5 + 16 + 21 * i
               = entropy_pos w + 21 * S i)%nat) by (intros; lia).
    f_equal; [f_equal|].
    + f_equal.
      * unfold issued_code, code_positions. now rewrite Nat.mul_0_r, Nat.add_0_r.
      * apply List.map_ext. intros i. unfold issued_code, code_positions.
        now rewrite Hpos.
    + f_equal.
      * unfold issued_row, issued_code, issued_salt, code_positions,
          salt_positions. now rewrite Nat.mul_0_r, Nat.add_0_r.
      * apply List.map_ext. intros i.
        unfold issued_row, issued_code, issued_salt, code_positions,
          salt_positions. now rewrite Hpos.
    + apply advance_ext. lia.
Qed.

Lemma number_codes_map (f : nat -> UserMFABackupCode) (first : Z)
    (k n : nat) :
  AuthRepo.number_codes (first + Z.of_nat k) (map f (seq k n)) =
  map (fun i => {| bc_ID := first + Z.of_nat i;
                   bc_UserID := bc_UserID (f i);
                   bc_CodeHash := bc_CodeHash (f i);
                   bc_Salt := bc_Salt (f i);
                   bc_UsedAt := bc_UsedAt (f i) |}) (seq k n).
Proof.
  revert k. induction n as [|n IH]; intros k; [reflexivity|].
  cbn [seq map AuthRepo.number_codes]. f_equal.
  replace (first + Z.of_nat k + 1) with (first + Z.of_nat (S k)) by lia.
  apply IH.
Qed.

End BackupCodes.

Lemma GetMFA_EnableMFA (now userID : Z) (w : World) :
  AuthRepo.GetMFAByUserID userID (AuthRepo.EnableMFA now userID w)
  = option_map (enabled_at now) (AuthRepo.GetMFAByUserID userID w).
Proof.
  unfold AuthRepo.GetMFAByUserID, AuthRepo.EnableMFA.
  cbn [user_mfa_totp upd_user_mfa_totp].
  apply (find_map_same (fun m => mfa_UserID m =? userID)).
  intros m Hm. exact Hm.
Qed.





(** ** Completing a login with MFA *)

Section MFALogin.

Context {L : Libs}.
Variable cfg : LocalAuthConfig.

Lemma complete_mfa_login_stores (now : Z) (pending : MFAPendingData)
    (ip userAgent : string) (w : World) :
  let r := complete_mfa_login cfg now pending ip userAgent w in
  kv_mfa_tokens (snd r) = kv_mfa_tokens w /\
  user_mfa_backup_codes (snd r) = user_mfa_backup_codes w /\
  backup_code_seq (snd r) = backup_code_seq w /\
  (forall user,
     AuthRepo.GetUserByEmail (mp_Email pending) w = Some user ->
     exists session,
       fst r = Ok {| RequiresMFA := false; MFAToken := "";
                     resp_Session := Some session;
                     resp_User := Some user |} /\
       sd_UserID session = u_Id user /\
       kv_sessions (snd r) !! sd_SessionID session = Some session) /\
  (AuthRepo.GetUserByEmail (mp_Email pending) w = None ->
   fst r = Fail ErrUserNotFound).
Proof.
  cbv zeta. unfold complete_mfa_login.
  destruct (AuthRepo.GetUserByEmail (mp_Email pending) w) as [user|].
  - unfold createSession, rand_Read. cbn [fst snd].
    split; [reflexivity|]. split; [reflexivity|]. split; [reflexivity|].
    split; [|discriminate].
    intros user' [= <-]. eexists. split; [reflexivity|].
    split; [reflexivity|].
    unfold logSuccessfulLogin, logAudit, AuthRepo.CreateAuditTrail,
      AuthRepo.CreateLoginHistory, AuthRepo.UpdateUserLoginStats,
      AuthRepo.CreateSession, SessionStore.Create.
    cbn [kv_sessions upd_security_audit_trail upd_login_history upd_users
           upd_sessions upd_kv_sessions upd_entropy_pos sd_SessionID].
    apply lookup_insert_eq.
  - cbn [fst snd]. repeat split; try reflexivity. discriminate.
Qed.

(** C7.  With a live pending record and MFA enabled: an invalid code
    gives [ErrInvalidMFACode], records one failed login and leaves the
    pending record in place, so the same token can be tried again; a
    valid code deletes the pending record and only then looks the user
    up and issues the session, so the record is gone whether or not a
    session comes out, and any later [VerifyMFA] with that token fails
    with [ErrInvalidSession]. *)
Theorem VerifyMFA_pending_record (now : Z) (req : VerifyMFARequest)
    (w : World) (pending : MFAPendingData) (mfa : UserMFATotp)
    (secret : string) :
  SessionStore.GetMFAToken now (vr_MFAToken req) w = Some pending ->
  AuthRepo.GetMFAByUserID (mp_UserID pending) w = Some mfa ->
  mfa_IsEnabled mfa = true ->
  decryptTOTPSecret cfg (mfa_SecretEncrypted mfa) = Ok secret ->
  let r := VerifyMFA cfg now req w in
  (totp_Validate (vr_Code req) secret now = false ->
   fst r = Fail ErrInvalidMFACode /\
   kv_mfa_tokens (snd r) = kv_mfa_tokens w /\
   SessionStore.GetMFAToken now (vr_MFAToken req) (snd r) = Some pending /\
   login_history (snd r) =
     login_history w ++
     [ {| lh_UserID := Some (mp_UserID pending);
          lh_Email := mp_Email pending;
          lh_IPAddress := vr_IPAddress req;
          lh_UserAgent := vr_UserAgent req;
          lh_LoginMethod := "local"; lh_Success := false;
          lh_FailureReason := "invalid MFA code";
          lh_MFAUsed := false |} ]) /\
  (totp_Validate (vr_Code req) secret now = true ->
   r = complete_mfa_login cfg now pending (vr_IPAddress req)
         (vr_UserAgent req)
         (SessionStore.DeleteMFAToken (vr_MFAToken req) w) /\
   kv_mfa_tokens (snd r) = delete (vr_MFAToken req) (kv_mfa_tokens w) /\
   (forall user,
      AuthRepo.GetUserByEmail (mp_Email pending) w = Some user ->
      exists session,
        fst r = Ok {| RequiresMFA := false; MFAToken := "";
                      resp_Session := Some session;
                      resp_User := Some user |} /\
        kv_sessions (snd r) !! sd_SessionID session = Some session) /\
   (forall now' req',
      vr_MFAToken req' = vr_MFAToken req ->
      fst (VerifyMFA cfg now' req' (snd r)) = Fail ErrInvalidSession)).
Proof.
  intros Hp Hm He Hd. cbv zeta. unfold VerifyMFA. rewrite Hp, Hm.
  destruct mfa as [mu me en mv]. cbn [mfa_IsEnabled] in He. subst en.
  cbn [mfa_SecretEncrypted] in Hd |- *. rewrite Hd.
  split; intros Hv; rewrite Hv; cbn [negb].
  - cbn [fst snd]. split; [reflexivity|]. split; [reflexivity|].
    split; [exact Hp|reflexivity].
  - set (w1 := SessionStore.DeleteMFAToken (vr_MFAToken req) w).
    destruct (complete_mfa_login_stores now pending (vr_IPAddress req)
                (vr_UserAgent req) w1) as (Hkv & _ & _ & Hok & _).
    split; [reflexivity|]. split; [exact Hkv|]. split.
    + intros user Hu. destruct (Hok user Hu) as (s & Hs & _ & Hl).
      exists s. split; assumption.
    + intros now' req' Htok. unfold VerifyMFA, SessionStore.GetMFAToken.
      rewrite Hkv, Htok. unfold w1, SessionStore.DeleteMFAToken.
      cbn [kv_mfa_tokens upd_kv_mfa_tokens].
      now rewrite lookup_delete_eq.
Qed.

End MFALogin.

Lemma VerifyMFA_pending_record_witness :
  fst (VerifyMFA sample_cfg 4001 (mfa_req "000000") world_pending)
  = Fail ErrInvalidMFACode /\
  SessionStore.GetMFAToken 4001 carol_mfa_token
    (snd (VerifyMFA sample_cfg 4001 (mfa_req "000000") world_pending))
  = Some carol_pending /\
  kv_mfa_tokens (snd (VerifyMFA sample_cfg 4002 (mfa_req "123456")
                        world_pending)) !! carol_mfa_token = None /\
  fst (VerifyMFA sample_cfg 4003 (mfa_req "123456")
         (snd (VerifyMFA sample_cfg 4002 (mfa_req "123456") world_pending)))
  = Fail ErrInvalidSession.
Proof.
  assert (Hm : AuthRepo.GetMFAByUserID 3 world_pending
               = Some (enabled_at 3000
                         {| mfa_UserID := 3;
                            mfa_SecretEncrypted := sample_secret_encrypted;
                            mfa_IsEnabled := false;
                            mfa_VerifiedAt := None |})).
  { vm_compute. reflexivity. }
  assert (Hd : decryptTOTPSecret sample_cfg sample_secret_encrypted
               = Ok sample_secret).
  { vm_compute. reflexivity. }
  assert (Hp1 : SessionStore.GetMFAToken 4001 carol_mfa_token world_pending
                = Some carol_pending).
  { vm_compute. reflexivity. }
  assert (Hp2 : SessionStore.GetMFAToken 4002 carol_mfa_token world_pending
                = Some carol_pending).
  { vm_compute. reflexivity. }
  destruct (VerifyMFA_pending_record sample_cfg 4001 (mfa_req "000000")
              world_pending carol_pending _ sample_secret Hp1 Hm eq_refl Hd)
    as [Hbad _].
  destruct (VerifyMFA_pending_record sample_cfg 4002 (mfa_req "123456")
              world_pending carol_pending _ sample_secret Hp2 Hm eq_refl Hd)
    as [_ Hgood].
  destruct Hbad as (Herr & _ & Hstill & _); [vm_compute; reflexivity|].
  destruct Hgood as (_ & Hdel & _ & Hagain); [vm_compute; reflexivity|].
  split; [exact Herr|]. split; [exact Hstill|]. split.
  - rewrite Hdel. apply lookup_delete_eq.
  - apply Hagain. reflexivity.
Defined.

(** ** Backup codes: single use *)











Section OperationsOnCodes.

Context {L : Libs}.
Variable cfg : LocalAuthConfig.
















End OperationsOnCodes.


Section BackupCodeUse.

Context {L : Libs}.
Variable cfg : LocalAuthConfig.






End BackupCodeUse.




(** * Further properties of the services *)

(** ** Login: what a refused attempt leaves behind *)

(** X1. A refused [Login] fails with one of four errors, creates no
    session and no pending MFA login, leaves the users and the durable
    session mirrors as they were, reads nothing from the random source,
    and appends exactly one login-history row, a failure under the
    submitted email. *)
Theorem Login_failure_effects {L : Libs} (cfg : LocalAuthConfig)
    (now : Z) (req : LoginRequest) (w : World) (e : Err) :
  fst (Login cfg now req w) = Fail e ->
  let w' := snd (Login cfg now req w) in
  In e [ErrInvalidCredentials; ErrAccountNotActive; ErrCredentialsNotFound;
        ErrAccountLocked] /\
  kv_sessions w' = kv_sessions w /\
  kv_mfa_tokens w' = kv_mfa_tokens w /\
  sessions w' = sessions w /\
  users w' = users w /\
  entropy_pos w' = entropy_pos w /\
  exists h,
    login_history w' = login_history w ++ [h] /\
    lh_Success h = false /\
    lh_Email h = lr_Email req.
Proof.
  unfold Login, createSession, rand_Read.
  destruct (AuthRepo.GetUserByEmail (lr_Email req) w) as [user|].
  2:{ cbn. intros [= <-]. repeat split; auto. eexists. split; [reflexivity|]. auto. }
  destruct (negb (String.eqb (u_Status user) UserStatusActive)).
  { cbn. intros [= <-]. repeat split; auto 6. eexists. split; [reflexivity|]. auto. }
  destruct (AuthRepo.GetCredentialByUserID (u_Id user) w) as [cred|].
  2:{ cbn. intros [= <-]. repeat split; auto 6. eexists. split; [reflexivity|]. auto. }
  destruct (IsLocked now cred).
  { cbn. intros [= <-]. repeat split; auto 6. eexists. split; [reflexivity|]. auto. }
  destruct (negb (verifyPassword (lr_Password req) (uc_PasswordHash cred))).
  { destruct (AuthRepo.GetCredentialByUserID (u_Id user)
                (AuthRepo.IncrementFailedAttempts (u_Id user) w)) as [c|];
      [destruct (LockoutThreshold cfg <=? uc_FailedLoginAttempts c)|];
      cbn; intros [= <-]; repeat split; auto; eexists;
      (split; [reflexivity|]); auto. }
  destruct (AuthRepo.GetMFAByUserID (u_Id user)
              (AuthRepo.ResetFailedAttempts (u_Id user) w)) as [[? ? [] ?]|];
    cbn; discriminate.
Qed.

Lemma Login_failure_effects_witness :
  let w' := snd (Login sample_cfg 2000 (login_req "alice@x.com" "letmein1")
                   sample_world) in
  kv_sessions w' = kv_sessions sample_world /\
  length (login_history w') = S (length (login_history sample_world)).
Proof.
  destruct (Login_failure_effects sample_cfg 2000
              (login_req "alice@x.com" "letmein1") sample_world
              ErrInvalidCredentials) as (_ & Hs & _ & _ & _ & _ & h & Hh & _).
  - vm_compute. reflexivity.
  - split; [exact Hs|]. cbv zeta. rewrite Hh. rewrite length_app. cbn. lia.
Defined.

(** ** Login: locked and inactive accounts *)

(** X2. A locked account short-circuits [Login]: while the lock lasts
    every attempt, with whatever password, fails with
    [ErrAccountLocked] and leaves the Credential rows and the audit
    trail untouched (the counter is neither incremented nor reset); from
    the instant lock-until on, [Login] no longer answers
    [ErrAccountLocked]. *)
Theorem Login_locked_short_circuit {L : Libs} (cfg : LocalAuthConfig)
    (now : Z) (req : LoginRequest) (w : World) (user : User)
    (cred : UserCredential) (t : Z) :
  AuthRepo.GetUserByEmail (lr_Email req) w = Some user ->
  u_Status user = UserStatusActive ->
  AuthRepo.GetCredentialByUserID (u_Id user) w = Some cred ->
  uc_LockedUntil cred = Some t ->
  (now < t ->
   fst (Login cfg now req w) = Fail ErrAccountLocked /\
   user_credentials (snd (Login cfg now req w)) = user_credentials w /\
   security_audit_trail (snd (Login cfg now req w))
   = security_audit_trail w) /\
  (t <= now -> fst (Login cfg now req w) <> Fail ErrAccountLocked).
Proof.
  intros Hu Hs Hc Hl. unfold Login, createSession, rand_Read.
  rewrite Hu, Hs, Hc. unfold IsLocked. rewrite Hl.
  change (negb (UserStatusActive =? UserStatusActive)%string) with false.
  cbv iota. split; intros Hnow.
  - apply Z.ltb_lt in Hnow. rewrite Hnow. cbn. auto.
  - apply Z.ltb_ge in Hnow. rewrite Hnow.
    destruct (negb (verifyPassword (lr_Password req) (uc_PasswordHash cred))).
    + cbn. discriminate.
    + destruct (AuthRepo.GetMFAByUserID (u_Id user)
                  (AuthRepo.ResetFailedAttempts (u_Id user) w))
        as [[? ? [] ?]|]; cbn; discriminate.
Qed.

Lemma Login_locked_short_circuit_witness :
  fst (Login sample_cfg 3000 (login_req "alice@x.com" "Password1")
         world_locked) = Fail ErrAccountLocked /\
  fst (Login sample_cfg (2002 + 900000000000)
         (login_req "alice@x.com" "Password1") world_locked)
  <> Fail ErrAccountLocked.
Proof.
  split.
  - refine (proj1 (proj1 (Login_locked_short_circuit sample_cfg 3000
              (login_req "alice@x.com" "Password1") world_locked alice
              alice_locked_cred (2002 + 900000000000) _ _ _ _) _)).
    all: try (vm_compute; reflexivity).
  - refine (proj2 (Login_locked_short_circuit sample_cfg
              (2002 + 900000000000)
              (login_req "alice@x.com" "Password1") world_locked alice
              alice_locked_cred (2002 + 900000000000) _ _ _ _) _).
    all: try (vm_compute; reflexivity). lia.
Defined.

Section StatusFacts.

Context {L : Libs}.

Lemma GetUser_AuthRepo_UpdateUserStatus (email : string) (userID : Z)
    (status reason : string) (changedBy : Z) (w : World) :
  AuthRepo.GetUserByEmail email
    (AuthRepoExt.UpdateUserStatus userID status reason changedBy w)
  = option_map (with_status userID status) (AuthRepo.GetUserByEmail email w).
Proof.
  unfold AuthRepo.GetUserByEmail, AuthRepoExt.UpdateUserStatus. cbn.
  apply (find_map_preserved (fun u => String.eqb (u_Email u) email)
           (with_status userID status)).
  intros x. unfold with_status. destruct (u_Id x =? userID); reflexivity.
Qed.

Lemma GetUser_UpdateUserStatus (email : string) (now userID : Z)
    (status reason : string) (changedBy : Z) (ip ua : string) (w : World) :
  UserStatus_IsValid status = true ->
  AuthRepo.GetUserByEmail email
    (snd (UpdateUserStatus now userID status reason changedBy ip ua w))
  = option_map (with_status userID status) (AuthRepo.GetUserByEmail email w).
Proof.
  intros Hv. unfold UpdateUserStatus. rewrite Hv. simpl negb.
  cbv iota zeta. cbn [snd].
  rewrite GetUser_logAudit.
  rewrite <- (GetUser_AuthRepo_UpdateUserStatus email userID status reason
                changedBy w).
  destruct (String.eqb status UserStatusLocked
            || String.eqb status UserStatusSuspended); reflexivity.
Qed.

Lemma credentials_UpdateUserStatus (now userID : Z)
    (status reason : string) (changedBy : Z) (ip ua : string) (w : World) :
  user_credentials
    (snd (UpdateUserStatus now userID status reason changedBy ip ua w))
  = user_credentials w.
Proof.
  unfold UpdateUserStatus.
  destruct (negb (UserStatus_IsValid status)); [reflexivity|].
  destruct (String.eqb status UserStatusLocked
            || String.eqb status UserStatusSuspended); reflexivity.
Qed.

End StatusFacts.

(** X3. After [UpdateUserStatus] has put an account into a status other
    than [active], [Login] under its email fails with
    [ErrAccountNotActive] whatever the password, and does not touch the
    Credential rows (the Lockout Guard is not consulted). *)
Theorem UpdateUserStatus_blocks_login {L : Libs} (cfg : LocalAuthConfig)
    (now userID : Z) (status reason : string) (changedBy : Z)
    (ip ua : string) (w : World) (now' : Z) (req : LoginRequest)
    (user : User) :
  UserStatus_IsValid status = true ->
  status <> UserStatusActive ->
  AuthRepo.GetUserByEmail (lr_Email req) w = Some user ->
  u_Id user = userID ->
  let w' :=
    snd (UpdateUserStatus now userID status reason changedBy ip ua w) in
  fst (UpdateUserStatus now userID status reason changedBy ip ua w) = None /\
  fst (Login cfg now' req w') = Fail ErrAccountNotActive /\
  user_credentials (snd (Login cfg now' req w')) = user_credentials w.
Proof.
  intros Hv Hna Hu Hid w'.
  assert (Hu' : AuthRepo.GetUserByEmail (lr_Email req) w'
                = Some (with_status userID status user)).
  { unfold w'. rewrite GetUser_UpdateUserStatus by exact Hv.
    rewrite Hu. reflexivity. }
  split.
  { unfold UpdateUserStatus. rewrite Hv. reflexivity. }
  unfold Login. rewrite Hu'.
  assert (Hst : u_Status (with_status userID status user) = status).
  { unfold with_status. rewrite Hid, Z.eqb_refl. reflexivity. }
  rewrite Hst.
  destruct (String.eqb_spec status UserStatusActive) as [->|_];
    [contradiction|].
  cbn. split; [reflexivity|].
  apply credentials_UpdateUserStatus.
Qed.

Lemma UpdateUserStatus_blocks_login_witness :
  fst (Login sample_cfg 7001 (login_req "alice@x.com" "Password1")
         (snd (UpdateUserStatus 7000 1 UserStatusDeactivated "left" 9
                 "10.0.0.9" "admin" sample_world)))
  = Fail ErrAccountNotActive.
Proof.
  apply (UpdateUserStatus_blocks_login sample_cfg 7000 1
           UserStatusDeactivated "left" 9 "10.0.0.9" "admin" sample_world
           7001 (login_req "alice@x.com" "Password1") alice).
  - reflexivity.
  - discriminate.
  - vm_compute. reflexivity.
  - reflexivity.
Defined.

(** ** Status changes and unlocking *)

Section SessionRevocation.

Lemma DeleteAllUserSessions_lookup (userID : Z) (w : World) (sid : string)
    (s : SessionData) :
  kv_sessions (SessionStore.DeleteAllUserSessions userID w) !! sid = Some s ->
  sd_UserID s <> userID.
Proof.
  unfold SessionStore.DeleteAllUserSessions. cbn. intros Hs.
  apply map_lookup_filter_Some in Hs as [_ Hne]. exact Hne.
Qed.

Lemma DeleteAllUserSessions_others (userID : Z) (w : World) (sid : string)
    (s : SessionData) :
  kv_sessions w !! sid = Some s -> sd_UserID s <> userID ->
  kv_sessions (SessionStore.DeleteAllUserSessions userID w) !! sid = Some s.
Proof.
  unfold SessionStore.DeleteAllUserSessions. cbn. intros Hs Hne.
  apply map_lookup_filter_Some. split; [exact Hs | exact Hne].
Qed.

Lemma RevokeAllUserSessions_revoked (now userID : Z) (reason : string)
    (w : World) (s : Session) :
  In s (sessions (AuthRepo.RevokeAllUserSessions now userID reason w)) ->
  s_UserID s = userID -> s_RevokedAt s <> None.
Proof.
  unfold AuthRepo.RevokeAllUserSessions. cbn.
  intros Hin Hu. apply in_map_iff in Hin as (s0 & <- & _).
  destruct (s_UserID s0 =? userID) eqn:E.
  - destruct (s_RevokedAt s0) eqn:R; cbn [andb s_RevokedAt].
    + rewrite R. discriminate.
    + discriminate.
  - cbn [andb] in Hu. apply Z.eqb_neq in E. contradiction.
Qed.

End SessionRevocation.

(** X4. [UpdateUserStatus] succeeds exactly for the five account
    statuses and changes nothing when it fails.  A change to [locked] or
    [suspended] removes every session of the account from the fast store
    and leaves all its durable mirrors revoked; a change to
    [deactivated], [pending_verification] or [active] leaves both session
    stores as they were, so the sessions of a deactivated account stay
    live. *)
Theorem UpdateUserStatus_sessions {L : Libs} (now userID : Z)
    (status reason : string) (changedBy : Z) (ip ua : string) (w : World) :
  let r := UpdateUserStatus now userID status reason changedBy ip ua w in
  (fst r = None <-> UserStatus_IsValid status = true) /\
  (fst r <> None -> snd r = w) /\
  (status = UserStatusLocked \/ status = UserStatusSuspended ->
   (forall sid s, kv_sessions (snd r) !! sid = Some s ->
                  sd_UserID s <> userID) /\
   (forall s, In s (sessions (snd r)) -> s_UserID s = userID ->
              s_RevokedAt s <> None)) /\
  (status = UserStatusDeactivated \/
   status = UserStatusPendingVerification \/
   status = UserStatusActive ->
   kv_sessions (snd r) = kv_sessions w /\ sessions (snd r) = sessions w).
Proof.
  cbv zeta. unfold UpdateUserStatus.
  split; [|split; [|split]].
  - destruct (UserStatus_IsValid status); cbn; split; intros H;
      try reflexivity; discriminate.
  - destruct (UserStatus_IsValid status); cbn; [intros H; now elim H|].
    reflexivity.
  - intros Hs.
    assert (Hv : UserStatus_IsValid status = true)
      by (destruct Hs as [-> | ->]; reflexivity).
    assert (Hb : String.eqb status UserStatusLocked
                 || String.eqb status UserStatusSuspended = true)
      by (destruct Hs as [-> | ->]; reflexivity).
    rewrite Hv, Hb. simpl negb. cbv iota zeta. cbn [snd].
    split.
    + intros sid s Hl.
      apply (DeleteAllUserSessions_lookup userID
               (AuthRepoExt.UpdateUserStatus userID status reason
                  changedBy w) sid s).
      exact Hl.
    + intros s Hin.
      apply (RevokeAllUserSessions_revoked now userID
               ("status change: " +:+ status)
               (SessionStore.DeleteAllUserSessions userID
                  (AuthRepoExt.UpdateUserStatus userID status reason
                     changedBy w)) s).
      exact Hin.
  - intros [-> | [-> | ->]]; cbn; split; reflexivity.
Qed.

Lemma UpdateUserStatus_sessions_witness :
  fst (UpdateUserStatus 7000 1 UserStatusSuspended "abuse" 9 "10.0.0.9"
         "admin" world_logged_in) = None /\
  kv_sessions
    (snd (UpdateUserStatus 7000 1 UserStatusDeactivated "left" 9 "10.0.0.9"
            "admin" world_logged_in))
  = kv_sessions world_logged_in.
Proof.
  split.
  - apply (proj1 (UpdateUserStatus_sessions 7000 1 UserStatusSuspended
                    "abuse" 9 "10.0.0.9" "admin" world_logged_in)).
    reflexivity.
  - apply (proj2 (proj2 (proj2 (UpdateUserStatus_sessions 7000 1
                    UserStatusDeactivated "left" 9 "10.0.0.9" "admin"
                    world_logged_in)))).
    left. reflexivity.
Defined.

(** X5. The audit row that [UpdateUserStatus] writes does not carry the
    previous status of the account it changes: its old value is the
    status of the user whose email is the empty string (or the empty
    string when there is none), so the same row is written whatever the
    status of the target account was. *)
Theorem UpdateUserStatus_audit_ignores_target {L : Libs} (now userID : Z)
    (status reason : string) (changedBy : Z) (ip ua : string) (w : World)
    (status0 reason0 : string) (changedBy0 : Z) :
  UserStatus_IsValid status = true ->
  (forall u, In u (users w) -> u_Id u = userID -> u_Email u <> ""%string) ->
  let w0 := AuthRepoExt.UpdateUserStatus userID status0 reason0 changedBy0 w in
  exists a,
    security_audit_trail
      (snd (UpdateUserStatus now userID status reason changedBy ip ua w))
    = security_audit_trail w ++ [a] /\
    security_audit_trail
      (snd (UpdateUserStatus now userID status reason changedBy ip ua w0))
    = security_audit_trail w0 ++ [a] /\
    sat_UserID a = Some changedBy /\
    sat_Action a = AuditActionStatusChange /\
    sat_OldValue a =
      marshal_or_empty
        (Some [("status"%string,
                JString match AuthRepo.GetUserByEmail "" w with
                        | Some u => u_Status u
                        | None => ""%string
                        end)]).
Proof.
  intros Hv Hemail w0.
  assert (Hsame : AuthRepo.GetUserByEmail "" w0 = AuthRepo.GetUserByEmail "" w).
  { unfold w0. rewrite GetUser_AuthRepo_UpdateUserStatus.
    destruct (AuthRepo.GetUserByEmail "" w) as [u|] eqn:Hu; [|reflexivity].
    cbn. f_equal. unfold with_status.
    destruct (u_Id u =? userID) eqn:E; [|reflexivity].
    exfalso. apply Z.eqb_eq in E.
    unfold AuthRepo.GetUserByEmail in Hu.
    apply find_some in Hu as [Hin Heq].
    apply String.eqb_eq in Heq. exact (Hemail u Hin E Heq). }
  eexists. unfold UpdateUserStatus. rewrite Hv, Hsame. simpl negb.
  cbv iota zeta. cbn [snd].
  split; [|split].
  - destruct (String.eqb status UserStatusLocked
              || String.eqb status UserStatusSuspended); cbn; reflexivity.
  - destruct (String.eqb status UserStatusLocked
              || String.eqb status UserStatusSuspended); cbn; reflexivity.
  - cbn. auto.
Qed.

Lemma UpdateUserStatus_audit_ignores_target_witness :
  exists a,
    security_audit_trail
      (snd (UpdateUserStatus 7000 1 UserStatusSuspended "abuse" 9
              "10.0.0.9" "admin" sample_world))
    = security_audit_trail sample_world ++ [a] /\
    sat_OldValue a =
      marshal_or_empty (Some [("status"%string, JString ""%string)]).
Proof.
  destruct (UpdateUserStatus_audit_ignores_target 7000 1
              UserStatusSuspended "abuse" 9 "10.0.0.9" "admin" sample_world
              UserStatusLocked "" 0) as (a & H1 & _ & _ & _ & H2).
  - reflexivity.
  - intros u Hin Hid. vm_compute in Hin.
    destruct Hin as [<- | [<- | [<- | []]]]; discriminate.
  - exists a. split; [exact H1 | exact H2].
Defined.

(** X6. [UnlockAccount] returns nil and ends a lock at once: the next
    [Login] with a password that verifies succeeds, at any instant,
    whatever lock-until the Credential carried. *)
Theorem UnlockAccount_allows_login {L : Libs} (cfg : LocalAuthConfig)
    (userID unlockedBy : Z) (ip ua : string) (w : World) (now : Z)
    (req : LoginRequest) (user : User) (hash : string) (n : Z)
    (lock : option Z) :
  account_state w (lr_Email req) user hash n lock ->
  u_Id user = userID ->
  verifyPassword (lr_Password req) hash = true ->
  fst (UnlockAccount userID unlockedBy ip ua w) = None /\
  account_state (snd (UnlockAccount userID unlockedBy ip ua w))
    (lr_Email req) user hash n None /\
  exists resp,
    fst (Login cfg now req (snd (UnlockAccount userID unlockedBy ip ua w)))
    = Ok resp.
Proof.
  intros (Hu & Hs & cred & Hc & Hh & Hn & Hl) Hid Hv.
  assert (Hst : account_state (snd (UnlockAccount userID unlockedBy ip ua w))
                  (lr_Email req) user hash n None).
  { unfold UnlockAccount. cbn [snd]. unfold account_state.
    rewrite GetUser_logAudit, GetCredential_logAudit.
    unfold AuthRepoExt.UnlockAccount.
    rewrite GetUser_on_credential. split; [exact Hu|]. split; [exact Hs|].
    rewrite Hid. rewrite GetCredential_on_credential by (intros; assumption).
    rewrite <- Hid, Hc. cbn. eexists. split; [reflexivity|]. cbn. auto. }
  split; [reflexivity|]. split; [exact Hst|].
  apply (Login_correct_password cfg now req _ user hash n None Hst);
    [reflexivity | exact Hv].
Qed.

Lemma UnlockAccount_allows_login_witness :
  exists resp,
    fst (Login sample_cfg 3000 (login_req "alice@x.com" "Password1")
           (snd (UnlockAccount 1 9 "10.0.0.9" "admin" world_locked)))
    = Ok resp.
Proof.
  refine (proj2 (proj2 (UnlockAccount_allows_login sample_cfg 1 9
            "10.0.0.9" "admin" world_locked 3000
            (login_req "alice@x.com" "Password1") alice alice_hash 3
            (Some (2002 + 900000000000)) _ _ _))).
  - split; [vm_compute; reflexivity|]. split; [reflexivity|].
    exists alice_locked_cred. repeat split.
  - reflexivity.
  - vm_compute. reflexivity.
Defined.

(** ** Sessions: logout, refresh, enumeration *)

Section SessionFacts.

Context {L : Libs}.

Lemma Get_logAudit now sid o a t i ov nv ip ua w :
  SessionStore.Get now sid (logAudit o a t i ov nv ip ua w)
  = SessionStore.Get now sid w.
Proof. reflexivity. Qed.

Lemma Get_expired_later (now now' : Z) (sid : string) (w : World) :
  SessionStore.Get now sid w = None -> now <= now' ->
  SessionStore.Get now' sid w = None.
Proof.
  unfold SessionStore.Get. destruct (kv_sessions w !! sid) as [s|]; [|auto].
  destruct (now <? sd_ExpiresAt s) eqn:E; [discriminate|].
  intros _ Hle. apply Z.ltb_ge in E.
  destruct (now' <? sd_ExpiresAt s) eqn:E'; [|reflexivity].
  apply Z.ltb_lt in E'. lia.
Qed.

(** The sessions [active_sessions] appends are those of the listed ids
    that [Get] returns. *)
Lemma active_sessions_app (now : Z) (ids : list string) (w : World)
    (acc : list SessionData) :
  active_sessions now ids w acc = acc ++ active_sessions now ids w [].
Proof.
  revert acc. induction ids as [|id rest IH]; intros acc; cbn.
  - rewrite app_nil_r. reflexivity.
  - destruct (SessionStore.Get now id w) as [s|].
    + rewrite (IH (acc ++ [s])), (IH [s]).
      rewrite <- app_assoc. reflexivity.
    + apply IH.
Qed.

Lemma active_sessions_In (now : Z) (ids : list string) (w : World)
    (s : SessionData) :
  In s (active_sessions now ids w []) <->
  exists id, In id ids /\ SessionStore.Get now id w = Some s.
Proof.
  induction ids as [|id rest IH]; cbn.
  - split; [intros [] | intros (? & [] & _)].
  - destruct (SessionStore.Get now id w) as [s0|] eqn:G.
    + rewrite active_sessions_app. cbn. rewrite IH. split.
      * intros [<- | (id' & Hin & Hg)]; [exists id; auto | exists id'; auto].
      * intros (id' & [<- | Hin] & Hg).
        -- left. congruence.
        -- right. exists id'. auto.
    + rewrite IH. split.
      * intros (id' & Hin & Hg). exists id'. auto.
      * intros (id' & [<- | Hin] & Hg); [congruence|]. exists id'. auto.
Qed.

Lemma GetUserSessions_In (userID : Z) (w : World) (sid : string) :
  In sid (SessionStoreExt.GetUserSessions userID w) <->
  exists s, kv_sessions w !! sid = Some s /\ sd_UserID s = userID.
Proof.
  unfold SessionStoreExt.GetUserSessions. rewrite in_map_iff. split.
  - intros ([k s] & <- & Hin). apply List.filter_In in Hin as [Hin Hu].
    apply list_elem_of_In, elem_of_map_to_list in Hin.
    exists s. split; [exact Hin|]. apply Z.eqb_eq. exact Hu.
  - intros (s & Hl & Hu). exists (sid, s). split; [reflexivity|].
    apply List.filter_In. split.
    + apply list_elem_of_In, elem_of_map_to_list. exact Hl.
    + apply Z.eqb_eq. exact Hu.
Qed.

Lemma active_of_user (now userID : Z) (w : World) (s : SessionData) :
  In s (active_sessions now (SessionStoreExt.GetUserSessions userID w) w [])
  <-> exists sid, kv_sessions w !! sid = Some s /\ sd_UserID s = userID /\
                  now < sd_ExpiresAt s.
Proof.
  rewrite active_sessions_In. split.
  - intros (sid & Hin & Hg). exists sid.
    apply GetUserSessions_In in Hin as (s0 & Hl & Hu).
    unfold SessionStore.Get in Hg. rewrite Hl in Hg.
    destruct (now <? sd_ExpiresAt s0) eqn:E; [|discriminate].
    injection Hg as <-. apply Z.ltb_lt in E. auto.
  - intros (sid & Hl & Hu & Hlt). exists sid. split.
    + apply GetUserSessions_In. exists s. auto.
    + unfold SessionStore.Get. rewrite Hl.
      apply Z.ltb_lt in Hlt. rewrite Hlt. reflexivity.
Qed.

End SessionFacts.

(** X7. [Logout] always returns nil.  Afterwards [GetSession] on the same
    id finds nothing, at that instant or later; the other sessions of the
    fast store are as they were; and a second [Logout] of the same id
    changes nothing (a missing session counts as logged out).  When the
    session was live, its durable mirror is now revoked at that instant
    with the reason "user logout" and the other mirrors are unchanged. *)
Theorem Logout_invalidates_session {L : Libs} (now : Z)
    (sid ip ua : string) (w : World) :
  let w' := snd (Logout now sid ip ua w) in
  fst (Logout now sid ip ua w) = None /\
  (forall now', now <= now' -> GetSession now' sid w' = None) /\
  (forall sid', sid' <> sid -> kv_sessions w' !! sid' = kv_sessions w !! sid') /\
  (forall now' ip' ua', now <= now' ->
     Logout now' sid ip' ua' w' = (None, w')) /\
  (GetSession now sid w <> None ->
   sessions w' =
     map (fun s => if String.eqb (s_ID s) sid
                   then revoked now "user logout" s else s) (sessions w)).
Proof.
  cbv zeta. unfold Logout, GetSession.
  destruct (SessionStore.Get now sid w) as [s|] eqn:G.
  - cbn [fst snd]. split; [reflexivity|].
    assert (Hgone : forall now',
              SessionStore.Get now' sid
                (logAudit (Some (sd_UserID s)) AuditActionSessionRevoke
                   "session" sid None
                   (Some [("reason"%string, JString "user logout")]) ip ua
                   (AuthRepoExt.RevokeSession now sid "user logout"
                      (SessionStoreExt.Delete sid w))) = None).
    { intros now'. unfold SessionStore.Get. cbn.
      rewrite lookup_delete_eq. reflexivity. }
    split; [intros now' _; apply Hgone|].
    split; [intros sid' Hne; cbn; apply lookup_delete_ne; congruence|].
    split; [intros now' ip' ua' _; rewrite Hgone; reflexivity|].
    intros _. reflexivity.
  - cbn [fst snd]. split; [reflexivity|].
    split; [intros now' Hle; exact (Get_expired_later now now' sid w G Hle)|].
    split; [reflexivity|].
    split.
    + intros now' ip' ua' Hle.
      rewrite (Get_expired_later now now' sid w G Hle). reflexivity.
    + intros H. now elim H.
Qed.

(** X8. [RefreshSession] extends a session only if it is currently
    valid: on a missing or expired session it fails with
    [ErrInvalidSession] and changes nothing; on a live one it returns the
    session with expiry [now + SessionTTL], after which [GetSession]
    finds the session exactly until that instant, while the other
    sessions and the durable mirrors (which keep the old expiry) are
    untouched. *)
Theorem RefreshSession_extends_valid_only {L : Libs} (cfg : LocalAuthConfig)
    (now : Z) (sid : string) (w : World) :
  let r := RefreshSession cfg now sid w in
  (GetSession now sid w = None -> r = (Fail ErrInvalidSession, w)) /\
  (forall s, GetSession now sid w = Some s ->
     exists s',
       fst r = Ok s' /\
       sd_SessionID s' = sd_SessionID s /\
       sd_UserID s' = sd_UserID s /\
       sd_ExpiresAt s' = now + SessionTTL cfg /\
       (forall now', GetSession now' sid (snd r) <> None <->
                     now' < now + SessionTTL cfg) /\
       (forall sid', sid' <> sid ->
                     kv_sessions (snd r) !! sid' = kv_sessions w !! sid') /\
       sessions (snd r) = sessions w).
Proof.
  cbv zeta. unfold RefreshSession, GetSession. split.
  - intros ->. reflexivity.
  - intros s Hs. rewrite Hs. cbn [fst snd]. eexists. split; [reflexivity|].
    cbn [sd_SessionID sd_UserID sd_ExpiresAt].
    repeat (split; [reflexivity|]).
    unfold SessionStore.Get in Hs.
    destruct (kv_sessions w !! sid) as [s0|] eqn:Hl; [|discriminate].
    split; [|split].
    + intros now'. unfold SessionStore.Get, SessionStoreExt.Refresh. cbn.
      rewrite lookup_alter_eq, Hl. cbn.
      destruct (now' <? now + SessionTTL cfg) eqn:E.
      * apply Z.ltb_lt in E. split; [auto | discriminate].
      * apply Z.ltb_ge in E. split; [intros H; now elim H | lia].
    + intros sid' Hne. unfold SessionStoreExt.Refresh. cbn.
      apply lookup_alter_ne. congruence.
    + reflexivity.
Qed.

(** X9. [GetActiveSessions] returns exactly the live sessions of the
    user: a session is listed if and only if the fast store holds it
    under some id, it belongs to the user, and it has not expired. *)
Theorem GetActiveSessions_sound_complete {L : Libs} (now userID : Z)
    (w : World) :
  exists l,
    GetActiveSessions now userID w = Ok l /\
    forall s, In s l <->
      exists sid, kv_sessions w !! sid = Some s /\ sd_UserID s = userID /\
                  now < sd_ExpiresAt s.
Proof.
  eexists. split; [reflexivity|]. intros s. apply active_of_user.
Qed.

(** X10. After [LogoutAll] the user has no active session at any
    instant, every session the fast store held for the user is gone, and
    the active sessions of every other user are the same as before. *)
Theorem LogoutAll_leaves_no_active_session {L : Libs} (now userID : Z)
    (ip ua : string) (w : World) :
  let w' := snd (LogoutAll now userID ip ua w) in
  (forall now', GetActiveSessions now' userID w' = Ok []) /\
  (forall now' sid s, kv_sessions w !! sid = Some s -> sd_UserID s = userID ->
                      GetSession now' sid w' = None) /\
  (forall now' other s, other <> userID ->
     In s (active_sessions now'
             (SessionStoreExt.GetUserSessions other w') w' []) <->
     In s (active_sessions now'
             (SessionStoreExt.GetUserSessions other w) w [])).
Proof.
  cbv zeta.
  assert (Hkv : kv_sessions (snd (LogoutAll now userID ip ua w))
                = kv_sessions (SessionStore.DeleteAllUserSessions userID w))
    by reflexivity.
  split; [|split].
  - intros now'. unfold GetActiveSessions. f_equal.
    destruct (active_sessions now'
                (SessionStoreExt.GetUserSessions userID
                   (snd (LogoutAll now userID ip ua w)))
                (snd (LogoutAll now userID ip ua w)) []) as [|s l] eqn:El;
      [reflexivity|].
    exfalso.
    assert (Hin : In s (s :: l)) by (left; reflexivity).
    rewrite <- El in Hin. apply active_of_user in Hin as (sid & Hl & Hu & _).
    rewrite Hkv in Hl.
    exact (DeleteAllUserSessions_lookup userID w sid s Hl Hu).
  - intros now' sid s Hl Hu. unfold GetSession, SessionStore.Get.
    rewrite Hkv.
    destruct (kv_sessions (SessionStore.DeleteAllUserSessions userID w)
                !! sid) as [s'|] eqn:Hl'; [|reflexivity].
    exfalso.
    pose proof (DeleteAllUserSessions_lookup userID w sid s' Hl') as Hne.
    unfold SessionStore.DeleteAllUserSessions in Hl'. cbn in Hl'.
    apply map_lookup_filter_Some in Hl' as [Hl' _]. congruence.
  - intros now' other s Hne. rewrite !active_of_user. rewrite Hkv.
    split; intros (sid & Hl & Hu & Hlt); exists sid.
    + unfold SessionStore.DeleteAllUserSessions in Hl. cbn in Hl.
      apply map_lookup_filter_Some in Hl as [Hl _]. auto.
    + split; [|auto].
      apply DeleteAllUserSessions_others; [exact Hl | congruence].
Qed.

Lemma Logout_invalidates_session_witness :
  GetSession 5000 alice_session_id world_logged_in <> None /\
  GetSession 5001 alice_session_id
    (snd (Logout 5000 alice_session_id "10.0.0.1" "curl" world_logged_in))
  = None.
Proof.
  split; [vm_compute; discriminate|].
  refine (proj1 (proj2 (Logout_invalidates_session 5000 alice_session_id
            "10.0.0.1" "curl" world_logged_in)) 5001 _).
  lia.
Defined.

Lemma RefreshSession_extends_valid_only_witness :
  exists s',
    fst (RefreshSession sample_cfg 5000 alice_session_id world_logged_in)
    = Ok s' /\
    sd_ExpiresAt s' = 5000 + 86400000000000.
Proof.
  destruct (GetSession 5000 alice_session_id world_logged_in) as [s|] eqn:G;
    [|vm_compute in G; discriminate].
  destruct (proj2 (RefreshSession_extends_valid_only sample_cfg 5000
                     alice_session_id world_logged_in) s G)
    as (s' & H1 & _ & _ & H2 & _).
  exists s'. split; [exact H1 | exact H2].
Defined.

Lemma LogoutAll_leaves_no_active_session_witness :
  GetSession 5000 alice_session_id world_logged_in <> None /\
  GetActiveSessions 5000 1
    (snd (LogoutAll 4500 1 "10.0.0.1" "curl" world_logged_in)) = Ok [].
Proof.
  split; [vm_compute; discriminate|].
  apply (proj1 (LogoutAll_leaves_no_active_session 4500 1 "10.0.0.1" "curl"
                  world_logged_in)).
Defined.

(** ** Login: the two successful outcomes *)

Section LoginSuccess.

Context {L : Libs}.
Variable cfg : LocalAuthConfig.

Lemma GetUserByEmail_email (email : string) (w : World) (user : User) :
  AuthRepo.GetUserByEmail email w = Some user -> u_Email user = email.
Proof.
  unfold AuthRepo.GetUserByEmail. intros H.
  apply find_some in H as [_ H]. apply String.eqb_eq. exact H.
Qed.

Lemma GetUser_UpdateUserLoginStats (email : string) (now userID : Z)
    (w : World) :
  AuthRepo.GetUserByEmail email (AuthRepo.UpdateUserLoginStats now userID w)
  = option_map (logged_in_at now userID) (AuthRepo.GetUserByEmail email w).
Proof.
  unfold AuthRepo.GetUserByEmail, AuthRepo.UpdateUserLoginStats. cbn.
  apply (find_map_preserved (fun u => String.eqb (u_Email u) email)
           (logged_in_at now userID)).
  intros x. unfold logged_in_at. destruct (u_Id x =? userID); reflexivity.
Qed.

(** The branch of [Login] after the password has verified. *)
Lemma Login_verified (now : Z) (req : LoginRequest) (w : World)
    (user : User) (hash : string) (n : Z) (lock : option Z) :
  account_state w (lr_Email req) user hash n lock ->
  match lock with Some t => now <? t | None => false end = false ->
  verifyPassword (lr_Password req) hash = true ->
  Login cfg now req w =
  let w := AuthRepo.ResetFailedAttempts (u_Id user) w in
  if match AuthRepo.GetMFAByUserID (u_Id user) w with
     | Some m => mfa_IsEnabled m
     | None => false
     end
  then
    let '(raw, w) := rand_Read 16 w in
    let mfaToken := uuid_String raw in
    let pendingData :=
      {| mp_UserID := u_Id user; mp_Email := u_Email user;
         mp_IPAddress := lr_IPAddress req;
         mp_UserAgent := lr_UserAgent req;
         mp_ExpiresAt := now + MFATokenTTL cfg |} in
    let w := SessionStore.StoreMFAToken now mfaToken pendingData
               (MFATokenTTL cfg) w in
    (Ok {| RequiresMFA := true; MFAToken := mfaToken;
           resp_Session := None; resp_User := None |}, w)
  else
    match createSession cfg now user (lr_IPAddress req) (lr_UserAgent req) w
    with
    | (Fail e, w) => (Fail e, w)
    | (Ok session, w) =>
        let w := AuthRepo.UpdateUserLoginStats now (u_Id user) w in
        let w := logSuccessfulLogin (u_Id user) (lr_Email req)
                   (lr_IPAddress req) (lr_UserAgent req) false w in
        (Ok {| RequiresMFA := false; MFAToken := "";
               resp_Session := Some session;
               resp_User := Some user |}, w)
    end.
Proof.
  intros (Hu & Hs & cred & Hc & Hh & Hn & Hl) Hlock Hv.
  unfold Login. rewrite Hu, Hs, Hc. unfold IsLocked. rewrite Hl, Hlock, Hh, Hv.
  change (negb (UserStatusActive =? UserStatusActive)%string) with false.
  cbv iota. simpl negb. cbv iota zeta.
  destruct (AuthRepo.GetMFAByUserID (u_Id user)
              (AuthRepo.ResetFailedAttempts (u_Id user) w))
    as [[? ? [] ?]|]; reflexivity.
Qed.

End LoginSuccess.

(** X11. A [Login] with a password that verifies, on an active, unlocked
    account without enabled MFA, issues a session: the response carries
    the session and the user, the session expires at [now + SessionTTL],
    [GetSession] finds it exactly until that instant, a durable mirror
    is appended that is valid (not expired, not revoked) up to and
    including that instant, the login statistics of the user are
    updated, and no pending MFA login is stored. *)
Theorem Login_issues_session {L : Libs} (cfg : LocalAuthConfig)
    (now : Z) (req : LoginRequest) (w : World) (user : User)
    (hash : string) (n : Z) (lock : option Z) :
  account_state w (lr_Email req) user hash n lock ->
  match lock with Some t => now <? t | None => false end = false ->
  verifyPassword (lr_Password req) hash = true ->
  match AuthRepo.GetMFAByUserID (u_Id user) w with
  | Some m => mfa_IsEnabled m
  | None => false
  end = false ->
  let w' := snd (Login cfg now req w) in
  exists session,
    fst (Login cfg now req w)
    = Ok {| RequiresMFA := false; MFAToken := "";
            resp_Session := Some session; resp_User := Some user |} /\
    sd_UserID session = u_Id user /\
    sd_ExpiresAt session = now + SessionTTL cfg /\
    (forall now', GetSession now' (sd_SessionID session) w' = Some session
                  <-> now' < now + SessionTTL cfg) /\
    (exists row,
       sessions w' = sessions w ++ [row] /\
       s_ID row = sd_SessionID session /\
       s_UserID row = u_Id user /\
       forall now', s_IsValid now' row = true
                    <-> now' <= now + SessionTTL cfg) /\
    AuthRepo.GetUserByEmail (lr_Email req) w'
    = Some (logged_in_at now (u_Id user) user) /\
    kv_mfa_tokens w' = kv_mfa_tokens w.
Proof.
  intros Hst Hlock Hv Hmfa w'. unfold w'.
  rewrite (Login_verified cfg now req w user hash n lock Hst Hlock Hv).
  cbv zeta.
  change (AuthRepo.GetMFAByUserID (u_Id user)
            (AuthRepo.ResetFailedAttempts (u_Id user) w))
    with (AuthRepo.GetMFAByUserID (u_Id user) w).
  rewrite Hmfa. unfold createSession, rand_Read. cbn [fst snd].
  eexists. split; [reflexivity|].
  cbn [sd_UserID sd_ExpiresAt sd_SessionID].
  split; [reflexivity|]. split; [reflexivity|].
  split; [|split; [|split]].
  - intros now'. unfold GetSession, SessionStore.Get. cbn.
    rewrite lookup_insert_eq. cbn.
    destruct (now' <? now + SessionTTL cfg) eqn:E.
    + apply Z.ltb_lt in E. split; auto.
    + apply Z.ltb_ge in E. split; [discriminate | lia].
  - eexists. split; [reflexivity|]. cbn [s_ID s_UserID].
    split; [reflexivity|]. split; [reflexivity|].
    intros now'. unfold s_IsValid, s_IsExpired, s_IsRevoked.
    cbn [s_ExpiresAt s_RevokedAt negb]. rewrite andb_true_r.
    rewrite negb_true_iff. apply Z.ltb_ge.
  - unfold logSuccessfulLogin. cbv zeta.
    rewrite GetUser_logAudit.
    change (AuthRepo.GetUserByEmail (lr_Email req)
              (AuthRepo.CreateLoginHistory ?h ?x))
      with (AuthRepo.GetUserByEmail (lr_Email req) x).
    rewrite GetUser_UpdateUserLoginStats.
    destruct Hst as (Hu & _). 
    change (AuthRepo.GetUserByEmail (lr_Email req) ?x)
      with (AuthRepo.GetUserByEmail (lr_Email req) w).
    rewrite Hu. reflexivity.
  - reflexivity.
Qed.

Lemma Login_issues_session_witness :
  exists session,
    fst (Login sample_cfg 4000 (login_req "alice@x.com" "Password1")
           sample_world)
    = Ok {| RequiresMFA := false; MFAToken := "";
            resp_Session := Some session; resp_User := Some alice |} /\
    sd_ExpiresAt session = 4000 + 86400000000000.
Proof.
  destruct (Login_issues_session sample_cfg 4000
              (login_req "alice@x.com" "Password1") sample_world alice
              alice_hash 0 None) as (s & H1 & _ & H2 & _).
  - exact sample_alice_state.
  - reflexivity.
  - vm_compute. reflexivity.
  - vm_compute. reflexivity.
  - exists s. split; [exact H1 | exact H2].
Defined.

(** X12. The two-step login.  A [Login] with a password that verifies,
    on an account with enabled MFA, issues no session: it answers
    [RequiresMFA] with a one-time token and leaves both session stores as
    they were.  [VerifyMFA] with that token and a valid code then issues
    the session of the same user, provided it comes before
    [now + MFATokenTTL]; from that instant on the token is dead and
    [VerifyMFA] fails with [ErrInvalidSession], changing nothing. *)
Theorem Login_then_VerifyMFA {L : Libs} (cfg : LocalAuthConfig)
    (now : Z) (req : LoginRequest) (w : World) (user : User)
    (hash : string) (n : Z) (lock : option Z) (mfa : UserMFATotp)
    (secret : string) :
  account_state w (lr_Email req) user hash n lock ->
  match lock with Some t => now <? t | None => false end = false ->
  verifyPassword (lr_Password req) hash = true ->
  AuthRepo.GetMFAByUserID (u_Id user) w = Some mfa ->
  mfa_IsEnabled mfa = true ->
  decryptTOTPSecret cfg (mfa_SecretEncrypted mfa) = Ok secret ->
  let token := uuid_String (fst (rand_Read 16 w)) in
  let w1 := snd (Login cfg now req w) in
  fst (Login cfg now req w)
  = Ok {| RequiresMFA := true; MFAToken := token;
          resp_Session := None; resp_User := None |} /\
  kv_sessions w1 = kv_sessions w /\
  sessions w1 = sessions w /\
  forall now' code ip ua,
    totp_Validate code secret now' = true ->
    let r := VerifyMFA cfg now'
               {| vr_MFAToken := token; vr_Code := code;
                  vr_IPAddress := ip; vr_UserAgent := ua |} w1 in
    (now' < now + MFATokenTTL cfg ->
     exists session,
       fst r = Ok {| RequiresMFA := false; MFAToken := "";
                     resp_Session := Some session;
                     resp_User := Some user |} /\
       sd_UserID session = u_Id user /\
       kv_sessions (snd r) !! sd_SessionID session = Some session /\
       kv_mfa_tokens (snd r) !! token = None) /\
    (now + MFATokenTTL cfg <= now' -> r = (Fail ErrInvalidSession, w1)).
Proof.
  intros Hst Hlock Hv Hmfa Hen Hdec token w1.
  assert (HL : Login cfg now req w =
               (Ok {| RequiresMFA := true; MFAToken := token;
                      resp_Session := None; resp_User := None |},
                SessionStore.StoreMFAToken now token
                  {| mp_UserID := u_Id user; mp_Email := u_Email user;
                     mp_IPAddress := lr_IPAddress req;
                     mp_UserAgent := lr_UserAgent req;
                     mp_ExpiresAt := now + MFATokenTTL cfg |}
                  (MFATokenTTL cfg)
                  (snd (rand_Read 16
                          (AuthRepo.ResetFailedAttempts (u_Id user) w))))).
  { rewrite (Login_verified cfg now req w user hash n lock Hst Hlock Hv).
    cbv zeta.
    change (AuthRepo.GetMFAByUserID (u_Id user)
              (AuthRepo.ResetFailedAttempts (u_Id user) w))
      with (AuthRepo.GetMFAByUserID (u_Id user) w).
    rewrite Hmfa, Hen. reflexivity. }
  unfold w1. rewrite HL. cbn [fst snd].
  split; [reflexivity|]. split; [reflexivity|]. split; [reflexivity|].
  intros now' code ip ua Hcode.
  set (pending := {| mp_UserID := u_Id user; mp_Email := u_Email user;
                     mp_IPAddress := lr_IPAddress req;
                     mp_UserAgent := lr_UserAgent req;
                     mp_ExpiresAt := now + MFATokenTTL cfg |}).
  set (w2 := SessionStore.StoreMFAToken now token pending (MFATokenTTL cfg)
               (snd (rand_Read 16
                       (AuthRepo.ResetFailedAttempts (u_Id user) w)))).
  assert (Hget : forall t,
            SessionStore.GetMFAToken t token w2
            = if t <? now + MFATokenTTL cfg then Some pending else None).
  { intros t. unfold SessionStore.GetMFAToken, w2,
      SessionStore.StoreMFAToken. cbn. rewrite lookup_insert_eq.
    reflexivity. }
  cbv zeta. unfold VerifyMFA. cbn [vr_MFAToken vr_Code vr_IPAddress
                                     vr_UserAgent].
  rewrite Hget. split; intros Hnow.
  - apply Z.ltb_lt in Hnow. rewrite Hnow.
    change (AuthRepo.GetMFAByUserID (mp_UserID pending) w2)
      with (AuthRepo.GetMFAByUserID (u_Id user) w).
    rewrite Hmfa. destruct mfa as [mu ms me mv]. cbn in Hen, Hdec.
    subst me. cbn [mfa_SecretEncrypted]. rewrite Hdec, Hcode.
    simpl negb. cbv iota.
    destruct (complete_mfa_login_stores cfg now' pending ip ua
                (SessionStore.DeleteMFAToken token w2))
      as (Hkv & _ & _ & Hok & _).
    destruct Hst as (Hu & _).
    destruct (Hok user) as (session & Hr & Hid & Hs).
    { cbn [mp_Email pending].
      rewrite (GetUserByEmail_email (lr_Email req) w user Hu). exact Hu. }
    exists session. split; [exact Hr|]. split; [exact Hid|].
    split; [exact Hs|].
    rewrite Hkv. cbn. apply lookup_delete_eq.
  - apply Z.ltb_ge in Hnow. rewrite Hnow. reflexivity.
Qed.

Lemma Login_then_VerifyMFA_witness :
  let token := uuid_String (fst (rand_Read 16 world_mfa)) in
  let w1 := snd (Login sample_cfg 4000
                   (login_req "carol@x.com" "Password3") world_mfa) in
  fst (Login sample_cfg 4000 (login_req "carol@x.com" "Password3") world_mfa)
  = Ok {| RequiresMFA := true; MFAToken := token;
          resp_Session := None; resp_User := None |} /\
  (exists session,
     fst (VerifyMFA sample_cfg 4001
            {| vr_MFAToken := token; vr_Code := "123456";
               vr_IPAddress := "10.0.0.1"; vr_UserAgent := "curl" |} w1)
     = Ok {| RequiresMFA := false; MFAToken := "";
             resp_Session := Some session; resp_User := Some carol |}) /\
  VerifyMFA sample_cfg (4000 + MFATokenTTL sample_cfg)
    {| vr_MFAToken := token; vr_Code := "123456";
       vr_IPAddress := "10.0.0.1"; vr_UserAgent := "curl" |} w1
  = (Fail ErrInvalidSession, w1).
Proof.
  destruct (Login_then_VerifyMFA sample_cfg 4000
              (login_req "carol@x.com" "Password3") world_mfa carol
              carol_hash 0 None carol_mfa_enabled sample_secret)
    as (H1 & _ & _ & H2).
  - split; [vm_compute; reflexivity|]. split; [vm_compute; reflexivity|].
    exists carol_cred. split; [vm_compute; reflexivity|].
    split; [vm_compute; reflexivity|]. split; vm_compute; reflexivity.
  - vm_compute. reflexivity.
  - vm_compute. reflexivity.
  - vm_compute. reflexivity.
  - vm_compute. reflexivity.
  - vm_compute. reflexivity.
  - cbv zeta. split; [exact H1|]. split.
    + assert (Hc : totp_Validate "123456" sample_secret 4001 = true)
        by (vm_compute; reflexivity).
      destruct (proj1 (H2 4001 "123456"%string "10.0.0.1"%string
                         "curl"%string Hc)) as (s & Hs & _).
      * vm_compute. reflexivity.
      * exists s. exact Hs.
    + assert (Hc : totp_Validate "123456" sample_secret
                     (4000 + MFATokenTTL sample_cfg) = true)
        by (vm_compute; reflexivity).
      apply (proj2 (H2 (4000 + MFATokenTTL sample_cfg) "123456"%string
                      "10.0.0.1"%string "curl"%string Hc)).
      apply Z.le_refl.
Defined.

(** ** Changing a password *)

Section ChangePasswordFacts.

Context {L : Libs}.
Variable cfg : LocalAuthConfig.
Hypothesis IDKey_length : IDKey_length_law L.

Lemma verifyPassword_fresh_hash (p : string) (w : World) :
  verifyPassword p (fst (hashPassword p w)) = true.
Proof.
  unfold hashPassword, rand_Read. cbn [fst].
  apply (verifyPassword_digest IDKey_length). reflexivity.
Qed.

Lemma hashPassword_world (p : string) (w : World) :
  snd (hashPassword p w) = advance argon2SaltLen w.
Proof. reflexivity. Qed.

(** The successful run of [ChangePassword], step by step. *)
Lemma ChangePassword_run (now userID : Z) (cur new ip ua : string)
    (w : World) (cred : UserCredential) :
  AuthRepo.GetCredentialByUserID userID w = Some cred ->
  verifyPassword cur (uc_PasswordHash cred) = true ->
  PasswordMinLength cfg <= Z.of_nat (String.length new) ->
  checkPasswordHistory cfg userID new w = None ->
  ChangePassword cfg now userID cur new ip ua w =
  (None,
   logAudit (Some userID) AuditActionPasswordChange "user"
     (Fmt.Itoa userID) None None ip ua
     (AuthRepo.UpdateCredential
        (changed_to now (fst (hashPassword new w)) cred)
        (AuthRepo.CreatePasswordHistory
           {| ph_UserID := userID;
              ph_PasswordHash := uc_PasswordHash cred |}
           (advance argon2SaltLen w)))).
Proof.
  intros Hc Hv Hlen Hh. unfold ChangePassword. rewrite Hc, Hv, Hh.
  replace (Z.of_nat (String.length new) <? PasswordMinLength cfg)
    with false by (symmetry; apply Z.ltb_ge; exact Hlen).
  reflexivity.
Qed.

End ChangePasswordFacts.

(** X13. A [ChangePassword] that fails changes nothing, whichever of its
    four errors it returns; and a current password that does not verify
    is reported as [ErrInvalidCredentials] before the new password is
    looked at. *)
Theorem ChangePassword_failure_unchanged {L : Libs} (cfg : LocalAuthConfig)
    (now userID : Z) (cur new ip ua : string) (w : World) (e : Err) :
  fst (ChangePassword cfg now userID cur new ip ua w) = Some e ->
  snd (ChangePassword cfg now userID cur new ip ua w) = w /\
  In e [ErrCredentialsNotFound; ErrInvalidCredentials; ErrPasswordTooWeak;
        ErrPasswordReused] /\
  (forall cred,
     AuthRepo.GetCredentialByUserID userID w = Some cred ->
     verifyPassword cur (uc_PasswordHash cred) = false ->
     e = ErrInvalidCredentials).
Proof.
  unfold ChangePassword, checkPasswordHistory.
  destruct (AuthRepo.GetCredentialByUserID userID w) as [cred|].
  2:{ cbn. intros [= <-]. split; [reflexivity|]. split; [auto|].
      intros ? [=]. }
  destruct (verifyPassword cur (uc_PasswordHash cred)) eqn:Hv; cbn [negb].
  2:{ cbn. intros [= <-]. split; [reflexivity|]. split; [auto|]. auto. }
  destruct (Z.of_nat (String.length new) <? PasswordMinLength cfg).
  { cbn. intros [= <-]. split; [reflexivity|]. split; [auto|].
    intros c [= <-] H. congruence. }
  destruct (existsb _ _).
  { cbn. intros [= <-]. split; [reflexivity|]. split; [auto 6|].
    intros c [= <-] H. congruence. }
  cbn. discriminate.
Qed.

Lemma ChangePassword_failure_unchanged_witness :
  ChangePassword sample_cfg 6000 1 "letmein1" "short" "10.0.0.1" "curl"
    sample_world
  = (Some ErrInvalidCredentials, sample_world).
Proof.
  destruct (ChangePassword_failure_unchanged sample_cfg 6000 1 "letmein1"
              "short" "10.0.0.1" "curl" sample_world ErrInvalidCredentials)
    as (Hw & _).
  - vm_compute. reflexivity.
  - rewrite <- Hw at 2. 
    destruct (ChangePassword sample_cfg 6000 1 "letmein1" "short"
                "10.0.0.1" "curl" sample_world) as [r w'] eqn:E.
    cbn [snd]. f_equal.
    change r with (fst (r, w')). rewrite <- E. vm_compute. reflexivity.
Defined.

(** X14. A [ChangePassword] with the right current password and a new
    one that is long enough and not in the recent history returns nil;
    the Credential then holds a hash that the new password verifies
    against, keeps its failed-attempt counter and lock-until, and has
    must-change cleared; the hash it held before is appended to the
    password history; one audit row is written. *)
Theorem ChangePassword_success {L : Libs} (cfg : LocalAuthConfig)
    (IDKey_length : IDKey_length_law L)
    (now userID : Z) (cur new ip ua : string) (w : World)
    (cred : UserCredential) :
  AuthRepo.GetCredentialByUserID userID w = Some cred ->
  verifyPassword cur (uc_PasswordHash cred) = true ->
  PasswordMinLength cfg <= Z.of_nat (String.length new) ->
  checkPasswordHistory cfg userID new w = None ->
  let w' := snd (ChangePassword cfg now userID cur new ip ua w) in
  fst (ChangePassword cfg now userID cur new ip ua w) = None /\
  (exists cred',
     AuthRepo.GetCredentialByUserID userID w' = Some cred' /\
     verifyPassword new (uc_PasswordHash cred') = true /\
     uc_FailedLoginAttempts cred' = uc_FailedLoginAttempts cred /\
     uc_LockedUntil cred' = uc_LockedUntil cred /\
     uc_PasswordChangedAt cred' = Some now /\
     uc_MustChangePassword cred' = false) /\
  password_history w' =
    password_history w ++
    [ {| ph_UserID := userID; ph_PasswordHash := uc_PasswordHash cred |} ] /\
  length (security_audit_trail w') = S (length (security_audit_trail w)).
Proof.
  intros Hc Hv Hlen Hh w'. unfold w'.
  rewrite (ChangePassword_run cfg now userID cur new ip ua w cred
             Hc Hv Hlen Hh).
  cbn [fst snd]. split; [reflexivity|]. split; [|split].
  - exists (changed_to now (fst (hashPassword new w)) cred).
    split.
    + rewrite GetCredential_logAudit. unfold AuthRepo.UpdateCredential.
      cbn [uc_UserID changed_to].
      rewrite (GetCredential_UserID _ _ _ Hc).
      rewrite GetCredential_on_credential
        by (intros; exact (GetCredential_UserID _ _ _ Hc)).
      change (AuthRepo.GetCredentialByUserID userID
                (AuthRepo.CreatePasswordHistory ?h ?x))
        with (AuthRepo.GetCredentialByUserID userID w).
      rewrite Hc. reflexivity.
    + cbn [changed_to uc_PasswordHash uc_FailedLoginAttempts uc_LockedUntil
             uc_PasswordChangedAt uc_MustChangePassword].
      split; [apply (verifyPassword_fresh_hash IDKey_length)|]. auto.
  - reflexivity.
  - cbn. rewrite length_app. cbn. lia.
Qed.

Lemma ChangePassword_success_witness :
  fst (ChangePassword sample_cfg 6000 1 "Password1" "NewPassword9"
         "10.0.0.1" "curl" sample_world) = None /\
  password_history world_changed =
    [ {| ph_UserID := 1; ph_PasswordHash := alice_hash |} ].
Proof.
  destruct (ChangePassword_success sample_cfg sample_IDKey_length 6000 1
              "Password1" "NewPassword9" "10.0.0.1" "curl" sample_world
              alice_cred) as (H1 & _ & H2 & _).
  - vm_compute. reflexivity.
  - vm_compute. reflexivity.
  - vm_compute. discriminate.
  - vm_compute. reflexivity.
  - split; [exact H1|]. unfold world_changed. rewrite H2. reflexivity.
Defined.

(** X15. The password that was current before a successful
    [ChangePassword] cannot be taken back: while the configuration
    checks at least one history entry, a later [ChangePassword] from the
    new password to the previous one fails with [ErrPasswordReused] and
    changes nothing. *)
Theorem ChangePassword_rejects_previous {L : Libs} (cfg : LocalAuthConfig)
    (IDKey_length : IDKey_length_law L)
    (now userID : Z) (cur new ip ua : string) (w : World)
    (cred : UserCredential) (now' : Z) (ip' ua' : string) :
  AuthRepo.GetCredentialByUserID userID w = Some cred ->
  verifyPassword cur (uc_PasswordHash cred) = true ->
  PasswordMinLength cfg <= Z.of_nat (String.length new) ->
  checkPasswordHistory cfg userID new w = None ->
  PasswordMinLength cfg <= Z.of_nat (String.length cur) ->
  1 <= PasswordHistoryCount cfg ->
  let w' := snd (ChangePassword cfg now userID cur new ip ua w) in
  ChangePassword cfg now' userID new cur ip' ua' w'
  = (Some ErrPasswordReused, w').
Proof.
  intros Hc Hv Hlen Hh Hlen' Hcount w'. unfold w'.
  rewrite (ChangePassword_run cfg now userID cur new ip ua w cred
             Hc Hv Hlen Hh).
  cbn [snd].
  set (w1 := logAudit _ _ _ _ _ _ _ _ _).
  assert (Hc1 : AuthRepo.GetCredentialByUserID userID w1
                = Some (changed_to now (fst (hashPassword new w)) cred)).
  { unfold w1. rewrite GetCredential_logAudit.
    unfold AuthRepo.UpdateCredential. cbn [uc_UserID changed_to].
    rewrite (GetCredential_UserID _ _ _ Hc).
    rewrite GetCredential_on_credential
      by (intros; exact (GetCredential_UserID _ _ _ Hc)).
    change (AuthRepo.GetCredentialByUserID userID
              (AuthRepo.CreatePasswordHistory ?h ?x))
      with (AuthRepo.GetCredentialByUserID userID w).
    rewrite Hc. reflexivity. }
  assert (Hhist : checkPasswordHistory cfg userID cur w1
                  = Some ErrPasswordReused).
  { unfold checkPasswordHistory, AuthRepo.GetPasswordHistory.
    change (password_history w1)
      with (password_history w ++
            [ {| ph_UserID := userID;
                 ph_PasswordHash := uc_PasswordHash cred |} ]).
    rewrite List.filter_app. cbn [List.filter ph_UserID].
    rewrite Z.eqb_refl, rev_app_distr. cbn [rev app].
    destruct (Z.to_nat (PasswordHistoryCount cfg)) as [|k] eqn:Ek; [lia|].
    cbn [firstn existsb ph_PasswordHash]. rewrite Hv. reflexivity. }
  unfold ChangePassword. rewrite Hc1. cbn [changed_to uc_PasswordHash].
  rewrite (verifyPassword_fresh_hash IDKey_length). cbn [negb].
  replace (Z.of_nat (String.length cur) <? PasswordMinLength cfg)
    with false by (symmetry; apply Z.ltb_ge; exact Hlen').
  rewrite Hhist. reflexivity.
Qed.

Lemma ChangePassword_rejects_previous_witness :
  ChangePassword sample_cfg 6001 1 "NewPassword9" "Password1" "10.0.0.1"
    "curl" world_changed
  = (Some ErrPasswordReused, world_changed).
Proof.
  apply (ChangePassword_rejects_previous sample_cfg sample_IDKey_length
           6000 1 "Password1" "NewPassword9" "10.0.0.1" "curl" sample_world
           alice_cred 6001 "10.0.0.1" "curl").
  - vm_compute. reflexivity.
  - vm_compute. reflexivity.
  - vm_compute. discriminate.
  - vm_compute. reflexivity.
  - vm_compute. discriminate.
  - vm_compute. discriminate.
Defined.

(** ** Resetting a password *)

Lemma find_app_none {A : Type} (p : A -> bool) (l1 l2 : list A) :
  (forall x, In x l1 -> p x = false) ->
  List.find p (l1 ++ l2) = List.find p l2.
Proof.
  induction l1 as [|a l IH]; intros H; [reflexivity|]. cbn.
  rewrite (H a) by (left; reflexivity).
  apply IH. intros x Hx. apply H. right. exact Hx.
Qed.

Section ResetFacts.

Context {L : Libs}.
Variable cfg : LocalAuthConfig.

Lemma SetPassword_existing (now userID : Z) (password : string) (w : World)
    (cred : UserCredential) :
  PasswordMinLength cfg <= Z.of_nat (String.length password) ->
  AuthRepo.GetCredentialByUserID userID w = Some cred ->
  AuthRepo.GetCredentialByUserID userID
    (snd (SetPassword cfg now userID password w))
  = Some (set_to now (fst (hashPassword password w)) cred).
Proof.
  intros Hlen Hc. pose proof (GetCredential_UserID _ _ _ Hc) as Hid.
  subst userID. unfold SetPassword.
  replace (Z.of_nat (String.length password) <? PasswordMinLength cfg)
    with false by (symmetry; apply Z.ltb_ge; exact Hlen).
  unfold hashPassword, rand_Read.
  change (AuthRepo.GetCredentialByUserID (uc_UserID cred)
            (upd_entropy_pos (fun p => (p + argon2SaltLen)%nat) w))
    with (AuthRepo.GetCredentialByUserID (uc_UserID cred) w).
  rewrite Hc. cbn [fst snd].
  unfold AuthRepo.UpdateCredential. cbn [uc_UserID].
  rewrite GetCredential_on_credential by (intros; reflexivity).
  change (AuthRepo.GetCredentialByUserID (uc_UserID cred)
            (upd_entropy_pos (fun p => (p + argon2SaltLen)%nat) w))
    with (AuthRepo.GetCredentialByUserID (uc_UserID cred) w).
  rewrite Hc. reflexivity.
Qed.

Lemma reset_effects_users (now : Z) (t : PasswordResetToken) (p : string)
    (w : World) :
  users (reset_effects cfg now t p w) = users w.
Proof.
  unfold reset_effects, SetPassword, hashPassword, rand_Read.
  cbv zeta.
  destruct (Z.of_nat (String.length p) <? PasswordMinLength cfg);
    [reflexivity|].
  cbn [fst snd].
  destruct (AuthRepo.GetCredentialByUserID (prt_UserID t) _); reflexivity.
Qed.

Lemma reset_effects_credentials (now : Z) (t : PasswordResetToken)
    (p : string) (w : World) :
  user_credentials (reset_effects cfg now t p w)
  = user_credentials
      (snd (SetPassword cfg now (prt_UserID t) p
              (RegRepo.MarkPasswordResetTokenUsed now (prt_ID t) w))).
Proof. reflexivity. Qed.

End ResetFacts.

Lemma ResetPassword_failure {L : Libs} (cfg : LocalAuthConfig)
    (now : Z) (tok p c : string) (w : World) (e : Err) :
  fst (ResetPassword cfg now tok p c w) = Some e ->
  snd (ResetPassword cfg now tok p c w) = w /\
  In e [ErrPasswordMismatch; ErrPasswordTooWeak; ErrInvalidResetToken].
Proof.
  unfold ResetPassword.
  destruct (negb (String.eqb p c)).
  { cbn. intros [= <-]. auto. }
  destruct (Z.of_nat (String.length p) <? PasswordMinLength cfg) eqn:Hlen.
  { cbn. intros [= <-]. auto. }
  destruct (RegRepo.GetPasswordResetToken tok w) as [t|].
  2:{ cbn. intros [= <-]. auto 6. }
  destruct (prt_IsExpired now t || prt_IsUsed t).
  { cbn. intros [= <-]. auto 6. }
  apply Z.ltb_ge in Hlen.
  pose proof (SetPassword_sets_hash cfg now (prt_UserID t) p
                (RegRepo.MarkPasswordResetTokenUsed now (prt_ID t) w) Hlen)
    as [Hnone _].
  destruct (SetPassword cfg now (prt_UserID t) p
              (RegRepo.MarkPasswordResetTokenUsed now (prt_ID t) w))
    as [[e'|] w2]; cbn in Hnone; [discriminate|].
  cbn. discriminate.
Qed.

(** X16. A [ResetPassword] that fails changes nothing: the token is not
    marked used and can still be presented.  Its only errors are
    [ErrPasswordMismatch], [ErrPasswordTooWeak] and
    [ErrInvalidResetToken], and its handler answers each of them with a
    bad request, leaving the stores as they were. *)
Theorem ResetPassword_failure_unchanged {L : Libs} (cfg : LocalAuthConfig)
    (now : Z) (tok p c : string) (w : World) (e : Err) :
  fst (ResetPassword cfg now tok p c w) = Some e ->
  snd (ResetPassword cfg now tok p c w) = w /\
  In e [ErrPasswordMismatch; ErrPasswordTooWeak; ErrInvalidResetToken] /\
  exists msg,
    RegistrationHandler.ResetPassword cfg now tok p c w
    = (RespBadRequest msg, w).
Proof.
  intros He.
  destruct (ResetPassword_failure cfg now tok p c w e He) as [Hw Hin].
  split; [exact Hw|]. split; [exact Hin|].
  unfold RegistrationHandler.ResetPassword.
  destruct (ResetPassword cfg now tok p c w) as [r w'].
  cbn [fst snd] in He, Hw. subst r w'.
  destruct Hin as [<- | [<- | [<- | []]]]; cbn; eexists; reflexivity.
Qed.

Lemma ResetPassword_failure_unchanged_witness :
  snd (ResetPassword sample_cfg 6000 alice_reset_token "NewPassword9"
         "NewPassword8" world_reset_requested)
  = world_reset_requested.
Proof.
  apply (ResetPassword_failure_unchanged sample_cfg 6000 alice_reset_token
           "NewPassword9" "NewPassword8" world_reset_requested
           ErrPasswordMismatch).
  vm_compute. reflexivity.
Defined.

(** X17. The token that [ForgotPassword] issues for a known email opens
    [ResetPassword] up to and including the instant one hour after it
    was issued, and no longer after it: in time, the reset returns nil
    and the Credential of the user then holds a hash that the new
    password verifies against; late, it fails with
    [ErrInvalidResetToken] and changes nothing.  The token text must not
    be that of another user's pending token (the table's unique
    index).  The handler of [ForgotPassword] gives one and the same
    answer for every email, known or not. *)
Theorem ForgotPassword_then_ResetPassword {L : Libs} (cfg : LocalAuthConfig)
    (IDKey_length : IDKey_length_law L)
    (now : Z) (email : string) (w : World) (user : User) (now' : Z)
    (p : string) :
  AuthRepo.GetUserByEmail email w = Some user ->
  (forall t, In t (password_reset_tokens w) ->
             prt_Token t = fst (generateSecureToken w) ->
             prt_UserID t = u_Id user) ->
  PasswordMinLength cfg <= Z.of_nat (String.length p) ->
  let tok := fst (generateSecureToken w) in
  let w1 := snd (ForgotPassword now email w) in
  (forall email',
     fst (RegistrationHandler.ForgotPassword now email' w)
     = RespOK true
         "If an account exists with this email, a password reset link has been sent.") /\
  (now' <= now + 1 * hour ->
   fst (ResetPassword cfg now' tok p p w1) = None /\
   exists cred,
     AuthRepo.GetCredentialByUserID (u_Id user)
       (snd (ResetPassword cfg now' tok p p w1)) = Some cred /\
     verifyPassword p (uc_PasswordHash cred) = true) /\
  (now + 1 * hour < now' ->
   ResetPassword cfg now' tok p p w1 = (Some ErrInvalidResetToken, w1)).
Proof.
  intros Hu Huniq Hlen tok w1.
  set (fresh := {| prt_ID := reset_token_seq w + 1;
                   prt_UserID := u_Id user; prt_Token := tok;
                   prt_ExpiresAt := now + 1 * hour; prt_UsedAt := None |}).
  assert (Htok : RegRepo.GetPasswordResetToken tok w1 = Some fresh).
  { unfold w1, ForgotPassword. rewrite Hu.
    unfold RegRepo.GetPasswordResetToken, generateSecureToken, rand_Read.
    cbn. rewrite find_app_none.
    - cbn. unfold tok, generateSecureToken, rand_Read. cbn.
      rewrite String.eqb_refl. reflexivity.
    - intros x Hin. apply List.filter_In in Hin as [Hin Hne].
      apply String.eqb_neq. intros Heq.
      apply negb_true_iff, Z.eqb_neq in Hne. apply Hne.
      apply (Huniq x Hin). exact Heq. }
  unfold ResetPassword. rewrite String.eqb_refl. cbn [negb].
  replace (Z.of_nat (String.length p) <? PasswordMinLength cfg)
    with false by (symmetry; apply Z.ltb_ge; exact Hlen).
  rewrite Htok. unfold prt_IsExpired, prt_IsUsed.
  cbn [fresh prt_ExpiresAt prt_UsedAt prt_ID prt_UserID orb].
  split.
  { intros email'. unfold RegistrationHandler.ForgotPassword, ForgotPassword.
    destruct (AuthRepo.GetUserByEmail email' w); reflexivity. }
  split; intros Hnow.
  - replace (now + 1 * hour <? now') with false
      by (symmetry; apply Z.ltb_ge; exact Hnow).
    cbn [orb].
    pose proof (SetPassword_sets_hash cfg now' (u_Id user) p
                  (RegRepo.MarkPasswordResetTokenUsed now'
                     (reset_token_seq w + 1) w1) Hlen)
      as (Hnone & cred & Hc & Hh & _).
    destruct (SetPassword cfg now' (u_Id user) p
                (RegRepo.MarkPasswordResetTokenUsed now'
                   (reset_token_seq w + 1) w1)) as [[e'|] w2];
      cbn [fst snd] in Hnone, Hc; [discriminate|].
    cbn [fst snd]. split; [reflexivity|].
    exists cred. split; [exact Hc|]. rewrite Hh.
    apply (verifyPassword_fresh_hash IDKey_length).
  - replace (now + 1 * hour <? now') with true
      by (symmetry; apply Z.ltb_lt; exact Hnow).
    reflexivity.
Qed.

Lemma ForgotPassword_then_ResetPassword_witness :
  fst (ResetPassword sample_cfg (5000 + 1 * hour) alice_reset_token
         "NewPassword9" "NewPassword9" world_reset_requested) = None /\
  ResetPassword sample_cfg (5000 + 1 * hour + 1) alice_reset_token
    "NewPassword9" "NewPassword9" world_reset_requested
  = (Some ErrInvalidResetToken, world_reset_requested).
Proof.
  destruct (ForgotPassword_then_ResetPassword sample_cfg sample_IDKey_length
              5000 "alice@x.com" world_logged_in (logged_in_at 4000 1 alice)
              (5000 + 1 * hour)
              "NewPassword9") as (_ & H1 & _).
  - vm_compute. reflexivity.
  - intros t Hin. vm_compute in Hin. destruct Hin.
  - vm_compute. discriminate.
  - destruct (ForgotPassword_then_ResetPassword sample_cfg
                sample_IDKey_length 5000 "alice@x.com" world_logged_in
                (logged_in_at 4000 1 alice) (5000 + 1 * hour + 1) "NewPassword9") as [_ H2].
    + vm_compute. reflexivity.
    + intros t Hin. vm_compute in Hin. destruct Hin.
    + vm_compute. discriminate.
    + split.
      * apply H1. lia.
      * apply H2. lia.
Defined.

(** X18. A password reset does not unlock an account.  After a
    successful [ResetPassword] the Credential keeps the failed-attempt
    counter and the lock-until it had, so while that lock lasts [Login]
    still fails with [ErrAccountLocked], with the new password as with
    any other. *)
Theorem ResetPassword_keeps_lock {L : Libs} (cfg : LocalAuthConfig)
    (now : Z) (tok p c : string) (w : World) (t : PasswordResetToken)
    (cred : UserCredential) :
  fst (ResetPassword cfg now tok p c w) = None ->
  RegRepo.GetPasswordResetToken tok w = Some t ->
  AuthRepo.GetCredentialByUserID (prt_UserID t) w = Some cred ->
  let w' := snd (ResetPassword cfg now tok p c w) in
  (exists cred',
     AuthRepo.GetCredentialByUserID (prt_UserID t) w' = Some cred' /\
     uc_FailedLoginAttempts cred' = uc_FailedLoginAttempts cred /\
     uc_LockedUntil cred' = uc_LockedUntil cred) /\
  (forall now' req user lockUntil,
     AuthRepo.GetUserByEmail (lr_Email req) w = Some user ->
     u_Id user = prt_UserID t ->
     u_Status user = UserStatusActive ->
     uc_LockedUntil cred = Some lockUntil ->
     now' < lockUntil ->
     fst (Login cfg now' req w') = Fail ErrAccountLocked).
Proof.
  intros Hok Ht Hc w'.
  destruct (ResetPassword_success cfg now tok p c w Hok)
    as (-> & Hlen & t' & Ht' & _ & _ & Hw).
  rewrite Ht in Ht'. injection Ht' as <-.
  assert (Hc' : AuthRepo.GetCredentialByUserID (prt_UserID t) w'
                = Some (set_to now
                          (fst (hashPassword c
                                  (RegRepo.MarkPasswordResetTokenUsed now
                                     (prt_ID t) w))) cred)).
  { unfold w'. rewrite Hw. unfold AuthRepo.GetCredentialByUserID.
    rewrite reset_effects_credentials.
    apply (SetPassword_existing cfg now (prt_UserID t) c
             (RegRepo.MarkPasswordResetTokenUsed now (prt_ID t) w) cred Hlen).
    exact Hc. }
  split.
  - eexists. split; [exact Hc'|]. split; reflexivity.
  - intros now' req user lockUntil Hu Hid Hs Hl Hnow.
    unfold Login.
    assert (Hu' : AuthRepo.GetUserByEmail (lr_Email req) w' = Some user).
    { unfold AuthRepo.GetUserByEmail, w'. rewrite Hw, reset_effects_users.
      exact Hu. }
    rewrite Hu', Hs, Hid, Hc'.
    change (negb (UserStatusActive =? UserStatusActive)%string) with false.
    cbv iota. unfold IsLocked. cbn [set_to uc_LockedUntil]. rewrite Hl.
    apply Z.ltb_lt in Hnow. rewrite Hnow. reflexivity.
Qed.

Lemma ResetPassword_keeps_lock_witness :
  fst (ResetPassword sample_cfg 2600 locked_reset_token "NewPassword9"
         "NewPassword9" world_locked_reset) = None /\
  fst (Login sample_cfg 2700 (login_req "alice@x.com" "NewPassword9")
         (snd (ResetPassword sample_cfg 2600 locked_reset_token
                 "NewPassword9" "NewPassword9" world_locked_reset)))
  = Fail ErrAccountLocked.
Proof.
  assert (H0 : fst (ResetPassword sample_cfg 2600 locked_reset_token
                      "NewPassword9" "NewPassword9" world_locked_reset)
               = None) by (vm_compute; reflexivity).
  split; [exact H0|].
  refine (proj2 (ResetPassword_keeps_lock sample_cfg 2600 locked_reset_token
            "NewPassword9" "NewPassword9" world_locked_reset
            {| prt_ID := 1; prt_UserID := 1; prt_Token := locked_reset_token;
               prt_ExpiresAt := 2500 + 1 * hour; prt_UsedAt := None |}
            alice_locked_cred H0 _ _)
          2700 (login_req "alice@x.com" "NewPassword9") alice
          (2002 + 900000000000) _ _ _ _ _).
  all: try (vm_compute; reflexivity).
Defined.

(** ** Codes, tokens and the encrypted TOTP secret *)

#[local] Transparent Base64.EncodeToString Base64.DecodeString
  Base32.EncodeToString Strings.ToUpper.

Module Base64StdFacts.

Import Base64 Base64Facts.

Lemma enc_groups_length (src : list byte) :
  length (enc_groups src) =
  (4 * (length src / 3) +
   match (length src mod 3)%nat with
   | O => 0
   | S O => 2
   | _ => 3
   end)%nat.
Proof.
  revert src. fix IH 1. intros [|a [|b [|c rest]]]; try reflexivity.
  cbn [enc_groups length]. rewrite IH.
  change (S (S (S (length rest)))) with (3 + length rest)%nat.
  replace (3 + length rest)%nat with (length rest + 1 * 3)%nat by lia.
  rewrite Nat.div_add, Nat.Div0.mod_add by lia. lia.
Qed.

Lemma span_valid_padded (q : list Z) (k : nat) :
  Forall digit q ->
  span_valid StdEncoding
    (map (enc_char StdEncoding) q ++ repeat "="%char k)
  = (q, repeat "="%char k).
Proof.
  induction 1 as [|i q Hi _ IH].
  - destruct k; reflexivity.
  - cbn [map span_valid app].
    change (dec_char StdEncoding (enc_char StdEncoding i))
      with (dec_char RawStdEncoding (enc_char RawStdEncoding i)).
    now rewrite dec_enc_char, IH.
Qed.

Lemma filter_newline_padded (q : list Z) (k : nat) :
  Forall digit q ->
  List.filter (fun c => negb (is_newline c))
    (map (enc_char StdEncoding) q ++ repeat "="%char k)
  = map (enc_char StdEncoding) q ++ repeat "="%char k.
Proof.
  intros Hd. rewrite List.filter_app. f_equal.
  - exact (filter_newline_digits q Hd).
  - induction k; [reflexivity|]. cbn. now rewrite IHk.
Qed.

(** Decoding inverts encoding for the padded standard encoding. *)
Lemma pad_cases (src : list byte) :
  let k := ((3 - length src mod 3) mod 3)%nat in
  let r := (length (enc_groups src) mod 4)%nat in
  (k = 0 /\ r = 0)%nat \/ (k = 2 /\ r = 2)%nat \/ (k = 1 /\ r = 3)%nat.
Proof.
  cbv zeta. rewrite enc_groups_length.
  pose proof (Nat.mod_upper_bound (length src) 3 ltac:(lia)) as Hm.
  destruct (length src mod 3)%nat as [|[|[|m]]] eqn:Em; try lia.
  - left. split; [reflexivity|].
    rewrite Nat.add_0_r, Nat.mul_comm, Nat.Div0.mod_mul. reflexivity.
  - right. left. split; [reflexivity|].
    rewrite Nat.add_comm, Nat.mul_comm, Nat.Div0.mod_add. reflexivity.
  - right. right. split; [reflexivity|].
    rewrite Nat.add_comm, Nat.mul_comm, Nat.Div0.mod_add. reflexivity.
Qed.

(** Decoding inverts encoding for the padded standard encoding. *)
Lemma DecodeString_EncodeToString_Std (src : list byte) :
  DecodeString StdEncoding (EncodeToString StdEncoding src) = Some src.
Proof.
  unfold DecodeString, EncodeToString. cbn [padChar StdEncoding].
  rewrite list_ascii_of_string_of_list_ascii.
  pose proof (enc_groups_digits src) as Hd.
  rewrite filter_newline_padded, span_valid_padded by exact Hd.
  destruct (pad_cases src) as [[-> ->] | [[-> ->] | [-> ->]]];
    cbn [repeat Nat.eqb andb orb]; unfold ascii_list_eqb;
    rewrite ?bool_decide_eq_true_2 by reflexivity;
    cbn [andb orb]; apply dec_enc_groups.
Qed.

End Base64StdFacts.

Section CodeFormat.

Import Base64 Base64Facts Base64StdFacts.

Lemma length_string_of_list_ascii (l : list ascii) :
  String.length (string_of_list_ascii l) = length l.
Proof. induction l as [|c l IH]; [reflexivity|]. cbn. now rewrite IH. Qed.

Lemma url_char_safe (i : Z) :
  digit i -> url_safe_char (enc_char URLEncoding i) = true.
Proof.
  revert i. apply digit_cases. intros n Hn.
  do 64 (destruct n as [|n]; [vm_compute; reflexivity|]). lia.
Qed.

Lemma base32_char_ok (x4 x3 x2 x1 x0 : bool) :
  is_upper_alnum
    (Strings.upper_char (Base32.enc_char (Base32.bits_val [x4; x3; x2; x1; x0])))
  = true.
Proof. destruct x4, x3, x2, x1, x0; vm_compute; reflexivity. Qed.

#[local] Opaque Base32.bits_val Base32.enc_char Strings.upper_char
  is_upper_alnum Z.testbit.

Lemma code_of_five_bytes (b0 b1 b2 b3 b4 : byte) :
  let code := Strings.ToUpper
                (substring 0 8 (Base32.EncodeToString [b0; b1; b2; b3; b4])) in
  String.length code = 8%nat /\ backupCodeSchema code = true.
Proof.
  cbv zeta. unfold Base32.EncodeToString, Base32.bits_of_byte,
    backupCodeSchema.
  cbn. rewrite !base32_char_ok. split; reflexivity.
Qed.

#[local] Transparent Base32.bits_val Base32.enc_char Strings.upper_char
  is_upper_alnum Z.testbit.

End CodeFormat.

(** X19. Every backup code that [generateRandomCode] produces, whatever
    the random bytes, is eight characters long and passes the web
    client's [backupCodeSchema] (length 8, capital letters and digits
    only); producing it reads 5 bytes of the random source. *)
Theorem generateRandomCode_format (w : World) :
  let code := fst (generateRandomCode w) in
  String.length code = 8%nat /\
  backupCodeSchema code = true /\
  snd (generateRandomCode w) = advance 5 w.
Proof.
  cbv zeta. unfold generateRandomCode, rand_Read. cbn [fst snd seq map].
  destruct (code_of_five_bytes
              (entropy w (entropy_pos w)) (entropy w (S (entropy_pos w)))
              (entropy w (S (S (entropy_pos w))))
              (entropy w (S (S (S (entropy_pos w)))))
              (entropy w (S (S (S (S (entropy_pos w))))))) as [H1 H2].
  split; [exact H1|]. split; [exact H2|]. reflexivity.
Qed.

(** X20. Every token that [generateSecureToken] produces is 44
    characters long and made of letters, digits, ['-'], ['_'] and the
    padding ['='] only, whatever the random bytes; it reads 32 bytes of
    the random source. *)
Theorem generateSecureToken_format (w : World) :
  let tok := fst (generateSecureToken w) in
  String.length tok = 44%nat /\
  forallb url_safe_char (list_ascii_of_string tok) = true /\
  snd (generateSecureToken w) = advance 32 w.
Proof.
  cbv zeta. unfold generateSecureToken, rand_Read. cbn [fst snd].
  unfold Base64.EncodeToString. cbn [Base64.padChar Base64.URLEncoding].
  set (src := map (entropy w) (seq (entropy_pos w) 32)).
  assert (Hlen : length src = 32%nat)
    by (unfold src; rewrite length_map, length_seq; reflexivity).
  rewrite Hlen. change ((3 - 32 mod 3) mod 3)%nat with 1%nat.
  split; [|split; [|reflexivity]].
  - rewrite length_string_of_list_ascii, length_app, length_map,
      Base64StdFacts.enc_groups_length, Hlen. reflexivity.
  - rewrite list_ascii_of_string_of_list_ascii, forallb_app.
    apply andb_true_iff. split; [|reflexivity].
    apply forallb_forall. intros c Hin.
    apply in_map_iff in Hin as (i & <- & Hi).
    pose proof (Base64Facts.enc_groups_digits src) as Hd.
    rewrite List.Forall_forall in Hd.
    apply url_char_safe, Hd, Hi.
Qed.

Section SecretBox.

Context {L : Libs} {E : EnrolLibs}.
Variable cfg : LocalAuthConfig.
Hypothesis Seal_Open : Seal_Open_law L E.
Hypothesis key_length :
  length (bytes_of_string (EncryptionKey cfg)) = 32%nat.

Lemma encryptTOTPSecret_run (secret : string) (w : World) :
  encryptTOTPSecret cfg secret w =
  (Ok (Base64.EncodeToString Base64.StdEncoding
         (fst (rand_Read 12 w) ++
          gcm_Seal (bytes_of_string (EncryptionKey cfg))
            (fst (rand_Read 12 w)) (bytes_of_string secret))),
   advance 12 w).
Proof.
  unfold encryptTOTPSecret. rewrite key_length. reflexivity.
Qed.

Lemma decryptTOTPSecret_sealed (nonce : list byte) (secret : string) :
  length nonce = 12%nat ->
  decryptTOTPSecret cfg
    (Base64.EncodeToString Base64.StdEncoding
       (nonce ++ gcm_Seal (bytes_of_string (EncryptionKey cfg)) nonce
                   (bytes_of_string secret)))
  = Ok secret.
Proof.
  intros Hn. unfold decryptTOTPSecret. rewrite key_length.
  cbn [Nat.eqb negb].
  rewrite Base64StdFacts.DecodeString_EncodeToString_Std.
  replace (length (nonce ++ _) <? 12)%nat with false
    by (symmetry; apply Nat.ltb_ge; rewrite length_app; lia).
  rewrite <- Hn at 1 2.
  rewrite firstn_app, Nat.sub_diag, firstn_all, firstn_O, app_nil_r.
  rewrite skipn_app, Nat.sub_diag, skipn_all, skipn_O. cbn [app].
  rewrite Seal_Open. unfold string_of_bytes, bytes_of_string.
  rewrite string_of_list_byte_of_string. reflexivity.
Qed.

End SecretBox.

(** X21. With a 32-byte key, [encryptTOTPSecret] succeeds, reads a
    12-byte nonce from the random source, and what it returns is
    decrypted by [decryptTOTPSecret] to the same secret (given that the
    cipher's [Open] inverts its [Seal]). *)
Theorem decrypt_encrypt_TOTPSecret {L : Libs} {E : EnrolLibs}
    (cfg : LocalAuthConfig) (Seal_Open : Seal_Open_law L E)
    (secret : string) (w : World) :
  length (bytes_of_string (EncryptionKey cfg)) = 32%nat ->
  exists encrypted,
    encryptTOTPSecret cfg secret w = (Ok encrypted, advance 12 w) /\
    decryptTOTPSecret cfg encrypted = Ok secret.
Proof.
  intros Hk. eexists. split.
  - apply (encryptTOTPSecret_run cfg Hk).
  - apply (decryptTOTPSecret_sealed cfg Seal_Open Hk).
    unfold rand_Read. cbn [fst]. rewrite length_map, length_seq. reflexivity.
Qed.

Lemma sample_Seal_Open : Seal_Open_law sample_libs sample_enrol_libs.
Proof. intros key nonce plaintext. reflexivity. Qed.

Lemma decrypt_encrypt_TOTPSecret_witness :
  exists encrypted,
    encryptTOTPSecret sample_cfg sample_secret sample_world
    = (Ok encrypted, advance 12 sample_world) /\
    decryptTOTPSecret sample_cfg encrypted = Ok sample_secret.
Proof.
  apply (decrypt_encrypt_TOTPSecret sample_cfg sample_Seal_Open).
  vm_compute. reflexivity.
Defined.

#[local] Opaque Base64.EncodeToString Base64.DecodeString
  Base32.EncodeToString Strings.ToUpper.

(** ** TOTP enrolment and backup codes *)

Section MFAFacts.

Context {L : Libs}.
Variable cfg : LocalAuthConfig.

Lemma generateBackupCodes_run (userID : Z) (w : World) :
  fst (generateBackupCodes userID w) = Ok (issued_codes w) /\
  user_mfa_backup_codes (snd (generateBackupCodes userID w))
  = user_mfa_backup_codes w ++ issued_rows userID w /\
  user_mfa_totp (snd (generateBackupCodes userID w)) = user_mfa_totp w /\
  users (snd (generateBackupCodes userID w)) = users w /\
  user_credentials (snd (generateBackupCodes userID w))
  = user_credentials w.
Proof.
  unfold generateBackupCodes. rewrite backup_code_loop_spec.
  cbn [fst snd]. split; [reflexivity|]. split; [|repeat split].
  unfold AuthRepo.CreateBackupCodes, issued_rows.
  cbn [user_mfa_backup_codes upd_backup_code_seq upd_user_mfa_backup_codes
         advance upd_entropy_pos backup_code_seq entropy entropy_pos].
  f_equal.
  rewrite <- (Z.add_0_r (backup_code_seq w + 1)) at 1.
  change 0 with (Z.of_nat 0) at 1.
  rewrite number_codes_map. apply List.map_ext. intros i. reflexivity.
Qed.

Lemma issued_rows_unused (userID : Z) (w : World) :
  List.filter (fun c => (bc_UserID c =? userID) && negb (bc_IsUsed c))
    (issued_rows userID w) = issued_rows userID w.
Proof.
  unfold issued_rows. induction (seq 0 10) as [|i l IH]; [reflexivity|].
  cbn [map List.filter issued_row bc_UserID bc_IsUsed bc_UsedAt].
  rewrite Z.eqb_refl. cbn [andb negb]. now rewrite IH.
Qed.

Lemma filter_none {A : Type} (p : A -> bool) (l : list A) :
  (forall x, In x l -> p x = false) -> List.filter p l = [].
Proof.
  induction l as [|a l IH]; intros H; [reflexivity|]. cbn.
  rewrite (H a) by (left; reflexivity).
  apply IH. intros x Hx. apply H. right. exact Hx.
Qed.

(** A stored row whose salt decodes and whose hash is that of the
    presented code is enough for [match_backup_code] to accept. *)
Lemma match_backup_code_accepts (code : string)
    (rows : list UserMFABackupCode) (c : UserMFABackupCode)
    (salt : list byte) :
  In c rows ->
  Base64.DecodeString Base64.RawStdEncoding (bc_Salt c) = Some salt ->
  bc_CodeHash c = hashBackupCodeWithSalt code salt ->
  match_backup_code code rows <> None.
Proof.
  intros Hin Hs Hh. induction rows as [|r rows IH]; [destruct Hin|].
  cbn [match_backup_code].
  destruct Hin as [-> | Hin].
  - rewrite Hs, Hh. unfold ConstantTimeCompare.
    destruct (decide _) as [_|n]; [discriminate | now elim n].
  - destruct (Base64.DecodeString Base64.RawStdEncoding (bc_Salt r));
      [|exact (IH Hin)].
    destruct (_ =? 1); [discriminate | exact (IH Hin)].
Qed.

Lemma issued_code_accepted (userID : Z) (w : World) (code : string) :
  In code (issued_codes w) ->
  match_backup_code code (issued_rows userID w) <> None.
Proof.
  unfold issued_codes. intros Hin.
  apply in_map_iff in Hin as (i & <- & Hi).
  apply (match_backup_code_accepts _ _
           (issued_row (entropy w) (entropy_pos w)
              (backup_code_seq w + 1 + Z.of_nat i) userID i)
           (issued_salt (entropy w) (entropy_pos w) i)).
  - unfold issued_rows. apply in_map_iff. exists i. auto.
  - apply Base64Facts.DecodeString_EncodeToString.
  - reflexivity.
Qed.

Lemma issued_code_schema (w : World) (code : string) :
  In code (issued_codes w) -> backupCodeSchema code = true.
Proof.
  unfold issued_codes. intros Hin.
  apply in_map_iff in Hin as (i & <- & _).
  unfold issued_code, code_positions. cbn [seq map].
  apply code_of_five_bytes.
Qed.

Lemma GetMFA_DisableMFA (userID : Z) (w : World) :
  AuthRepo.GetMFAByUserID userID (AuthRepo.DisableMFA userID w)
  = option_map disabled (AuthRepo.GetMFAByUserID userID w).
Proof.
  unfold AuthRepo.GetMFAByUserID, AuthRepo.DisableMFA.
  cbn [user_mfa_totp upd_user_mfa_totp].
  apply (find_map_same (fun m => mfa_UserID m =? userID)).
  intros m Hm. exact Hm.
Qed.

End MFAFacts.

(** X22. [GenerateBackupCodes] for a user with enabled MFA replaces
    the user's codes: it returns ten plaintext codes; afterwards the
    unused codes of the user are exactly the ten freshly stored rows,
    every earlier code of the user, used or not, is gone, and the codes
    of other users are untouched; every returned code is accepted by the
    matching loop of [VerifyBackupCode] against the stored rows and
    passes the web client's [backupCodeSchema]. *)
Theorem GenerateBackupCodes_replaces_codes {L : Libs} (userID : Z)
    (ip ua : string) (w : World) (mfa : UserMFATotp) :
  AuthRepo.GetMFAByUserID userID w = Some mfa ->
  mfa_IsEnabled mfa = true ->
  let r := GenerateBackupCodes userID ip ua w in
  exists codes,
    fst r = Ok codes /\
    length codes = 10%nat /\
    AuthRepo.GetUnusedBackupCodes userID (snd r) = issued_rows userID w /\
    (forall c, In c (user_mfa_backup_codes (snd r)) ->
               bc_UserID c = userID -> In c (issued_rows userID w)) /\
    (forall c, bc_UserID c <> userID ->
               (In c (user_mfa_backup_codes (snd r)) <->
                In c (user_mfa_backup_codes w))) /\
    (forall code, In code codes ->
       match_backup_code code
         (AuthRepo.GetUnusedBackupCodes userID (snd r)) <> None /\
       backupCodeSchema code = true).
Proof.
  intros Hm He. cbv zeta. unfold GenerateBackupCodes. rewrite Hm.
  destruct mfa as [mu ms me mv]. cbn in He. subst me.
  set (w0 := AuthRepo.DeleteBackupCodes userID w).
  destruct (generateBackupCodes_run userID w0) as (Hc & Hrows & _).
  destruct (generateBackupCodes userID w0) as [[codes|e] w1];
    cbn [fst snd] in Hc, Hrows; [|discriminate].
  injection Hc as ->. cbn [fst snd].
  assert (Hissued : issued_rows userID w0 = issued_rows userID w)
    by reflexivity.
  assert (Hcodes : issued_codes w0 = issued_codes w) by reflexivity.
  assert (Hall : user_mfa_backup_codes
                   (logAudit (Some userID) AuditActionMFABackupRegen "user"
                      (Fmt.Itoa userID) None
                      (Some [("codes_generated"%string,
                              JInt (Z.of_nat (length (issued_codes w0))))])
                      ip ua w1)
                 = List.filter (fun c => negb (bc_UserID c =? userID))
                     (user_mfa_backup_codes w) ++ issued_rows userID w).
  { cbn. rewrite Hrows, Hissued. reflexivity. }
  assert (Hunused : AuthRepo.GetUnusedBackupCodes userID
                      (logAudit (Some userID) AuditActionMFABackupRegen
                         "user" (Fmt.Itoa userID) None
                         (Some [("codes_generated"%string,
                                 JInt (Z.of_nat
                                         (length (issued_codes w0))))])
                         ip ua w1)
                    = issued_rows userID w).
  { unfold AuthRepo.GetUnusedBackupCodes. rewrite Hall, List.filter_app.
    rewrite issued_rows_unused, filter_none; [reflexivity|].
    intros x Hx. apply List.filter_In in Hx as [_ Hx].
    apply negb_true_iff in Hx. rewrite Hx. reflexivity. }
  exists (issued_codes w0). split; [reflexivity|].
  split; [unfold issued_codes; rewrite length_map, length_seq; reflexivity|].
  split; [exact Hunused|]. split; [|split].
  - intros c Hin Hu. rewrite Hall in Hin.
    apply in_app_iff in Hin as [Hin | Hin]; [|exact Hin].
    apply List.filter_In in Hin as [_ Hne].
    apply negb_true_iff, Z.eqb_neq in Hne. contradiction.
  - intros c Hne. rewrite Hall, in_app_iff, List.filter_In. split.
    + intros [[Hin _] | Hin]; [exact Hin|].
      unfold issued_rows in Hin. apply in_map_iff in Hin as (i & <- & _).
      now elim Hne.
    + intros Hin. left. split; [exact Hin|].
      apply negb_true_iff, Z.eqb_neq. exact Hne.
  - intros code Hin. rewrite Hunused. rewrite Hcodes in Hin. split.
    + apply issued_code_accepted. exact Hin.
    + apply (issued_code_schema w). exact Hin.
Qed.

Lemma GenerateBackupCodes_replaces_codes_witness :
  exists codes,
    fst (GenerateBackupCodes 3 "10.0.0.1" "curl" world_mfa) = Ok codes /\
    length codes = 10%nat.
Proof.
  destruct (GenerateBackupCodes_replaces_codes 3 "10.0.0.1" "curl" world_mfa
              carol_mfa_enabled) as (codes & H1 & H2 & _).
  - vm_compute. reflexivity.
  - reflexivity.
  - exists codes. split; [exact H1 | exact H2].
Defined.

Section EnrolmentFacts.

Context {L : Libs} {E : EnrolLibs}.
Variable cfg : LocalAuthConfig.

Lemma GetMFA_UserID (userID : Z) (m : UserMFATotp) (w : World) :
  AuthRepo.GetMFAByUserID userID w = Some m -> mfa_UserID m = userID.
Proof.
  unfold AuthRepo.GetMFAByUserID. intros H.
  apply find_some in H as [_ H]. now apply Z.eqb_eq.
Qed.

Lemma GetMFA_UpdateMFA (userID : Z) (m new : UserMFATotp) (w : World) :
  AuthRepo.GetMFAByUserID userID w = Some m ->
  mfa_UserID new = userID ->
  AuthRepo.GetMFAByUserID userID (AuthRepoExt.UpdateMFA new w) = Some new.
Proof.
  intros Hm Hid. unfold AuthRepo.GetMFAByUserID, AuthRepoExt.UpdateMFA.
  cbn [user_mfa_totp upd_user_mfa_totp]. rewrite Hid.
  rewrite (find_map_same (fun x => mfa_UserID x =? userID) (fun _ => new)).
  - unfold AuthRepo.GetMFAByUserID in Hm. rewrite Hm. reflexivity.
  - intros _ _. apply Z.eqb_eq. exact Hid.
Qed.

Lemma GetMFA_CreateMFA (userID : Z) (new : UserMFATotp) (w : World) :
  AuthRepo.GetMFAByUserID userID w = None ->
  mfa_UserID new = userID ->
  AuthRepo.GetMFAByUserID userID (AuthRepoExt.CreateMFA new w) = Some new.
Proof.
  intros Hm Hid. unfold AuthRepo.GetMFAByUserID, AuthRepoExt.CreateMFA.
  cbn [user_mfa_totp upd_user_mfa_totp].
  rewrite find_app_none.
  - cbn. rewrite Hid, Z.eqb_refl. reflexivity.
  - intros x Hx. unfold AuthRepo.GetMFAByUserID in Hm.
    exact (find_none _ _ Hm x Hx).
Qed.

(** What a successful [ConfirmTOTP] leaves: MFA enabled and unused
    backup codes on file. *)
Lemma ConfirmTOTP_enables (now userID : Z) (code ip ua : string) (w : World)
    (m : UserMFATotp) (secret : string) :
  AuthRepo.GetMFAByUserID userID w = Some m ->
  mfa_IsEnabled m = false ->
  decryptTOTPSecret cfg (mfa_SecretEncrypted m) = Ok secret ->
  totp_Validate code secret now = true ->
  fst (ConfirmTOTP cfg now userID code ip ua w) = None /\
  GetMFAStatus userID (snd (ConfirmTOTP cfg now userID code ip ua w))
  = (true, true, None).
Proof.
  intros Hm He Hd Hv. unfold ConfirmTOTP. rewrite Hm, He, Hd, Hv.
  cbn [negb].
  destruct (generateBackupCodes_run userID (AuthRepo.EnableMFA now userID w))
    as (Hc & Hrows & Htotp & _).
  destruct (generateBackupCodes userID (AuthRepo.EnableMFA now userID w))
    as [r w1]; cbn [fst snd] in Hc, Hrows, Htotp.
  cbn [fst snd]. split; [reflexivity|].
  unfold GetMFAStatus.
  assert (Hg : AuthRepo.GetMFAByUserID userID
                 (logAudit (Some userID) AuditActionMFAEnable "user"
                    (Fmt.Itoa userID) None
                    (Some [("backup_codes_generated"%string,
                            JInt (Z.of_nat
                                    (length match r with
                                            | Ok cs => cs
                                            | Fail _ => []
                                            end)))]) ip ua w1)
               = Some (enabled_at now m)).
  { unfold AuthRepo.GetMFAByUserID.
    change (user_mfa_totp (logAudit ?a ?b ?c ?d ?e ?f ?g ?h w1))
      with (user_mfa_totp w1).
    rewrite Htotp.
    change (List.find (fun m0 => mfa_UserID m0 =? userID)
              (user_mfa_totp (AuthRepo.EnableMFA now userID w)))
      with (AuthRepo.GetMFAByUserID userID (AuthRepo.EnableMFA now userID w)).
    rewrite GetMFA_EnableMFA, Hm. reflexivity. }
  rewrite Hg. cbn [enabled_at mfa_IsEnabled negb].
  unfold AuthRepo.GetUnusedBackupCodes.
  change (user_mfa_backup_codes (logAudit ?a ?b ?c ?d ?e ?f ?g ?h w1))
    with (user_mfa_backup_codes w1).
  rewrite Hrows, List.filter_app, issued_rows_unused, length_app.
  unfold issued_rows at 1. rewrite length_map, length_seq.
  replace (0 <? _ + 10)%nat with true
    by (symmetry; apply Nat.ltb_lt; lia).
  reflexivity.
Qed.

Lemma DisableTOTP_run (now userID : Z) (code ip ua : string) (w : World)
    (m : UserMFATotp) (secret : string) :
  AuthRepo.GetMFAByUserID userID w = Some m ->
  mfa_IsEnabled m = true ->
  decryptTOTPSecret cfg (mfa_SecretEncrypted m) = Ok secret ->
  totp_Validate code secret now = true ->
  DisableTOTP cfg now userID code ip ua w =
  (None,
   logAudit (Some userID) AuditActionMFADisable "user" (Fmt.Itoa userID)
     None None ip ua
     (AuthRepo.DeleteBackupCodes userID (AuthRepo.DisableMFA userID w))).
Proof.
  intros Hm He Hd Hv. unfold DisableTOTP. rewrite Hm, He, Hd, Hv.
  reflexivity.
Qed.

Lemma GetMFA_after_DisableTOTP (now userID : Z) (code ip ua : string)
    (w : World) (m : UserMFATotp) (secret : string) :
  AuthRepo.GetMFAByUserID userID w = Some m ->
  mfa_IsEnabled m = true ->
  decryptTOTPSecret cfg (mfa_SecretEncrypted m) = Ok secret ->
  totp_Validate code secret now = true ->
  AuthRepo.GetMFAByUserID userID
    (snd (DisableTOTP cfg now userID code ip ua w)) = Some (disabled m).
Proof.
  intros Hm He Hd Hv.
  rewrite (DisableTOTP_run now userID code ip ua w m secret Hm He Hd Hv).
  cbn [snd].
  change (AuthRepo.GetMFAByUserID userID (logAudit ?a ?b ?c ?d ?e ?f ?g ?h ?x))
    with (AuthRepo.GetMFAByUserID userID (AuthRepo.DisableMFA userID w)).
  rewrite GetMFA_DisableMFA, Hm. reflexivity.
Qed.

End EnrolmentFacts.

(** X23. The enrolment, end to end.  For a user whose MFA is not
    enabled, with a 32-byte encryption key, [SetupTOTP] returns the
    secret and URL of the generated key and files the encrypted secret
    as a pending (not enabled) MFA row from which [decryptTOTPSecret]
    recovers the secret; MFA is still reported off.  [ConfirmTOTP] with
    a code valid for the returned secret then returns nil, after which
    MFA is reported on with backup codes; with an invalid code it fails
    with [ErrInvalidMFACode] and changes nothing. *)
Theorem SetupTOTP_then_ConfirmTOTP {L : Libs} {E : EnrolLibs}
    (cfg : LocalAuthConfig) (Seal_Open : Seal_Open_law L E)
    (userID : Z) (email : string) (w : World) (secret url : string) :
  length (bytes_of_string (EncryptionKey cfg)) = 32%nat ->
  match AuthRepo.GetMFAByUserID userID w with
  | Some m => mfa_IsEnabled m
  | None => false
  end = false ->
  totp_Generate (TOTPIssuer cfg) email (fst (rand_Read 32 w))
  = Ok (secret, url) ->
  let w1 := snd (SetupTOTP cfg userID email w) in
  fst (SetupTOTP cfg userID email w)
  = Ok {| Secret := secret; QRCodeURL := url |} /\
  (exists mfa,
     AuthRepo.GetMFAByUserID userID w1 = Some mfa /\
     mfa_IsEnabled mfa = false /\
     mfa_VerifiedAt mfa = None /\
     decryptTOTPSecret cfg (mfa_SecretEncrypted mfa) = Ok secret) /\
  GetMFAStatus userID w1 = (false, false, None) /\
  (forall now code ip ua,
     totp_Validate code secret now = true ->
     fst (ConfirmTOTP cfg now userID code ip ua w1) = None /\
     GetMFAStatus userID (snd (ConfirmTOTP cfg now userID code ip ua w1))
     = (true, true, None)) /\
  (forall now code ip ua,
     totp_Validate code secret now = false ->
     ConfirmTOTP cfg now userID code ip ua w1
     = (Some ErrInvalidMFACode, w1)).
Proof.
  intros Hk Hoff Hgen w1.
  set (enc := Base64.EncodeToString Base64.StdEncoding
                (fst (rand_Read 12 (snd (rand_Read 32 w))) ++
                 gcm_Seal (bytes_of_string (EncryptionKey cfg))
                   (fst (rand_Read 12 (snd (rand_Read 32 w))))
                   (bytes_of_string secret))).
  set (row := {| mfa_UserID := userID; mfa_SecretEncrypted := enc;
                 mfa_IsEnabled := false; mfa_VerifiedAt := None |}).
  assert (Hdec : decryptTOTPSecret cfg enc = Ok secret).
  { apply (decryptTOTPSecret_sealed cfg Seal_Open Hk).
    unfold rand_Read. cbn [fst]. rewrite length_map, length_seq.
    reflexivity. }
  assert (Hrun : fst (SetupTOTP cfg userID email w)
                 = Ok {| Secret := secret; QRCodeURL := url |} /\
                 AuthRepo.GetMFAByUserID userID w1 = Some row).
  { unfold w1, SetupTOTP. rewrite Hoff, Hgen.
    rewrite (encryptTOTPSecret_run cfg Hk). fold enc.
    destruct (AuthRepo.GetMFAByUserID userID w) as [m|] eqn:Hm;
      cbn [fst snd]; (split; [reflexivity|]).
    - rewrite (GetMFA_UserID userID m w Hm). fold row.
      apply (GetMFA_UpdateMFA userID m row); [exact Hm | reflexivity].
    - fold row. apply GetMFA_CreateMFA; [exact Hm | reflexivity]. }
  destruct Hrun as [Hfst Hrow].
  split; [exact Hfst|]. split; [|split; [|split]].
  - exists row. auto.
  - unfold GetMFAStatus. rewrite Hrow. reflexivity.
  - intros now code ip ua Hv.
    apply (ConfirmTOTP_enables cfg now userID code ip ua w1 row secret);
      auto.
  - intros now code ip ua Hv. unfold ConfirmTOTP. rewrite Hrow.
    cbn [row mfa_IsEnabled mfa_SecretEncrypted]. rewrite Hdec, Hv.
    reflexivity.
Qed.

Lemma SetupTOTP_then_ConfirmTOTP_witness :
  fst (SetupTOTP sample_cfg 2 "bob@x.com" sample_world)
  = Ok {| Secret := bob_secret;
          QRCodeURL := "otpauth://totp/Gerege:bob@x.com" |} /\
  GetMFAStatus 2
    (snd (ConfirmTOTP sample_cfg 3000 2 (substring 0 6 bob_secret)
            "10.0.0.1" "curl"
            (snd (SetupTOTP sample_cfg 2 "bob@x.com" sample_world))))
  = (true, true, None).
Proof.
  destruct (SetupTOTP_then_ConfirmTOTP sample_cfg sample_Seal_Open 2
              "bob@x.com" sample_world bob_secret
              "otpauth://totp/Gerege:bob@x.com")
    as (H1 & _ & _ & H2 & _).
  - vm_compute. reflexivity.
  - vm_compute. reflexivity.
  - vm_compute. reflexivity.
  - split; [exact H1|].
    apply (H2 3000 (substring 0 6 bob_secret) "10.0.0.1"%string
             "curl"%string).
    vm_compute. reflexivity.
Defined.

(** X24. Re-enrolment.  While MFA is enabled [SetupTOTP] fails with
    [ErrMFAAlreadyEnabled] and changes nothing; once [DisableTOTP] has
    succeeded, [SetupTOTP] is accepted again: it overwrites the secret of
    the user's MFA row, which is pending again, and adds no second
    row. *)
Theorem TOTP_re_enrolment {L : Libs} {E : EnrolLibs}
    (cfg : LocalAuthConfig) (Seal_Open : Seal_Open_law L E)
    (now userID : Z) (code ip ua email : string) (w : World)
    (mfa : UserMFATotp) (secret0 secret url : string) :
  length (bytes_of_string (EncryptionKey cfg)) = 32%nat ->
  AuthRepo.GetMFAByUserID userID w = Some mfa ->
  mfa_IsEnabled mfa = true ->
  decryptTOTPSecret cfg (mfa_SecretEncrypted mfa) = Ok secret0 ->
  totp_Validate code secret0 now = true ->
  totp_Generate (TOTPIssuer cfg) email (fst (rand_Read 32 w))
  = Ok (secret, url) ->
  let wd := snd (DisableTOTP cfg now userID code ip ua w) in
  let ws := snd (SetupTOTP cfg userID email wd) in
  SetupTOTP cfg userID email w = (Fail ErrMFAAlreadyEnabled, w) /\
  fst (DisableTOTP cfg now userID code ip ua w) = None /\
  fst (SetupTOTP cfg userID email wd)
  = Ok {| Secret := secret; QRCodeURL := url |} /\
  length (user_mfa_totp ws) = length (user_mfa_totp w) /\
  exists row,
    AuthRepo.GetMFAByUserID userID ws = Some row /\
    mfa_IsEnabled row = false /\
    mfa_VerifiedAt row = None /\
    decryptTOTPSecret cfg (mfa_SecretEncrypted row) = Ok secret.
Proof.
  intros Hk Hm He Hd Hv Hgen wd ws.
  split; [unfold SetupTOTP; rewrite Hm, He; reflexivity|].
  pose proof (DisableTOTP_run cfg now userID code ip ua w mfa secret0
                Hm He Hd Hv) as Hrun.
  pose proof (GetMFA_after_DisableTOTP cfg now userID code ip ua w mfa
                secret0 Hm He Hd Hv) as Hmd.
  fold wd in Hmd.
  split; [rewrite Hrun; reflexivity|].
  set (enc := Base64.EncodeToString Base64.StdEncoding
                (fst (rand_Read 12 (snd (rand_Read 32 wd))) ++
                 gcm_Seal (bytes_of_string (EncryptionKey cfg))
                   (fst (rand_Read 12 (snd (rand_Read 32 wd))))
                   (bytes_of_string secret))).
  set (row := {| mfa_UserID := userID; mfa_SecretEncrypted := enc;
                 mfa_IsEnabled := false; mfa_VerifiedAt := None |}).
  assert (Hgen' : totp_Generate (TOTPIssuer cfg) email (fst (rand_Read 32 wd))
                  = Ok (secret, url)).
  { unfold wd. rewrite Hrun. exact Hgen. }
  assert (Hsetup : SetupTOTP cfg userID email wd =
                   (Ok {| Secret := secret; QRCodeURL := url |},
                    AuthRepoExt.UpdateMFA row
                      (advance 12 (snd (rand_Read 32 wd))))).
  { unfold SetupTOTP. rewrite Hmd. unfold disabled.
    cbn [mfa_IsEnabled mfa_UserID].
    rewrite Hgen'. rewrite (encryptTOTPSecret_run cfg Hk). fold enc.
    rewrite (GetMFA_UserID userID mfa w Hm).
    reflexivity. }
  unfold ws. rewrite Hsetup. cbn [fst snd].
  split; [reflexivity|]. split.
  - unfold AuthRepoExt.UpdateMFA. cbn. rewrite length_map.
    unfold wd. rewrite Hrun. cbn. rewrite length_map. reflexivity.
  - exists row. split.
    + apply (GetMFA_UpdateMFA userID (disabled mfa) row);
        [exact Hmd | reflexivity].
    + split; [reflexivity|]. split; [reflexivity|].
      apply (decryptTOTPSecret_sealed cfg Seal_Open Hk).
      unfold rand_Read. cbn [fst]. rewrite length_map, length_seq.
      reflexivity.
Qed.

Lemma TOTP_re_enrolment_witness :
  SetupTOTP sample_cfg 3 "carol@x.com" world_mfa
  = (Fail ErrMFAAlreadyEnabled, world_mfa) /\
  fst (SetupTOTP sample_cfg 3 "carol@x.com"
         (snd (DisableTOTP sample_cfg 5000 3 "123456" "10.0.0.1" "curl"
                 world_mfa)))
  = Ok {| Secret := Base32.EncodeToString (fst (rand_Read 32 world_mfa));
          QRCodeURL := "otpauth://totp/Gerege:carol@x.com" |}.
Proof.
  destruct (TOTP_re_enrolment sample_cfg sample_Seal_Open 5000 3 "123456"
              "10.0.0.1" "curl" "carol@x.com" world_mfa carol_mfa_enabled
              sample_secret
              (Base32.EncodeToString (fst (rand_Read 32 world_mfa)))
              "otpauth://totp/Gerege:carol@x.com")
    as (H1 & _ & H2 & _).
  all: try (vm_compute; reflexivity).
  split; [exact H1 | exact H2].
Defined.

(** X25. A successful [DisableTOTP] removes the second factor: MFA is
    reported off without backup codes, every backup code of the user is
    deleted while those of other users stay, and the next [Login] with a
    password that verifies issues a session at once instead of asking
    for a code. *)
Theorem DisableTOTP_removes_second_factor {L : Libs} (cfg : LocalAuthConfig)
    (now userID : Z) (code ip ua : string) (w : World) (mfa : UserMFATotp)
    (secret : string) :
  AuthRepo.GetMFAByUserID userID w = Some mfa ->
  mfa_IsEnabled mfa = true ->
  decryptTOTPSecret cfg (mfa_SecretEncrypted mfa) = Ok secret ->
  totp_Validate code secret now = true ->
  let w' := snd (DisableTOTP cfg now userID code ip ua w) in
  fst (DisableTOTP cfg now userID code ip ua w) = None /\
  GetMFAStatus userID w' = (false, false, None) /\
  (forall c, In c (user_mfa_backup_codes w') -> bc_UserID c <> userID) /\
  (forall c, bc_UserID c <> userID ->
             In c (user_mfa_backup_codes w) ->
             In c (user_mfa_backup_codes w')) /\
  (forall now' req user hash n lock,
     account_state w (lr_Email req) user hash n lock ->
     u_Id user = userID ->
     match lock with Some t => now' <? t | None => false end = false ->
     verifyPassword (lr_Password req) hash = true ->
     exists session,
       fst (Login cfg now' req w')
       = Ok {| RequiresMFA := false; MFAToken := "";
               resp_Session := Some session; resp_User := Some user |}).
Proof.
  intros Hm He Hd Hv w'.
  pose proof (DisableTOTP_run cfg now userID code ip ua w mfa secret
                Hm He Hd Hv) as Hrun.
  pose proof (GetMFA_after_DisableTOTP cfg now userID code ip ua w mfa
                secret Hm He Hd Hv) as Hmd.
  fold w' in Hmd.
  assert (Hcodes : user_mfa_backup_codes w'
                   = List.filter (fun c => negb (bc_UserID c =? userID))
                       (user_mfa_backup_codes w)).
  { unfold w'. rewrite Hrun. reflexivity. }
  split; [rewrite Hrun; reflexivity|].
  split; [unfold GetMFAStatus; rewrite Hmd; reflexivity|].
  split; [|split].
  - intros c Hin. rewrite Hcodes in Hin.
    apply List.filter_In in Hin as [_ Hne].
    apply negb_true_iff, Z.eqb_neq in Hne. exact Hne.
  - intros c Hne Hin. rewrite Hcodes. apply List.filter_In.
    split; [exact Hin|]. apply negb_true_iff, Z.eqb_neq. exact Hne.
  - intros now' req user hash n lock Hst Hid Hlock Hpw.
    assert (Hst' : account_state w' (lr_Email req) user hash n lock).
    { unfold w'. rewrite Hrun. exact Hst. }
    rewrite (Login_verified cfg now' req w' user hash n lock Hst' Hlock Hpw).
    cbv zeta.
    change (AuthRepo.GetMFAByUserID (u_Id user)
              (AuthRepo.ResetFailedAttempts (u_Id user) w'))
      with (AuthRepo.GetMFAByUserID (u_Id user) w').
    rewrite Hid, Hmd. cbn [disabled mfa_IsEnabled].
    unfold createSession, rand_Read. cbn [fst snd].
    eexists. reflexivity.
Qed.

Lemma DisableTOTP_removes_second_factor_witness :
  fst (DisableTOTP sample_cfg 5000 3 "123456" "10.0.0.1" "curl" world_mfa)
  = None /\
  GetMFAStatus 3
    (snd (DisableTOTP sample_cfg 5000 3 "123456" "10.0.0.1" "curl"
            world_mfa))
  = (false, false, None).
Proof.
  destruct (DisableTOTP_removes_second_factor sample_cfg 5000 3 "123456"
              "10.0.0.1" "curl" world_mfa carol_mfa_enabled sample_secret)
    as (H1 & H2 & _).
  all: try (vm_compute; reflexivity).
  split; [exact H1 | exact H2].
Defined.

(** X26. The MFA management operations fail cleanly: whenever
    [ConfirmTOTP], [DisableTOTP] or [GenerateBackupCodes] returns an
    error, no store has changed and the random source has not been
    read; [GenerateBackupCodes] fails only with [ErrMFANotEnabled]. *)
Theorem MFA_operations_fail_cleanly {L : Libs} (cfg : LocalAuthConfig)
    (now userID : Z) (code ip ua : string) (w : World) :
  (forall e, fst (ConfirmTOTP cfg now userID code ip ua w) = Some e ->
             snd (ConfirmTOTP cfg now userID code ip ua w) = w) /\
  (forall e, fst (DisableTOTP cfg now userID code ip ua w) = Some e ->
             snd (DisableTOTP cfg now userID code ip ua w) = w) /\
  (forall e, fst (GenerateBackupCodes userID ip ua w) = Fail e ->
             e = ErrMFANotEnabled /\
             snd (GenerateBackupCodes userID ip ua w) = w).
Proof.
  split; [|split].
  - intros e. unfold ConfirmTOTP.
    destruct (AuthRepo.GetMFAByUserID userID w) as [m|]; [|reflexivity].
    destruct (mfa_IsEnabled m); [reflexivity|].
    destruct (decryptTOTPSecret cfg (mfa_SecretEncrypted m));
      [|reflexivity].
    destruct (negb (totp_Validate code a now)); [reflexivity|].
    destruct (generateBackupCodes userID (AuthRepo.EnableMFA now userID w))
      as [r w1]. cbn. discriminate.
  - intros e. unfold DisableTOTP.
    destruct (AuthRepo.GetMFAByUserID userID w) as [m|]; [|reflexivity].
    destruct (negb (mfa_IsEnabled m)); [reflexivity|].
    destruct (decryptTOTPSecret cfg (mfa_SecretEncrypted m));
      [|reflexivity].
    destruct (negb (totp_Validate code a now)); [reflexivity|].
    cbn. discriminate.
  - intros e. unfold GenerateBackupCodes.
    destruct (AuthRepo.GetMFAByUserID userID w) as [[? ? [] ?]|].
    + pose proof (generateBackupCodes_run userID
                    (AuthRepo.DeleteBackupCodes userID w)) as [Hc _].
      destruct (generateBackupCodes userID
                  (AuthRepo.DeleteBackupCodes userID w)) as [[cs|e'] w1];
        cbn [fst] in Hc; [|discriminate].
      cbn. discriminate.
    + cbn. intros [= <-]. auto.
    + cbn. intros [= <-]. auto.
Qed.

Lemma MFA_operations_fail_cleanly_witness :
  snd (ConfirmTOTP sample_cfg 3000 3 "000000" "10.0.0.1" "curl" sample_world)
  = sample_world.
Proof.
  apply (proj1 (MFA_operations_fail_cleanly sample_cfg 3000 3 "000000"
                  "10.0.0.1" "curl" sample_world) ErrInvalidMFACode).
  vm_compute. reflexivity.
Defined.

(** ** Registration and email verification *)

Section RegistrationFacts.

Context {L : Libs}.
Variable cfg : LocalAuthConfig.






End RegistrationFacts.




Section VerificationFacts.

Lemma GetEmailVerificationToken_marked (now : Z) (tok : string)
    (t : EmailVerificationToken) (rw : RegWorld) :
  RegRepoExt.GetEmailVerificationToken tok rw = Some t ->
  RegRepoExt.GetEmailVerificationToken tok
    (RegRepoExt.MarkEmailVerificationTokenUsed now (evt_ID t) rw)
  = Some (evt_mark_used now t).
Proof.
  unfold RegRepoExt.GetEmailVerificationToken,
    RegRepoExt.MarkEmailVerificationTokenUsed.
  cbn [email_verification_tokens upd_email_verification_tokens]. intros H.
  rewrite (find_map_preserved (fun r => String.eqb (evt_Token r) tok)).
  - rewrite H. cbn [option_map]. now rewrite Z.eqb_refl.
  - intros x. now destruct (evt_ID x =? evt_ID t).
Qed.

Lemma UpdateUserEmailVerified_tokens (now userID : Z) (rw : RegWorld) :
  email_verification_tokens (RegRepoExt.UpdateUserEmailVerified now userID rw)
  = email_verification_tokens rw /\
  auth (RegRepoExt.UpdateUserEmailVerified now userID rw) = auth rw.
Proof.
  unfold RegRepoExt.UpdateUserEmailVerified.
  destruct (existsb _ _); split; reflexivity.
Qed.

Context {L : Libs}.
Variable cfg : LocalAuthConfig.


End VerificationFacts.

(** X28. An email verification token works once, and activates the
    account whatever its status.  [VerifyEmail] with an unused token,
    up to and including its instant of expiry, returns nil, marks the
    token used, stamps the user as email-verified and sets the user's
    status to [active], without looking at the status the account had
    (it need not be [pending_verification]); the Credential rows are
    untouched; every later [VerifyEmail] with the same token fails with
    [ErrInvalidVerificationToken] and changes nothing.  After the
    expiry the first call already fails that way.  The handler answers
    the first call with success and the later ones with a bad
    request. *)
Theorem VerifyEmail_single_use (now : Z) (tok : string) (rw : RegWorld)
    (t : EmailVerificationToken) :
  RegRepoExt.GetEmailVerificationToken tok rw = Some t ->
  evt_IsUsed t = false ->
  (now <= evt_ExpiresAt t ->
   let rw' := snd (VerifyEmail now tok rw) in
   fst (VerifyEmail now tok rw) = None /\
   RegRepoExt.GetEmailVerificationToken tok rw'
   = Some (evt_mark_used now t) /\
   (forall email user,
      AuthRepo.GetUserByEmail email (auth rw) = Some user ->
      u_Id user = evt_UserID t ->
      exists user',
        AuthRepo.GetUserByEmail email (auth rw') = Some user' /\
        u_Id user' = u_Id user /\
        u_Status user' = UserStatusActive /\
        email_verified_at rw' !! u_Id user = Some now) /\
   user_credentials (auth rw') = user_credentials (auth rw) /\
   (forall now',
      VerifyEmail now' tok rw' = (Some ErrInvalidVerificationToken, rw') /\
      RegistrationHandler.VerifyEmail now' tok rw'
      = (RespBadRequest "invalid or expired verification token", rw')) /\
   RegistrationHandler.VerifyEmail now tok rw
   = (RespOK true "Email verified successfully. You can now log in.", rw')) /\
  (evt_ExpiresAt t < now ->
   VerifyEmail now tok rw = (Some ErrInvalidVerificationToken, rw)).
Proof.
  intros Ht Hused. split; intros Hnow.
  - set (rwm := RegRepoExt.MarkEmailVerificationTokenUsed now (evt_ID t) rw).
    set (rw2 := upd_auth
                  (AuthRepoExt.UpdateUserStatus (evt_UserID t)
                     UserStatusActive "email verified" 0)
                  (RegRepoExt.UpdateUserEmailVerified now
                     (evt_UserID t) rwm)).
    assert (Hrun : VerifyEmail now tok rw = (None, rw2)).
    { unfold VerifyEmail. rewrite Ht, Hused. unfold evt_IsExpired.
      replace (evt_ExpiresAt t <? now) with false
        by (symmetry; apply Z.ltb_ge; exact Hnow).
      reflexivity. }
    cbv zeta. rewrite Hrun. cbn [fst snd].
    destruct (UpdateUserEmailVerified_tokens now (evt_UserID t) rwm)
      as [Htoks Hauth].
    assert (Hget : RegRepoExt.GetEmailVerificationToken tok rw2
                   = Some (evt_mark_used now t)).
    { unfold RegRepoExt.GetEmailVerificationToken, rw2.
      cbn [upd_auth email_verification_tokens]. rewrite Htoks.
      apply (GetEmailVerificationToken_marked now tok t rw Ht). }
    split; [reflexivity|]. split; [exact Hget|].
    split; [|split].
    + intros email user Hu Hid.
      exists (with_status (evt_UserID t) UserStatusActive user).
      unfold rw2. cbn [upd_auth auth email_verified_at]. rewrite Hauth.
      change (auth rwm) with (auth rw).
      rewrite GetUser_AuthRepo_UpdateUserStatus, Hu.
      split; [reflexivity|].
      unfold with_status. rewrite Hid, Z.eqb_refl. cbn [u_Id u_Status].
      split; [reflexivity|]. split; [reflexivity|].
      unfold RegRepoExt.UpdateUserEmailVerified.
      change (auth rwm) with (auth rw).
      replace (existsb (fun u => u_Id u =? evt_UserID t) (users (auth rw)))
        with true.
      * cbn. apply lookup_insert_eq.
      * symmetry. apply existsb_exists. exists user. split.
        -- unfold AuthRepo.GetUserByEmail in Hu.
           apply find_some in Hu as [Hin _]. exact Hin.
        -- apply Z.eqb_eq. exact Hid.
    + unfold rw2. cbn [upd_auth auth]. rewrite Hauth. reflexivity.
    + assert (Hagain : forall now',
                VerifyEmail now' tok rw2
                = (Some ErrInvalidVerificationToken, rw2)).
      { intros now'. unfold VerifyEmail. rewrite Hget.
        cbn [evt_mark_used evt_IsUsed evt_UsedAt]. rewrite orb_true_r.
        reflexivity. }
      split.
      * intros now'. split; [apply Hagain|].
        unfold RegistrationHandler.VerifyEmail. rewrite Hagain.
        reflexivity.
      * unfold RegistrationHandler.VerifyEmail. rewrite Hrun. reflexivity.
  - unfold VerifyEmail. rewrite Ht. unfold evt_IsExpired.
    replace (evt_ExpiresAt t <? now) with true
      by (symmetry; apply Z.ltb_lt; exact Hnow).
    reflexivity.
Qed.

Lemma VerifyEmail_single_use_witness :
  AuthRepo.GetUserByEmail "dave@x.com" (auth world_dave_suspended)
  = Some (with_status 4 UserStatusSuspended dave) /\
  exists user',
    AuthRepo.GetUserByEmail "dave@x.com"
      (auth (snd (VerifyEmail 8200 dave_token world_dave_suspended)))
    = Some user' /\
    u_Status user' = UserStatusActive.
Proof.
  assert (Hu : AuthRepo.GetUserByEmail "dave@x.com"
                 (auth world_dave_suspended)
               = Some (with_status 4 UserStatusSuspended dave))
    by (vm_compute; reflexivity).
  split; [exact Hu|].
  assert (Ht : RegRepoExt.GetEmailVerificationToken dave_token
                 world_dave_suspended = Some dave_verification)
    by (vm_compute; reflexivity).
  assert (Hn : 8200 <= evt_ExpiresAt dave_verification)
    by (vm_compute; discriminate).
  destruct (proj1 (VerifyEmail_single_use 8200 dave_token
                     world_dave_suspended dave_verification Ht eq_refl) Hn)
    as (_ & _ & H & _).
  destruct (H "dave@x.com"%string (with_status 4 UserStatusSuspended dave)
              Hu eq_refl) as (user' & H1 & _ & H2 & _).
  exists user'. split; [exact H1 | exact H2].
Defined.

(** X29. What [ResendVerificationEmail] and its handler answer.  For an
    unknown email the service returns nil and changes nothing; for an
    account in any status other than [active] it returns nil and
    replaces the account's verification tokens by one fresh unused token
    that expires 24 hours later; in both cases the handler gives the
    same generic answer.  For an [active] account the service fails
    with [ErrUserAlreadyVerified], changing nothing, and the handler
    answers bad request: the answer tells an active account from an
    unknown email. *)
Theorem ResendVerification_answers (now : Z) (email : string)
    (rw : RegWorld) :
  let r := ResendVerificationEmail now email rw in
  let h := RegistrationHandler.ResendVerification now email rw in
  let generic :=
    RespOK true
      "If an account exists with this email, a verification link has been sent." in
  (AuthRepo.GetUserByEmail email (auth rw) = None ->
   r = (None, rw) /\ h = (generic, rw)) /\
  (forall user,
     AuthRepo.GetUserByEmail email (auth rw) = Some user ->
     u_Status user = UserStatusActive ->
     r = (Some ErrUserAlreadyVerified, rw) /\
     h = (RespBadRequest "user is already verified", rw) /\
     fst h <> generic) /\
  (forall user,
     AuthRepo.GetUserByEmail email (auth rw) = Some user ->
     u_Status user <> UserStatusActive ->
     fst r = None /\
     fst h = generic /\
     email_verification_tokens (snd r) =
       List.filter (fun t => negb (evt_UserID t =? u_Id user))
         (email_verification_tokens rw)
       ++ [ {| evt_ID := verification_token_seq rw + 1;
               evt_UserID := u_Id user;
               evt_Token := fst (generateSecureToken (auth rw));
               evt_ExpiresAt := now + 24 * hour;
               evt_UsedAt := None |} ]).
Proof.
  cbv zeta. unfold RegistrationHandler.ResendVerification,
    ResendVerificationEmail.
  split; [|split].
  - intros ->. split; reflexivity.
  - intros user -> ->. cbn. split; [reflexivity|]. split; [reflexivity|].
    discriminate.
  - intros user -> Hs.
    destruct (String.eqb_spec (u_Status user) UserStatusActive) as [E|_];
      [contradiction|].
    unfold generateSecureToken, rand_Read. cbn. auto.
Qed.

Lemma ResendVerification_answers_witness :
  fst (RegistrationHandler.ResendVerification 9000 "alice@x.com"
         sample_reg_world)
  = RespBadRequest "user is already verified" /\
  fst (RegistrationHandler.ResendVerification 9000 "nobody@x.com"
         sample_reg_world)
  = fst (RegistrationHandler.ResendVerification 9000 "dave@x.com"
           world_registered).
Proof.
  split.
  - destruct (proj1 (proj2 (ResendVerification_answers 9000 "alice@x.com"
                              sample_reg_world)) alice)
      as (_ & H & _).
    + vm_compute. reflexivity.
    + reflexivity.
    + rewrite H. reflexivity.
  - destruct (proj1 (ResendVerification_answers 9000 "nobody@x.com"
                       sample_reg_world)) as [_ H1].
    + vm_compute. reflexivity.
    + destruct (proj2 (proj2 (ResendVerification_answers 9000 "dave@x.com"
                                world_registered)) dave)
        as (_ & H2 & _).
      * vm_compute. reflexivity.
      * vm_compute. discriminate.
      * rewrite H1, H2. reflexivity.
Defined.


